(** * gengitIA: candidate scoring, ranking and talent search

    A shallow embedding of the recruitment API's scoring pipeline
    ([services/ai_service.py]), its database gateway
    ([services/database_service.py], [database.py]) and the ranking and
    comment endpoints ([main.py]), with the properties the specification
    states about them.

    Conventions of the embedding.
    - Python [float] scores are exact rationals ([Q]); [0.7] is [7/10].
      Rounding, NaN and infinities are outside this model; where the
      rounding of a score matters, the arithmetic of the code is also
      given on binary64 floats ([professional_score_double]).
    - Python values of type [Any] that come out of [json.loads] are
      values of the type [json]; [None] is [JNull], a list is [JArr].
      A number of a document is a rational: [NaN], [Infinity] and an
      integer too large for a float are not among them.
    - A string is the sequence of its bytes: a slice and an iteration
      count bytes, which are the characters of Python on ASCII text.
    - [str.lower], [str.split], [str.strip], [json.loads] and [float] on
      a string are builtins of the Python runtime: they are the fields of
      the class [PyRuntime], and every theorem holds for each instance.
    - An exception is a value of [exn]; code that can raise returns an
      [outcome]. *)

From Stdlib Require Import QArith Lqa Lia ZArith Ascii String Sorting.Sorted.
From Stdlib Require Import PrimFloat.
From Stdlib Require Uint63.
From stdpp Require Import base list strings gmap sorting.

Set Warnings "-register-all,-inexact-float".
Open Scope string_scope.

(* ================================================================== *)
(** ** Python values, exceptions and builtins *)
(* ================================================================== *)

Inductive exn : Type :=
  | JSONDecodeError
  | AttributeError
  | TypeError
  | ValueError
  | UnboundLocalError
  | APIError
  | DatabaseError.

Inductive outcome (A : Type) : Type :=
  | Ok (a : A)
  | Raise (e : exn).
Arguments Ok {A} a.
Arguments Raise {A} e.

Definition obind {A B} (m : outcome A) (f : A -> outcome B) : outcome B :=
  match m with
  | Ok a => f a
  | Raise e => Raise e
  end.

Notation "x <~ m ;; k" := (obind m (fun x => k))
  (at level 100, m at next level, k at level 200, right associativity).

Inductive json : Type :=
  | JNull
  | JBool (b : bool)
  | JNum (q : Q)
  | JStr (s : string)
  | JArr (l : list json)
  | JObj (m : list (string * json)).

(** [d.get(k, default)] on a parsed JSON object. *)
Fixpoint dict_get (m : list (string * json)) (k : string) (default : json) : json :=
  match m with
  | [] => default
  | (k', v) :: m' => if String.eqb k' k then v else dict_get m' k default
  end.

(** [k in d]. *)
Fixpoint dict_has (m : list (string * json)) (k : string) : bool :=
  match m with
  | [] => false
  | (k', _) :: m' => String.eqb k' k || dict_has m' k
  end.

(** Python truthiness of a JSON value. *)
Definition truthy (v : json) : bool :=
  match v with
  | JNull => false
  | JBool b => b
  | JNum q => negb (Qeq_bool q 0%Q)
  | JStr s => negb (String.eqb s "")
  | JArr l => match l with [] => false | _ => true end
  | JObj m => match m with [] => false | _ => true end
  end.

Definition is_list (v : json) : bool :=
  match v with JArr _ => true | _ => false end.

Class PyRuntime : Type := {
  (** [s.lower()] *)
  str_lower : string -> string;
  (** [s.split()]: the whitespace-separated words of [s] *)
  str_split : string -> list string;
  (** [s.strip()] *)
  str_strip : string -> string;
  (** [json.loads(s)]; [None] stands for [json.JSONDecodeError] *)
  json_loads : string -> option json;
  (** [float(s)] on a string; [None] stands for [ValueError] *)
  float_of_str : string -> option Q
}.

(** [needle in hay] on strings. *)
Fixpoint str_contains (needle hay : string) : bool :=
  String.prefix needle hay ||
  match hay with
  | EmptyString => false
  | String _ hay' => str_contains needle hay'
  end.

(** [s[n:]] and [s[:-n]] for a non-negative literal [n], [s[:n]]. *)
Definition str_from (n : nat) (s : string) : string :=
  String.substring n (String.length s - n) s.
Definition str_drop_end (n : nat) (s : string) : string :=
  String.substring 0 (String.length s - n) s.
Definition str_upto (n : nat) (s : string) : string :=
  String.substring 0 n s.

Definition str_endswith (s suffix : string) : bool :=
  String.prefix (String.rev suffix) (String.rev s).

(** [sep.join(l)] *)
Definition str_join (sep : string) (l : list string) : string :=
  String.concat sep l.

(** The characters of a string, as Python iterates over it. *)
Fixpoint str_chars (s : string) : list string :=
  match s with
  | EmptyString => []
  | String a s' => String a EmptyString :: str_chars s'
  end.

(** [s.split(sep)] for a non-empty separator: [skip] counts the
    characters of a separator that was just matched and is still to be
    passed over, [cur] is the piece read so far. *)
Fixpoint str_split_on (sep : string) (skip : nat) (cur : string) (s : string)
  : list string :=
  match s with
  | EmptyString => [cur]
  | String a s' =>
      match skip with
      | S k => str_split_on sep k cur s'
      | O =>
          if String.prefix sep s
          then cur :: str_split_on sep (String.length sep - 1) EmptyString s'
          else str_split_on sep 0 (cur +:+ String a EmptyString) s'
      end
  end.

Definition str_split_sep (sep s : string) : list string :=
  str_split_on sep 0 EmptyString s.

(** [float(v)] on a JSON value. *)
Definition py_float `{PyRuntime} (v : json) : outcome Q :=
  match v with
  | JNum q => Ok q
  | JBool b => Ok (if b then 1%Q else 0%Q)
  | JStr s =>
      match float_of_str s with
      | Some q => Ok q
      | None => Raise ValueError
      end
  | JNull | JArr _ | JObj _ => Raise TypeError
  end.

(** [[s.lower() for s in v]] where [v] came out of a JSON document. *)
Fixpoint all_strs (l : list json) : outcome (list string) :=
  match l with
  | [] => Ok []
  | JStr s :: l' => r <~ all_strs l' ;; Ok (s :: r)
  | _ :: _ => Raise AttributeError
  end.

Definition lower_each `{PyRuntime} (v : json) : outcome (list string) :=
  match v with
  | JArr l => r <~ all_strs l ;; Ok (str_lower <$> r)
  | JStr s => Ok (str_lower <$> str_chars s)
  | JObj m => Ok (str_lower <$> (fst <$> m))
  | JNull | JBool _ | JNum _ => Raise TypeError
  end.

(** [v.lower()] where [v] came out of a JSON document. *)
Definition lower_of `{PyRuntime} (v : json) : outcome string :=
  match v with
  | JStr s => Ok (str_lower s)
  | _ => Raise AttributeError
  end.

Definition Qltb (a b : Q) : bool := negb (Qle_bool b a).

Definition Qnat (n : nat) : Q := inject_Z (Z.of_nat n).

(** [list.sort(key=..., reverse=True)]: a stable sort into descending
    order; [geb x y] says that the key of [x] is at least the key of [y]. *)
Fixpoint insert_desc {A} (geb : A -> A -> bool) (x : A) (l : list A) : list A :=
  match l with
  | [] => [x]
  | y :: l' => if geb x y then x :: y :: l' else y :: insert_desc geb x l'
  end.

Fixpoint sort_desc {A} (geb : A -> A -> bool) (l : list A) : list A :=
  match l with
  | [] => []
  | x :: l' => insert_desc geb x (sort_desc geb l')
  end.

(** [l[:n]] for an integer [n]: a negative [n] counts from the end. *)
Definition py_slice_to {A} (n : Z) (l : list A) : list A :=
  if (n <? 0)%Z
  then take (Z.to_nat (Z.of_nat (length l) + n)) l
  else take (Z.to_nat n) l.

(* ================================================================== *)
(** ** services/ai_service.py *)
(* ================================================================== *)

(** The fields of the candidate and job dictionaries that the gateway
    builds ([get_candidate_data], [get_job_data]). *)
Record candidate_data : Type := {
  cd_id : Z;
  cd_name : string;
  cd_email : string;
  cd_skills : list string;
  cd_profile : string
}.

Record job_data : Type := {
  jd_id : Z;
  jd_title : string;
  jd_description : string;
  jd_level : string;
  jd_required_skills : list string
}.

(** The dictionary returned by the compatibility analysis.  The three
    scores went through [float]; the other fields are whatever the
    reply held, or the literals of the fallback. *)
Record analysis : Type := {
  compatibility_score : Q;
  cultural_fit_score : Q;
  professional_fit_score : Q;
  ai_analysis : json;
  red_flags : json;
  strengths : json;
  recommendation : json;
  suggested_questions : json
}.

(** [candidate_skills.intersection(job_skills)] *)
Definition common_skills (candidate : candidate_data) (job : job_data) : gset string :=
  let candidate_skills : gset string := list_to_set (cd_skills candidate) in
  let job_skills : gset string := list_to_set (jd_required_skills job) in
  candidate_skills ∩ job_skills.

(** [(len(common_skills) / len(job_skills) * 100) if job_skills else 0] *)
Definition professional_score (candidate : candidate_data) (job : job_data) : Q :=
  let job_skills : gset string := list_to_set (jd_required_skills job) in
  if decide (job_skills = ∅) then 0%Q
  else (Qnat (size (common_skills candidate job)) / Qnat (size job_skills) * 100)%Q.

Definition fallback_text : string :=
  "Análise automática baseada em skills. Análise detalhada temporariamente indisponível.".

Definition _get_fallback_analysis (candidate : candidate_data) (job : job_data)
  : analysis :=
  let professional := professional_score candidate job in
  {| compatibility_score := (professional * (7 # 10))%Q;
     cultural_fit_score := 50%Q;
     professional_fit_score := professional;
     ai_analysis := JStr fallback_text;
     red_flags := JArr [];
     strengths := JArr (JStr <$> elements (common_skills candidate job));
     recommendation := JStr "EM_ANALISE";
     suggested_questions := JArr [] |}.

Definition _extract_info_from_text (text : string)
    (candidate : candidate_data) (job : job_data) : analysis :=
  let professional := professional_score candidate job in
  {| compatibility_score := (professional * (7 # 10))%Q;
     cultural_fit_score := 50%Q;
     professional_fit_score := professional;
     ai_analysis := JStr (str_upto 500 text);
     red_flags := JArr [];
     strengths := JArr (JStr <$> elements (common_skills candidate job));
     recommendation := JStr "EM_ANALISE";
     suggested_questions := JArr [] |}.

(** *** The scores of the heuristic on Python's floats *)

(** [len(...)] as an operand of [/]: the float of a count (exact below
    2^53). *)
Definition float_of_len (n : nat) : float :=
  PrimFloat.of_uint63 (Uint63.of_Z (Z.of_nat n)).

(** [(len(common_skills) / len(job_skills) * 100) if job_skills else 0]
    in binary64: the quotient is rounded, and then its product with
    100. *)
Definition professional_score_double (candidate : candidate_data) (job : job_data)
  : float :=
  let job_skills : gset string := list_to_set (jd_required_skills job) in
  if decide (job_skills = ∅) then 0%float
  else (float_of_len (size (common_skills candidate job))
        / float_of_len (size job_skills) * 100)%float.

(** [professional_score * 0.7] in binary64. *)
Definition compatibility_score_double (candidate : candidate_data) (job : job_data)
  : float :=
  (professional_score_double candidate job * 0.7)%float.

(** The reply's markdown fence is removed before parsing. *)
Definition unfence `{PyRuntime} (response_text : string) : string :=
  let t := str_strip response_text in
  let t := if String.prefix "```json" t then str_from 7 t else t in
  let t := if String.prefix "```" t then str_from 3 t else t in
  let t := if str_endswith t "```" then str_drop_end 3 t else t in
  str_strip t.

(** The dictionary built from a parsed reply: [analysis.get(...)] on
    each field, [float] on the scores. *)
Definition analysis_of_reply `{PyRuntime} (parsed : json) : outcome analysis :=
  match parsed with
  | JObj m =>
      c <~ py_float (dict_get m "compatibility_score" (JNum 0%Q)) ;;
      u <~ py_float (dict_get m "cultural_fit_score" (JNum 0%Q)) ;;
      p <~ py_float (dict_get m "professional_fit_score" (JNum 0%Q)) ;;
      Ok {| compatibility_score := c;
            cultural_fit_score := u;
            professional_fit_score := p;
            ai_analysis := dict_get m "analysis" (JStr EmptyString);
            red_flags := dict_get m "red_flags" (JArr []);
            strengths := dict_get m "strengths" (JArr []);
            recommendation := dict_get m "recommendation" (JStr "EM_ANALISE");
            suggested_questions := dict_get m "suggested_questions" (JArr []) |}
  | _ => Raise AttributeError
  end.

(** Only [json.JSONDecodeError] is handled here; any other exception
    leaves the function. *)
Definition _parse_analysis_response `{PyRuntime} (response_text : string)
    (candidate : candidate_data) (job : job_data) : outcome analysis :=
  let response_text := unfence response_text in
  match json_loads response_text with
  | None => Ok (_extract_info_from_text response_text candidate job)
  | Some parsed => analysis_of_reply parsed
  end.

(** What [client.chat.completions.create] did: it raised, or it returned
    a message whose content is a text or [None]. *)
Inductive completion : Type :=
  | CompletionError
  | CompletionContent (content : option string).

(** The body of the [try] block of [analyze_candidate_compatibility]. *)
Definition analyze_body `{PyRuntime} (reply : completion)
    (candidate : candidate_data) (job : job_data) : outcome analysis :=
  match reply with
  | CompletionError => Raise APIError
  | CompletionContent None => Raise AttributeError
  | CompletionContent (Some analysis_text) =>
      _parse_analysis_response analysis_text candidate job
  end.

(** [except Exception]: the fallback analysis is returned. *)
Definition analyze_candidate_compatibility `{PyRuntime} (reply : completion)
    (candidate : candidate_data) (job : job_data) : outcome analysis :=
  match analyze_body reply candidate job with
  | Ok a => Ok a
  | Raise _ => Ok (_get_fallback_analysis candidate job)
  end.

(** *** Talent search *)

(** A candidate dictionary as the search endpoint builds it;
    [t_level] and [t_area] are [candidate.get("level", "")] and
    [candidate.get("area", "")]. *)
Record talent : Type := {
  t_id : Z;
  t_name : string;
  t_email : string;
  t_skills : list string;
  t_profile : string;
  t_level : string;
  t_area : string
}.

(** [{**candidate, "relevance_score": score}] *)
Record scored : Type := {
  candidate : talent;
  relevance_score : Q
}.

Definition by_relevance (x y : scored) : bool :=
  Qle_bool (relevance_score y) (relevance_score x).

(** The score of one candidate in [_rank_candidates_by_criteria]. *)
Definition criteria_score `{PyRuntime} (criteria : json) (c : talent) : outcome Q :=
  match criteria with
  | JObj m =>
      let score := 0%Q in
      let candidate_skills := str_lower <$> t_skills c in
      required_skills <~ lower_each (dict_get m "skills" (JArr [])) ;;
      let matching_skills : gset string :=
        list_to_set candidate_skills ∩ list_to_set required_skills in
      let score :=
        match required_skills with
        | [] => score
        | _ :: _ =>
            (score + Qnat (size matching_skills) / Qnat (length required_skills) * 50)%Q
        end in
      let candidate_level := str_lower (t_level c) in
      required_level <~ lower_of (dict_get m "level" (JStr EmptyString)) ;;
      let score :=
        if negb (String.eqb required_level EmptyString)
           && negb (String.eqb required_level "qualquer")
        then
          if str_contains required_level candidate_level
             || str_contains candidate_level required_level
          then (score + 30)%Q else score
        else score in
      let candidate_area := str_lower (t_area c) in
      required_area <~ lower_of (dict_get m "area" (JStr EmptyString)) ;;
      let score :=
        if negb (String.eqb required_area EmptyString)
           && str_contains required_area candidate_area
        then (score + 20)%Q else score in
      Ok score
  | _ => Raise AttributeError
  end.

Fixpoint score_all `{PyRuntime} (criteria : json) (candidates : list talent)
  : outcome (list scored) :=
  match candidates with
  | [] => Ok []
  | c :: rest =>
      score <~ criteria_score criteria c ;;
      scored_rest <~ score_all criteria rest ;;
      Ok ({| candidate := c; relevance_score := score |} :: scored_rest)
  end.

Definition _rank_candidates_by_criteria `{PyRuntime}
    (candidates : list talent) (criteria : json) : outcome (list scored) :=
  scored_candidates <~ score_all criteria candidates ;;
  Ok (sort_desc by_relevance scored_candidates).

(** The haystack of a candidate: [f"{name} {skills} {profile}"]. *)
Definition haystack `{PyRuntime} (c : talent) : string :=
  let name := str_lower (t_name c) in
  let skills := str_join " " (str_lower <$> t_skills c) in
  let profile := str_lower (t_profile c) in
  name +:+ " " +:+ skills +:+ " " +:+ profile.

(** The score of one candidate in [_simple_text_search]. *)
Definition text_score `{PyRuntime} (query_lower : string) (c : talent) : Q :=
  let text := haystack c in
  if str_contains query_lower text then 100%Q
  else
    let query_words : gset string := list_to_set (str_split query_lower) in
    let text_words : gset string := list_to_set (str_split text) in
    let common := query_words ∩ text_words in
    if decide (query_words = ∅) then 0%Q
    else (Qnat (size common) / Qnat (size query_words) * 100)%Q.

Definition _simple_text_search `{PyRuntime}
    (candidates : list talent) (query : string) : list scored :=
  let query_lower := str_lower query in
  let scored :=
    (fun c => {| candidate := c; relevance_score := text_score query_lower c |})
      <$> candidates in
  List.filter (fun c => Qltb 0 (relevance_score c)) (sort_desc by_relevance scored).

(** The body of the [try] block of [search_talent_pool]:
    [json.loads] is applied to the reply as it is. *)
Definition search_body `{PyRuntime} (reply : completion)
    (candidates : list talent) : outcome (list scored) :=
  match reply with
  | CompletionError => Raise APIError
  | CompletionContent None => Raise TypeError
  | CompletionContent (Some content) =>
      match json_loads content with
      | None => Raise JSONDecodeError
      | Some search_criteria => _rank_candidates_by_criteria candidates search_criteria
      end
  end.

(** [except Exception]: the plain text search answers. *)
Definition search_talent_pool `{PyRuntime} (reply : completion)
    (query : string) (candidates : list talent) : list scored :=
  match search_body reply candidates with
  | Ok ranked_candidates => ranked_candidates
  | Raise _ => _simple_text_search candidates query
  end.

(* ================================================================== *)
(** ** database.py and services/database_service.py *)
(* ================================================================== *)

(** The calls of the gateway, by which the environment decides whether
    the database fails. *)
Inductive db_call : Type :=
  | GetCandidateData (candidate_id : Z)
  | GetJobData (job_id : Z)
  | GetAllCandidates
  | SaveModelResult (candidate_id job_id : Z)
  | SaveComment (candidate_id : Z)
  | GetCandidateComments (candidate_id : Z)
  | GetCandidateModelResults (candidate_id : Z).

(** [AcquireFails]: [db.get_connection()] raises.  [ExecuteFails]: the
    connection is handed out and a statement run on it raises. *)
Inductive db_fault : Type :=
  | NoFault
  | AcquireFails
  | ExecuteFails.

Record user_row : Type := {
  u_id : Z;
  u_nome : string;
  u_email : string
}.

Record job_row : Type := {
  j_id : Z;
  j_titulo : string;
  j_descricao : option string;
  j_nivel : option string
}.

(** A row of MODEL_RESULTS as [PRC_INSERT_MODEL_RESULT] receives it. *)
Record model_result_row : Type := {
  mr_id : Z;
  mr_user_id : Z;
  mr_job_id : Z;
  mr_score_afinidade_cultural : Q;
  mr_score_compatibilidade_profissional : Q;
  mr_red_flags : option string;
  mr_recomendacao : json;
  mr_detalhes : json
}.

(** A row of CANDIDATE_COMMENTS. *)
Record comment_row : Type := {
  cm_id : Z;
  cm_candidate_id : Z;
  cm_comment_text : string;
  cm_tags : option string;
  cm_created_at : Z;
  cm_created_by : string
}.

Inductive log_entry : Type :=
  | LogGateway (call : db_call)
  | LogRanking (candidate_id : Z)
  | LogEndpoint (call : db_call).

(** The environment of a request: what the read-only queries answer,
    what the model service replies, where the database fails, the two
    tables the code writes to, the connections out of the pool, the log. *)
Record world : Type := {
  w_candidate : Z -> option user_row;
  w_skills_of : Z -> list string;
  w_job : Z -> option job_row;
  w_job_skills : Z -> list string;
  w_candidates : list user_row;
  w_reply : Z -> Z -> completion;
  w_fault : db_call -> db_fault;
  w_now : Z;
  w_db_user : string;
  w_next_id : Z;
  w_model_results : list model_result_row;
  w_comments : list comment_row;
  w_leased : nat;
  w_log : list log_entry
}.

Definition set_leased (n : nat) (w : world) : world :=
  {| w_candidate := w_candidate w; w_skills_of := w_skills_of w;
     w_job := w_job w; w_job_skills := w_job_skills w;
     w_candidates := w_candidates w; w_reply := w_reply w;
     w_fault := w_fault w; w_now := w_now w; w_db_user := w_db_user w;
     w_next_id := w_next_id w; w_model_results := w_model_results w;
     w_comments := w_comments w; w_leased := n; w_log := w_log w |}.

Definition set_log (l : list log_entry) (w : world) : world :=
  {| w_candidate := w_candidate w; w_skills_of := w_skills_of w;
     w_job := w_job w; w_job_skills := w_job_skills w;
     w_candidates := w_candidates w; w_reply := w_reply w;
     w_fault := w_fault w; w_now := w_now w; w_db_user := w_db_user w;
     w_next_id := w_next_id w; w_model_results := w_model_results w;
     w_comments := w_comments w; w_leased := w_leased w; w_log := l |}.

Definition set_tables (next_id : Z) (results : list model_result_row)
    (comments : list comment_row) (w : world) : world :=
  {| w_candidate := w_candidate w; w_skills_of := w_skills_of w;
     w_job := w_job w; w_job_skills := w_job_skills w;
     w_candidates := w_candidates w; w_reply := w_reply w;
     w_fault := w_fault w; w_now := w_now w; w_db_user := w_db_user w;
     w_next_id := next_id; w_model_results := results;
     w_comments := comments; w_leased := w_leased w; w_log := w_log w |}.


(** [db.get_connection()] when it succeeds, and [db.pool.release(conn)]. *)
Definition acquire (w : world) : world := set_leased (S (w_leased w)) w.
Definition release (w : world) : world := set_leased (pred (w_leased w)) w.
(** [logger.error(...)] *)
Definition log_error (e : log_entry) (w : world) : world :=
  set_log (w_log w ++ [e]) w.

(** [get_candidate_data]: [conn] is first assigned inside the [try], so
    the handler's [if conn:] raises when the acquisition itself failed;
    the [return None] of a missing row comes before the release. *)
Definition get_candidate_data (candidate_id : Z) (w : world)
  : outcome (option candidate_data) * world :=
  let call := GetCandidateData candidate_id in
  match w_fault w call with
  | AcquireFails => (Raise UnboundLocalError, log_error (LogGateway call) w)
  | ExecuteFails =>
      let w := acquire w in
      (Ok None, release (log_error (LogGateway call) w))
  | NoFault =>
      let w := acquire w in
      match w_candidate w candidate_id with
      | None => (Ok None, w)
      | Some row =>
          let candidate :=
            {| cd_id := u_id row; cd_name := u_nome row; cd_email := u_email row;
               cd_skills := w_skills_of w candidate_id;
               cd_profile := EmptyString |} in
          (Ok (Some candidate), release w)
      end
  end.

(** [get_job_data]: [conn = None] precedes the [try]. *)
Definition get_job_data (job_id : Z) (w : world) : option job_data * world :=
  let call := GetJobData job_id in
  match w_fault w call with
  | AcquireFails => (None, log_error (LogGateway call) w)
  | ExecuteFails =>
      let w := acquire w in
      (None, release (log_error (LogGateway call) w))
  | NoFault =>
      let w := acquire w in
      match w_job w job_id with
      | None => (None, w)
      | Some row =>
          let job :=
            {| jd_id := j_id row; jd_title := j_titulo row;
               jd_description := default EmptyString (j_descricao row);
               jd_level := default EmptyString (j_nivel row);
               jd_required_skills := w_job_skills w job_id |} in
          (Some job, release w)
      end
  end.

Definition get_all_candidates (w : world) : list user_row * world :=
  match w_fault w GetAllCandidates with
  | AcquireFails => ([], log_error (LogGateway GetAllCandidates) w)
  | ExecuteFails =>
      let w := acquire w in
      ([], release (log_error (LogGateway GetAllCandidates) w))
  | NoFault =>
      let w := acquire w in
      (w_candidates w, release w)
  end.

(** [", ".join(v) if v else None] on a value of the analysis; [join]
    raises on a value that is no iterable of strings. *)
Definition join_if_any (v : json) : outcome (option string) :=
  if truthy v then
    match v with
    | JArr l => r <~ all_strs l ;; Ok (Some (str_join ", " r))
    | JStr s => Ok (Some (str_join ", " (str_chars s)))
    | JObj m => Ok (Some (str_join ", " (fst <$> m)))
    | _ => Raise TypeError
    end
  else Ok None.

(** [conn.rollback()]: the tables are again those of [before]. *)
Definition rollback (before w : world) : world :=
  set_tables (w_next_id w) (w_model_results before) (w_comments before) w.

(** A variable bound to an OUT parameter of a PL/SQL block:
    [getvalue()] answers the number itself, or [None] while the
    variable holds nothing.  (A variable filled by RETURNING INTO
    answers a list; see [cursor_var].) *)
Definition out_var : Type := option Z.

(** [v.getvalue()[0] if v.getvalue() else None] on such a variable:
    [None] and 0 are falsy, and any other number cannot be
    subscripted. *)
Definition getvalue_0_if_any (v : out_var) : outcome (option Z) :=
  match v with
  | None => Ok None
  | Some n => if (n =? 0)%Z then Ok None else Raise TypeError
  end.

(** [save_model_result].  The compatibility score is received and not
    stored.  [PRC_INSERT_MODEL_RESULT] inserts the row and hands its id
    out through [:result_id]; the id is then read with [getvalue()[0]],
    which raises on the number that the variable holds, so the call
    ends in its handler: logged, rolled back and answered with [None].
    Only an id of 0 gets as far as the commit. *)
Definition save_model_result (candidate_id job_id : Z)
    (compatibility_score cultural_fit_score professional_fit_score : Q)
    (ai_analysis red_flags recommendation : json) (w : world)
  : option Z * world :=
  let call := SaveModelResult candidate_id job_id in
  match w_fault w call with
  | AcquireFails => (None, log_error (LogGateway call) w)
  | ExecuteFails =>
      let w := acquire w in
      (None, release (log_error (LogGateway call) w))
  | NoFault =>
      let w := acquire w in
      match join_if_any red_flags with
      | Raise _ => (None, release (log_error (LogGateway call) w))
      | Ok red_flags_text =>
          let id := w_next_id w in
          let row :=
            {| mr_id := id; mr_user_id := candidate_id; mr_job_id := job_id;
               mr_score_afinidade_cultural := cultural_fit_score;
               mr_score_compatibilidade_profissional := professional_fit_score;
               mr_red_flags := red_flags_text;
               mr_recomendacao := recommendation;
               mr_detalhes := ai_analysis |} in
          let w' := set_tables (id + 1) (w_model_results w ++ [row])
                      (w_comments w) w in
          let result_id_var : out_var := Some id in
          match getvalue_0_if_any result_id_var with
          | Ok result_id => (result_id, release w')
          | Raise _ =>
              (None, release (rollback w (log_error (LogGateway call) w')))
          end
      end
  end.

(** A cursor variable: [None] until a statement fills it, then the
    list of values the statement returned into it. *)
Definition cursor_var : Type := option (list Z).

(** [cursor.var(oracledb.NUMBER)]: a new variable. *)
Definition new_var : cursor_var := None.

(** [v.getvalue()[0]] *)
Definition getvalue_0 (v : cursor_var) : outcome Z :=
  match v with
  | Some (x :: _) => Ok x
  | Some [] => Raise TypeError
  | None => Raise TypeError
  end.

(** [", ".join(tags) if tags else None] *)
Definition encode_tags (tags : option (list string)) : option string :=
  match tags with
  | None | Some [] => None
  | Some (t :: ts) => Some (str_join ", " (t :: ts))
  end.

(** [row[2].split(", ") if row[2] else []] *)
Definition decode_tags (column : option string) : list string :=
  match column with
  | None => []
  | Some s => if String.eqb s EmptyString then [] else str_split_sep ", " s
  end.

(** The row that the INSERT of [save_comment] adds to
    CANDIDATE_COMMENTS, and the variable bound to [:comment_id]. *)
Definition insert_comment (candidate_id : Z) (comment : string)
    (tags_str : option string) (w : world) : cursor_var * world :=
  let id := w_next_id w in
  let row :=
    {| cm_id := id; cm_candidate_id := candidate_id;
       cm_comment_text := comment; cm_tags := tags_str;
       cm_created_at := w_now w; cm_created_by := w_db_user w |} in
  (Some [id], set_tables (id + 1) (w_model_results w) (w_comments w ++ [row]) w).

(** [save_comment]: the id is read from a variable made after the
    INSERT, not from the one bound to [:comment_id].  The check that
    the table exists, and its creation, are statements like the others:
    they fail under [ExecuteFails]. *)
Definition save_comment (candidate_id : Z) (comment : string)
    (tags : option (list string)) (w : world) : option Z * world :=
  let call := SaveComment candidate_id in
  match w_fault w call with
  | AcquireFails => (None, log_error (LogGateway call) w)
  | ExecuteFails =>
      let w := acquire w in
      (None, release (log_error (LogGateway call) w))
  | NoFault =>
      let w := acquire w in
      let tags_str := encode_tags tags in
      let '(_, w') := insert_comment candidate_id comment tags_str w in
      match getvalue_0 new_var with
      | Ok comment_id => (Some comment_id, release w')
      | Raise _ =>
          (None, release (rollback w (log_error (LogGateway call) w')))
      end
  end.

Definition by_created_at (x y : comment_row) : bool :=
  (cm_created_at y <=? cm_created_at x)%Z.

(** A comment as [get_candidate_comments] returns it. *)
Record comment : Type := {
  co_id : Z;
  co_comment : string;
  co_tags : list string;
  co_created_at : Z;
  co_created_by : string
}.

Definition comment_of_row (row : comment_row) : comment :=
  {| co_id := cm_id row; co_comment := cm_comment_text row;
     co_tags := decode_tags (cm_tags row);
     co_created_at := cm_created_at row; co_created_by := cm_created_by row |}.

(** [SELECT ... WHERE candidate_id = :candidate_id ORDER BY created_at DESC] *)
Definition select_comments (candidate_id : Z) (table : list comment_row)
  : list comment_row :=
  sort_desc by_created_at
    (List.filter (fun r => (cm_candidate_id r =? candidate_id)%Z) table).

Definition get_candidate_comments (candidate_id : Z) (w : world)
  : list comment * world :=
  let call := GetCandidateComments candidate_id in
  match w_fault w call with
  | AcquireFails => ([], log_error (LogGateway call) w)
  | ExecuteFails =>
      let w := acquire w in
      ([], release (log_error (LogGateway call) w))
  | NoFault =>
      let w := acquire w in
      (comment_of_row <$> select_comments candidate_id (w_comments w), release w)
  end.

(* ================================================================== *)
(** ** main.py *)
(* ================================================================== *)

Inductive http (A : Type) : Type :=
  | HttpOk (a : A)
  | HttpError (status : Z).
Arguments HttpOk {A} a.
Arguments HttpError {A} status.

(** [get_candidate_model_results]: the handler of the endpoint raises
    the 500 error without releasing the connection. *)
Definition get_candidate_model_results (candidate_id : Z) (w : world)
  : http (list model_result_row) * world :=
  let call := GetCandidateModelResults candidate_id in
  match w_fault w call with
  | AcquireFails => (HttpError 500, log_error (LogEndpoint call) w)
  | ExecuteFails =>
      let w := acquire w in
      (HttpError 500, log_error (LogEndpoint call) w)
  | NoFault =>
      let w := acquire w in
      let results :=
        List.filter (fun r => (mr_user_id r =? candidate_id)%Z) (w_model_results w) in
      (HttpOk results, release w)
  end.

(** [CandidateRankingRequest] *)
Record CandidateRankingRequest : Type := {
  job_id : Z;
  limit : option Z;
  min_compatibility : option Q
}.

(** The constraints of the request model: [ge=1, le=100] on [limit],
    [ge=0.0, le=100.0] on [min_compatibility]. *)
Definition valid_request (request : CandidateRankingRequest) : Prop :=
  match limit request with
  | Some n => (1 <= n <= 100)%Z
  | None => True
  end /\
  match min_compatibility request with
  | Some m => (0 <= m)%Q /\ (m <= 100)%Q
  | None => True
  end.

(** An element of the list that [rank_candidates] returns. *)
Record ranking_entry : Type := {
  re_candidate_id : Z;
  re_candidate_name : string;
  re_candidate_email : string;
  re_compatibility_score : Q;
  re_cultural_fit_score : Q;
  re_professional_fit_score : Q;
  re_ai_analysis : json;
  re_red_flags : json;
  re_recommendation : json
}.

Definition by_compatibility (x y : ranking_entry) : bool :=
  Qle_bool (re_compatibility_score y) (re_compatibility_score x).

(** The body of the [try] block run for one candidate: [Ok None] is a
    [continue], [Ok (Some e)] appends [e]. *)
Definition rank_try `{PyRuntime} (request : CandidateRankingRequest)
    (job : job_data) (candidate : user_row) (w : world)
  : outcome (option ranking_entry) * world :=
  match get_candidate_data (u_id candidate) w with
  | (Raise e, w) => (Raise e, w)
  | (Ok None, w) => (Ok None, w)
  | (Ok (Some candidate_data), w) =>
      match analyze_candidate_compatibility
              (w_reply w (u_id candidate) (job_id request)) candidate_data job with
      | Raise e => (Raise e, w)
      | Ok analysis =>
          match min_compatibility request with
          | None => (Raise TypeError, w)
          | Some threshold =>
              if Qltb (compatibility_score analysis) threshold then (Ok None, w)
              else
                let '(_, w) :=
                  save_model_result (u_id candidate) (job_id request)
                    (compatibility_score analysis) (cultural_fit_score analysis)
                    (professional_fit_score analysis) (ai_analysis analysis)
                    (red_flags analysis) (recommendation analysis) w in
                (Ok (Some
                   {| re_candidate_id := u_id candidate;
                      re_candidate_name := cd_name candidate_data;
                      re_candidate_email := cd_email candidate_data;
                      re_compatibility_score := compatibility_score analysis;
                      re_cultural_fit_score := cultural_fit_score analysis;
                      re_professional_fit_score := professional_fit_score analysis;
                      re_ai_analysis := ai_analysis analysis;
                      re_red_flags := red_flags analysis;
                      re_recommendation := recommendation analysis |}), w)
          end
      end
  end.

(** One turn of the loop: [except Exception] logs and continues. *)
Definition rank_step `{PyRuntime} (request : CandidateRankingRequest)
    (job : job_data) (candidate : user_row)
    (ranked_candidates : list ranking_entry) (w : world)
  : list ranking_entry * world :=
  match rank_try request job candidate w with
  | (Ok (Some entry), w) => ((ranked_candidates ++ [entry])%list, w)
  | (Ok None, w) => (ranked_candidates, w)
  | (Raise _, w) => (ranked_candidates, log_error (LogRanking (u_id candidate)) w)
  end.

Fixpoint rank_loop `{PyRuntime} (request : CandidateRankingRequest)
    (job : job_data) (all_candidates : list user_row)
    (ranked_candidates : list ranking_entry) (w : world)
  : list ranking_entry * world :=
  match all_candidates with
  | [] => (ranked_candidates, w)
  | candidate :: rest =>
      let '(ranked_candidates, w) :=
        rank_step request job candidate ranked_candidates w in
      rank_loop request job rest ranked_candidates w
  end.

(** [ranked_candidates[:request.limit]] *)
Definition truncate {A} (limit : option Z) (l : list A) : list A :=
  match limit with
  | Some n => py_slice_to n l
  | None => l
  end.

(** The function [rank_candidates]: what it raises or returns. *)
Definition rank_candidates `{PyRuntime} (request : CandidateRankingRequest)
    (w : world) : http (list ranking_entry) * world :=
  match get_job_data (job_id request) w with
  | (None, w) => (HttpError 404, w)
  | (Some job_data, w) =>
      match get_all_candidates w with
      | ([], w) => (HttpOk [], w)
      | (all_candidates, w) =>
          let '(ranked_candidates, w) :=
            rank_loop request job_data all_candidates [] w in
          (HttpOk (truncate (limit request)
                     (sort_desc by_compatibility ranked_candidates)), w)
      end
  end.

(** [response_model=List[CandidateRankingResponse]] on the route: the
    framework checks the list that the function returns against the
    response model and answers 500 when an entry does not fit it.  It
    declares [ai_analysis] and [recommendation] as [str] and
    [red_flags] as [List[str]]; the id, the name, the e-mail and the
    three scores of an entry have their declared types already. *)
Definition is_str (v : json) : bool :=
  match v with
  | JStr _ => true
  | _ => false
  end.

Definition fits_response (e : ranking_entry) : bool :=
  is_str (re_ai_analysis e)
  && match re_red_flags e with
     | JArr l => forallb is_str l
     | _ => false
     end
  && is_str (re_recommendation e).

(** What the route of [rank_candidates] answers. *)
Definition api_rank_candidates `{PyRuntime} (request : CandidateRankingRequest)
    (w : world) : http (list ranking_entry) * world :=
  match rank_candidates request w with
  | (HttpOk out, w) =>
      if forallb fits_response out then (HttpOk out, w) else (HttpError 500, w)
  | (HttpError status, w) => (HttpError status, w)
  end.

(** [CommentResponse] *)
Record CommentResponse : Type := {
  cr_comment_id : Z;
  cr_candidate_id : Z;
  cr_comment : string;
  cr_tags : list string;
  cr_created_at : Z;
  cr_created_by : string
}.

(** [add_comment]: an exception of the gateway is answered with 500,
    a missing candidate with 404. *)
Definition add_comment (candidate_id : Z) (comment : string)
    (tags : option (list string)) (w : world) : http CommentResponse * world :=
  match get_candidate_data candidate_id w with
  | (Raise _, w) => (HttpError 500, log_error (LogEndpoint (SaveComment candidate_id)) w)
  | (Ok None, w) => (HttpError 404, w)
  | (Ok (Some _), w) =>
      match save_comment candidate_id comment tags w with
      | (None, w) => (HttpError 500, w)
      | (Some comment_id, w) =>
          if (comment_id =? 0)%Z then (HttpError 500, w)
          else
            let '(comments, w) := get_candidate_comments candidate_id w in
            match List.find (fun c => (co_id c =? comment_id)%Z) comments with
            | None => (HttpError 500, w)
            | Some saved_comment =>
                (HttpOk {| cr_comment_id := co_id saved_comment;
                           cr_candidate_id := candidate_id;
                           cr_comment := co_comment saved_comment;
                           cr_tags := co_tags saved_comment;
                           cr_created_at := co_created_at saved_comment;
                           cr_created_by := co_created_by saved_comment |}, w)
            end
      end
  end.

(* ================================================================== *)
(** ** main.py: the other endpoints *)
(* ================================================================== *)

(** [TalentPoolSearchRequest]; the endpoint does not read [filters]. *)
Record TalentPoolSearchRequest : Type := {
  tp_query : string;
  tp_limit : option Z
}.

(** An element of the list that the search endpoint returns;
    [tpc_relevance] is the score that the text of [ai_summary] prints,
    [last_interaction] and [saved_at] are always [None]. *)
Record TalentPoolCandidate : Type := {
  tpc_candidate_id : Z;
  tpc_name : string;
  tpc_email : string;
  tpc_skills : list string;
  tpc_relevance : Q
}.

(** The dictionary that the search endpoint builds for a candidate:
    the level is the empty text and there is no area. *)
Definition talent_of (candidate_full : candidate_data) : talent :=
  {| t_id := cd_id candidate_full;
     t_name := cd_name candidate_full;
     t_email := cd_email candidate_full;
     t_skills := cd_skills candidate_full;
     t_profile := cd_profile candidate_full;
     t_level := EmptyString;
     t_area := EmptyString |}.

(** The loop that prepares [candidates_data]: a lookup that raises
    leaves the loop, a candidate that is not found is left out. *)
Fixpoint collect_candidates (all_candidates : list user_row)
    (candidates_data : list talent) (w : world) : outcome (list talent) * world :=
  match all_candidates with
  | [] => (Ok candidates_data, w)
  | candidate :: rest =>
      match get_candidate_data (u_id candidate) w with
      | (Raise e, w) => (Raise e, w)
      | (Ok None, w) => collect_candidates rest candidates_data w
      | (Ok (Some candidate_full), w) =>
          collect_candidates rest
            (candidates_data ++ [talent_of candidate_full])%list w
      end
  end.

Definition format_result (c : scored) : TalentPoolCandidate :=
  {| tpc_candidate_id := t_id (candidate c);
     tpc_name := t_name (candidate c);
     tpc_email := t_email (candidate c);
     tpc_skills := t_skills (candidate c);
     tpc_relevance := relevance_score c |}.

(** The endpoint [search_talent_pool] of main.py; [reply] is what the
    model service answers to the query.  Any exception is logged and
    answered with 500. *)
Definition api_search_talent_pool `{PyRuntime} (reply : completion)
    (request : TalentPoolSearchRequest) (w : world)
  : http (list TalentPoolCandidate) * world :=
  match get_all_candidates w with
  | ([], w) => (HttpOk [], w)
  | (all_candidates, w) =>
      match collect_candidates all_candidates [] w with
      | (Raise _, w) => (HttpError 500, log_error (LogEndpoint GetAllCandidates) w)
      | (Ok candidates_data, w) =>
          let ranked_results :=
            search_talent_pool reply (tp_query request) candidates_data in
          (HttpOk (format_result <$> truncate (tp_limit request) ranked_results), w)
      end
  end.

(** [AIAnalysisRequest] and [AIAnalysisResponse] *)
Record AIAnalysisRequest : Type := {
  ar_candidate_id : Z;
  ar_job_id : Z
}.

Record AIAnalysisResponse : Type := {
  resp_candidate_id : Z;
  resp_job_id : Z;
  resp_compatibility_score : Q;
  resp_cultural_fit_score : Q;
  resp_professional_fit_score : Q;
  resp_ai_analysis : json;
  resp_red_flags : json;
  resp_strengths : json;
  resp_recommendation : json;
  resp_suggested_questions : json
}.

(** The endpoint [analyze_candidate]: 404 for a candidate or a job that
    is not found, 500 for an exception, and otherwise the analysis,
    after the call that saves it.  The values of the analysis go into
    the response as they are; the check of their types by the response
    model is left out. *)
Definition analyze_candidate `{PyRuntime} (request : AIAnalysisRequest) (w : world)
  : http AIAnalysisResponse * world :=
  let failed := LogEndpoint (GetCandidateData (ar_candidate_id request)) in
  match get_candidate_data (ar_candidate_id request) w with
  | (Raise _, w) => (HttpError 500, log_error failed w)
  | (Ok None, w) => (HttpError 404, w)
  | (Ok (Some candidate_data), w) =>
      match get_job_data (ar_job_id request) w with
      | (None, w) => (HttpError 404, w)
      | (Some job_data, w) =>
          match analyze_candidate_compatibility
                  (w_reply w (ar_candidate_id request) (ar_job_id request))
                  candidate_data job_data with
          | Raise _ => (HttpError 500, log_error failed w)
          | Ok analysis =>
              let '(_, w) :=
                save_model_result (ar_candidate_id request) (ar_job_id request)
                  (compatibility_score analysis) (cultural_fit_score analysis)
                  (professional_fit_score analysis) (ai_analysis analysis)
                  (red_flags analysis) (recommendation analysis) w in
              (HttpOk
                 {| resp_candidate_id := ar_candidate_id request;
                    resp_job_id := ar_job_id request;
                    resp_compatibility_score := compatibility_score analysis;
                    resp_cultural_fit_score := cultural_fit_score analysis;
                    resp_professional_fit_score := professional_fit_score analysis;
                    resp_ai_analysis := ai_analysis analysis;
                    resp_red_flags := red_flags analysis;
                    resp_strengths := strengths analysis;
                    resp_recommendation := recommendation analysis;
                    resp_suggested_questions := suggested_questions analysis |}, w)
          end
      end
  end.

(** The endpoint [get_comments]: the gateway answers a failure of the
    database with the empty list, so the handler of the endpoint has
    nothing to catch. *)
Definition get_comments (candidate_id : Z) (w : world)
  : http (list CommentResponse) * world :=
  let '(comments, w) := get_candidate_comments candidate_id w in
  (HttpOk
     ((fun c =>
         {| cr_comment_id := co_id c; cr_candidate_id := candidate_id;
            cr_comment := co_comment c; cr_tags := co_tags c;
            cr_created_at := co_created_at c;
            cr_created_by := co_created_by c |}) <$> comments), w).

(** *** Skills of a job *)

(** A row of JOB_SKILLS; [js_obrigatoria] is ['S'] or ['N']. *)
Record job_skill_row : Type := {
  js_id : Z;
  js_job_id : Z;
  js_skill_id : Z;
  js_obrigatoria : string
}.

(** The table JOB_SKILLS and the next identity value. *)
Record job_skills : Type := {
  jst_rows : list job_skill_row;
  jst_next_id : Z
}.

(** [SELECT COUNT( * ) FROM JOB_SKILLS WHERE job_id = ... AND skill_id = ...] *)
Definition count_job_skill (job_id skill_id : Z) (rows : list job_skill_row) : nat :=
  length (List.filter
            (fun r => (js_job_id r =? job_id)%Z && (js_skill_id r =? skill_id)%Z)
            rows).

(** [v.getvalue()[0] if v.getvalue() else None] on a cursor variable. *)
Definition getvalue_0_or_none (v : cursor_var) : option Z :=
  match v with
  | Some (x :: _) => Some x
  | Some [] | None => None
  end.

(** [add_skill_to_job] of the gateway; [fault] says whether the
    database fails during this call, and the line of the log is filed
    under the job.  The pair that is already there is answered with
    [None] after the connection is released. *)
Definition add_skill_to_job (fault : db_fault) (job_id skill_id : Z)
    (obrigatoria : bool) (t : job_skills) (w : world)
  : option Z * job_skills * world :=
  let call := GetJobData job_id in
  match fault with
  | AcquireFails => (None, t, log_error (LogGateway call) w)
  | ExecuteFails =>
      let w := acquire w in
      (None, t, release (log_error (LogGateway call) w))
  | NoFault =>
      let w := acquire w in
      if (0 <? count_job_skill job_id skill_id (jst_rows t))%nat
      then (None, t, release w)
      else
        let id := jst_next_id t in
        let row :=
          {| js_id := id; js_job_id := job_id; js_skill_id := skill_id;
             js_obrigatoria := if obrigatoria then "S" else "N" |} in
        let job_skill_id_var : cursor_var := Some [id] in
        (getvalue_0_or_none job_skill_id_var,
         {| jst_rows := jst_rows t ++ [row]; jst_next_id := id + 1 |},
         release w)
  end.

(** The endpoint [add_skill_to_job]: 404 when the job is not found,
    400 when the gateway answers no id, 201 with the id otherwise. *)
Definition api_add_skill_to_job (fault : db_fault) (job_id skill_id : Z)
    (obrigatoria : bool) (t : job_skills) (w : world)
  : http Z * job_skills * world :=
  match get_job_data job_id w with
  | (None, w) => (HttpError 404, t, w)
  | (Some _, w) =>
      match add_skill_to_job fault job_id skill_id obrigatoria t w with
      | (None, t, w) => (HttpError 400, t, w)
      | (Some job_skill_id, t, w) =>
          if (job_skill_id =? 0)%Z then (HttpError 400, t, w)
          else (HttpOk job_skill_id, t, w)
      end
  end.

(* ================================================================== *)
(** ** services/email_service.py and the meeting endpoint *)
(* ================================================================== *)

Definition nl : string := String (ascii_of_nat 10) EmptyString.
Definition dquote : string := String (ascii_of_nat 34) EmptyString.

(** Truthiness of an optional text: [None] and the empty text are false. *)
Definition given (o : option string) : bool :=
  match o with
  | Some s => negb (String.eqb s EmptyString)
  | None => false
  end.

(** [o if o else ''] *)
Definition or_empty (o : option string) : string :=
  if given o then default EmptyString o else EmptyString.

(** The message that [send_meeting_invitation] builds: its headers and
    its two parts. *)
Record invitation : Type := {
  inv_from : option string;
  inv_to : string;
  inv_subject : string;
  inv_text : string;
  inv_html : string
}.

(** The plain text of an online meeting that has a link. *)
Definition text_online (candidate_name meeting_date meeting_time meeting_link : string)
    (notes : option string) : string :=
  nl +:+ "Olá " +:+ candidate_name +:+ "," +:+ nl
  +:+ nl
  +:+ "Gostaríamos de convidá-lo(a) para uma reunião conosco." +:+ nl
  +:+ nl
  +:+ "Data: " +:+ meeting_date +:+ nl
  +:+ "Hora: " +:+ meeting_time +:+ nl
  +:+ "Tipo: Reunião Online" +:+ nl
  +:+ nl
  +:+ "Link da reunião: " +:+ meeting_link +:+ nl
  +:+ nl
  +:+ or_empty notes +:+ nl
  +:+ nl
  +:+ "Aguardamos sua confirmação." +:+ nl
  +:+ nl
  +:+ "Atenciosamente," +:+ nl
  +:+ "Equipe de Recrutamento" +:+ nl.

(** The plain text of every other meeting. *)
Definition text_presencial (candidate_name meeting_date meeting_time : string)
    (notes : option string) : string :=
  nl +:+ "Olá " +:+ candidate_name +:+ "," +:+ nl
  +:+ nl
  +:+ "Gostaríamos de convidá-lo(a) para uma reunião presencial conosco." +:+ nl
  +:+ nl
  +:+ "Data: " +:+ meeting_date +:+ nl
  +:+ "Hora: " +:+ meeting_time +:+ nl
  +:+ "Tipo: Reunião Presencial" +:+ nl
  +:+ nl
  +:+ or_empty notes +:+ nl
  +:+ nl
  +:+ "Aguardamos sua confirmação." +:+ nl
  +:+ nl
  +:+ "Atenciosamente," +:+ nl
  +:+ "Equipe de Recrutamento" +:+ nl.

Definition html_link (meeting_link : option string) : string :=
  if given meeting_link then
    "<p><strong>Link da reunião:</strong> <a href=" +:+ dquote
    +:+ default EmptyString meeting_link +:+ dquote +:+ ">"
    +:+ default EmptyString meeting_link +:+ "</a></p>"
  else EmptyString.

Definition html_notes (notes : option string) : string :=
  if given notes then "<p>" +:+ default EmptyString notes +:+ "</p>"
  else EmptyString.

(** The HTML part. *)
Definition html_body (candidate_name meeting_date meeting_time meeting_type : string)
    (meeting_link notes : option string) : string :=
  nl +:+ "<html>" +:+ nl
  +:+ "  <body>" +:+ nl
  +:+ "    <h2>Convite para Reunião</h2>" +:+ nl
  +:+ "    <p>Olá <strong>" +:+ candidate_name +:+ "</strong>,</p>" +:+ nl
  +:+ "    <p>Gostaríamos de convidá-lo(a) para uma reunião conosco.</p>" +:+ nl
  +:+ "    <ul>" +:+ nl
  +:+ "      <li><strong>Data:</strong> " +:+ meeting_date +:+ "</li>" +:+ nl
  +:+ "      <li><strong>Hora:</strong> " +:+ meeting_time +:+ "</li>" +:+ nl
  +:+ "      <li><strong>Tipo:</strong> "
  +:+ (if String.eqb meeting_type "online"
       then "Reunião Online" else "Reunião Presencial")
  +:+ "</li>" +:+ nl
  +:+ "    </ul>" +:+ nl
  +:+ "    " +:+ html_link meeting_link +:+ nl
  +:+ "    " +:+ html_notes notes +:+ nl
  +:+ "    <p>Aguardamos sua confirmação.</p>" +:+ nl
  +:+ "    <p>Atenciosamente,<br>Equipe de Recrutamento</p>" +:+ nl
  +:+ "  </body>" +:+ nl
  +:+ "</html>" +:+ nl.

Definition build_invitation (email_from : option string)
    (candidate_email candidate_name meeting_date meeting_time meeting_type : string)
    (meeting_link notes : option string) : invitation :=
  {| inv_from := email_from;
     inv_to := candidate_email;
     inv_subject := "Convite para Reunião - " +:+ candidate_name;
     inv_text :=
       if String.eqb meeting_type "online" && given meeting_link
       then text_online candidate_name meeting_date meeting_time
              (default EmptyString meeting_link) notes
       else text_presencial candidate_name meeting_date meeting_time notes;
     inv_html :=
       html_body candidate_name meeting_date meeting_time meeting_type
         meeting_link notes |}.

(** [send_meeting_invitation]: [smtp] is what the mail server does with
    the message; an exception is logged and answered with [False]. *)
Definition send_meeting_invitation (smtp : invitation -> outcome unit)
    (email_from : option string)
    (candidate_email candidate_name meeting_date meeting_time meeting_type : string)
    (meeting_link notes : option string) : bool :=
  match smtp (build_invitation email_from candidate_email candidate_name
                meeting_date meeting_time meeting_type meeting_link notes) with
  | Ok _ => true
  | Raise _ => false
  end.

(** The endpoint [schedule_meeting]: the message of its answer, or 500. *)
Definition schedule_meeting (smtp : invitation -> outcome unit)
    (email_from : option string)
    (candidate_email candidate_name meeting_date meeting_time meeting_type : string)
    (meeting_link notes : option string) : http string :=
  if send_meeting_invitation smtp email_from candidate_email candidate_name
       meeting_date meeting_time meeting_type meeting_link notes
  then HttpOk ("Email de convite enviado com sucesso para " +:+ candidate_email)
  else HttpError 500.

(* ================================================================== *)
(** ** A runtime and a small database to evaluate the code on *)
(* ================================================================== *)

Definition lower_ascii (a : ascii) : ascii :=
  let n := nat_of_ascii a in
  if (65 <=? n)%nat && (n <=? 90)%nat then ascii_of_nat (n + 32) else a.

(** [str.lower] on ASCII letters. *)
Fixpoint ascii_lower (s : string) : string :=
  match s with
  | EmptyString => EmptyString
  | String a s' => String (lower_ascii a) (ascii_lower s')
  end.

Definition is_space (a : ascii) : bool :=
  let n := nat_of_ascii a in
  (n =? 32)%nat || ((9 <=? n)%nat && (n <=? 13)%nat)
  || ((28 <=? n)%nat && (n <=? 31)%nat).

Definition push_word (cur : string) (words : list string) : list string :=
  if String.eqb cur EmptyString then words else cur :: words.

(** [str.split()] on ASCII white space. *)
Fixpoint ws_split_from (cur : string) (s : string) : list string :=
  match s with
  | EmptyString => push_word cur []
  | String a s' =>
      if is_space a then push_word cur (ws_split_from EmptyString s')
      else ws_split_from (cur +:+ String a EmptyString) s'
  end.

Definition ws_split (s : string) : list string := ws_split_from EmptyString s.

Fixpoint lstrip (s : string) : string :=
  match s with
  | EmptyString => EmptyString
  | String a s' => if is_space a then lstrip s' else s
  end.

(** [str.strip()] on ASCII white space. *)
Definition ws_strip (s : string) : string :=
  String.rev (lstrip (String.rev (lstrip s))).

Definition quote : string := String (ascii_of_nat 34) EmptyString.

(** Two replies of the model service: the empty object, and an object
    whose only field is a compatibility score of 150. *)
Definition reply_empty_object : string := "{}".
Definition reply_score_150 : string :=
  "{" +:+ quote +:+ "compatibility_score" +:+ quote +:+ ": 150}".
(** The criteria of a search for any level: [{"level": "qualquer"}]. *)
Definition reply_any_level : string :=
  "{" +:+ quote +:+ "level" +:+ quote +:+ ": "
      +:+ quote +:+ "qualquer" +:+ quote +:+ "}".

(** A reply without a recommendation: [{"recommendation": null}]. *)
Definition reply_null_recommendation : string :=
  "{" +:+ quote +:+ "recommendation" +:+ quote +:+ ": null}".

(** [json.loads] on the documents above; other texts are answered as
    undecodable. *)
Definition sample_loads (s : string) : option json :=
  if String.eqb s reply_empty_object then Some (JObj [])
  else if String.eqb s reply_score_150
  then Some (JObj [("compatibility_score", JNum 150%Q)])
  else if String.eqb s reply_any_level
  then Some (JObj [("level", JStr "qualquer")])
  else if String.eqb s reply_null_recommendation
  then Some (JObj [("recommendation", JNull)])
  else None.

Definition digit_of (a : ascii) : option Z :=
  let n := nat_of_ascii a in
  if (48 <=? n)%nat && (n <=? 57)%nat then Some (Z.of_nat (n - 48)) else None.

Fixpoint digits_from (acc : Z) (s : string) : option Z :=
  match s with
  | EmptyString => Some acc
  | String a s' =>
      match digit_of a with
      | Some d => digits_from (10 * acc + d) s'
      | None => None
      end
  end.

(** [float] on a string of decimal digits. *)
Definition sample_float (s : string) : option Q :=
  match s with
  | EmptyString => None
  | _ => inject_Z <$> digits_from 0 s
  end.

Definition sample_runtime : PyRuntime :=
  {| str_lower := ascii_lower;
     str_split := ws_split;
     str_strip := ws_strip;
     json_loads := sample_loads;
     float_of_str := sample_float |}.

Definition ana : user_row :=
  {| u_id := 1; u_nome := "Ana"; u_email := "ana@example.com" |}.
Definition bruno : user_row :=
  {| u_id := 2; u_nome := "Bruno"; u_email := "bruno@example.com" |}.

(** The scenario of the specification: the job requires Python and
    SQL, Ana has Python, SQL and React, Bruno has Java, and the model
    service is down. *)
Definition sample_world (fault : db_call -> db_fault) : world :=
  {| w_candidate := fun id =>
       if (id =? 1)%Z then Some ana else if (id =? 2)%Z then Some bruno else None;
     w_skills_of := fun id =>
       if (id =? 1)%Z then ["Python"; "SQL"; "React"]
       else if (id =? 2)%Z then ["Java"] else [];
     w_job := fun id =>
       if (id =? 7)%Z
       then Some {| j_id := 7; j_titulo := "Dev"; j_descricao := None;
                    j_nivel := Some "Pleno" |}
       else None;
     w_job_skills := fun id => if (id =? 7)%Z then ["Python"; "SQL"] else [];
     w_candidates := [ana; bruno];
     w_reply := fun _ _ => CompletionError;
     w_fault := fault;
     w_now := 1000;
     w_db_user := "RH";
     w_next_id := 1;
     w_model_results := [];
     w_comments := [];
     w_leased := 0;
     w_log := [] |}.

Definition healthy (call : db_call) : db_fault := NoFault.

(** The database hands out no connection for the lookup of Bruno. *)
Definition bruno_unreachable (call : db_call) : db_fault :=
  match call with
  | GetCandidateData id => if (id =? 2)%Z then AcquireFails else NoFault
  | _ => NoFault
  end.

Definition sample_request : CandidateRankingRequest :=
  {| job_id := 7; limit := Some 10%Z; min_compatibility := Some 0%Q |}.

(** One required skill of three, matched. *)
Definition one_of_three : candidate_data * job_data :=
  ({| cd_id := 1; cd_name := "Ana"; cd_email := EmptyString;
      cd_skills := ["Python"]; cd_profile := EmptyString |},
   {| jd_id := 7; jd_title := "Dev"; jd_description := EmptyString;
      jd_level := "Pleno"; jd_required_skills := ["Python"; "SQL"; "React"] |}).

(** The healthy database with a model service that is down for Ana and
    answers [{"recommendation": null}] for Bruno. *)
Definition null_reply_world : world :=
  {| w_candidate := w_candidate (sample_world healthy);
     w_skills_of := w_skills_of (sample_world healthy);
     w_job := w_job (sample_world healthy);
     w_job_skills := w_job_skills (sample_world healthy);
     w_candidates := [ana; bruno];
     w_reply := fun candidate_id _ =>
       if (candidate_id =? 2)%Z
       then CompletionContent (Some reply_null_recommendation)
       else CompletionError;
     w_fault := healthy;
     w_now := 1000;
     w_db_user := "RH";
     w_next_id := 1;
     w_model_results := [];
     w_comments := [];
     w_leased := 0;
     w_log := [] |}.

(* ================================================================== *)
(** ** The properties of the specification *)
(* ================================================================== *)

(** Descending order of a list under a boolean comparison. *)
Definition descending {A} (geb : A -> A -> bool) (l : list A) : Prop :=
  StronglySorted (fun x y => geb x y = true) l.

(** The result of the heuristic analysis: the scores by the operations
    of the code, in their order. *)
Definition heuristic_result (c : candidate_data) (j : job_data) (r : analysis) : Prop :=
  let required : gset string := list_to_set (jd_required_skills j) in
  let matched : gset string := list_to_set (cd_skills c) ∩ required in
  professional_fit_score r
  = (if decide (required = ∅) then 0
     else Qnat (size matched) / Qnat (size required) * 100)%Q
  /\ compatibility_score r = (professional_fit_score r * (7 # 10))%Q
  /\ cultural_fit_score r = 50%Q
  /\ recommendation r = JStr "EM_ANALISE"
  /\ (exists l : list string,
        strengths r = JArr (JStr <$> l) /\ NoDup l /\
        forall s, s ∈ l <-> s ∈ cd_skills c /\ s ∈ jd_required_skills j)
  /\ red_flags r = JArr []
  /\ suggested_questions r = JArr [].

(** The professional-fit score as the specification words it,
    100 × |matched| / |required|, in binary64: the product is exact,
    so the quotient is the float nearest to the exact value. *)
Definition claimed_professional_double (c : candidate_data) (j : job_data) : float :=
  let required : gset string := list_to_set (jd_required_skills j) in
  let matched : gset string := list_to_set (cd_skills c) ∩ required in
  if decide (required = ∅) then 0%float
  else (100 * float_of_len (size matched) / float_of_len (size required))%float.

(** The three values of a recommendation. *)
Definition is_recommendation (v : json) : Prop :=
  v = JStr "APROVADO" \/ v = JStr "REPROVADO" \/ v = JStr "EM_ANALISE".

(** The invariant of a compatibility result. *)
Definition analysis_invariant (r : analysis) : Prop :=
  (0 <= compatibility_score r)%Q /\ (compatibility_score r <= 100)%Q
  /\ is_recommendation (recommendation r)
  /\ is_list (red_flags r) = true
  /\ is_list (strengths r) = true.

(** What the reply contributes to a result built from a parsed object:
    the coerced score and the three fields as the reply holds them. *)
Definition passed_through `{PyRuntime} (m : list (string * json)) (r : analysis) : Prop :=
  py_float (dict_get m "compatibility_score" (JNum 0%Q)) = Ok (compatibility_score r)
  /\ recommendation r = dict_get m "recommendation" (JStr "EM_ANALISE")
  /\ red_flags r = dict_get m "red_flags" (JArr [])
  /\ strengths r = dict_get m "strengths" (JArr []).

(** The defaults of the fields that a parsed object lacks; the
    recommendation is defaulted to [dflt]. *)
Definition missing_fields_defaulted (dflt : json) (m : list (string * json))
    (r : analysis) : Prop :=
  (dict_has m "compatibility_score" = false -> compatibility_score r = 0%Q)
  /\ (dict_has m "cultural_fit_score" = false -> cultural_fit_score r = 0%Q)
  /\ (dict_has m "professional_fit_score" = false -> professional_fit_score r = 0%Q)
  /\ (dict_has m "analysis" = false -> ai_analysis r = JStr EmptyString)
  /\ (dict_has m "red_flags" = false -> red_flags r = JArr [])
  /\ (dict_has m "strengths" = false -> strengths r = JArr [])
  /\ (dict_has m "suggested_questions" = false -> suggested_questions r = JArr [])
  /\ (dict_has m "recommendation" = false -> recommendation r = dflt).

(** The criteria object of a search whose three fields are well typed. *)
Definition criteria_object (skills : list string) (level area : string) : json :=
  JObj [("skills", JArr (JStr <$> skills)); ("level", JStr level); ("area", JStr area)].

(** The points for the overlap of skills: up to 50. *)
Definition skill_points `{PyRuntime} (skills : list string) (c : talent) : Q :=
  let required := str_lower <$> skills in
  let matching : gset string :=
    list_to_set (str_lower <$> t_skills c) ∩ list_to_set required in
  match required with
  | [] => 0%Q
  | _ :: _ => (Qnat (size matching) / Qnat (length required) * 50)%Q
  end.

(** The score of the criteria path as the specification words it: 30
    points when one level is a substring of the other, 20 when the
    required area is a substring of the candidate's. *)
Definition claimed_score `{PyRuntime} (skills : list string) (level area : string)
    (c : talent) : Q :=
  let required_level := str_lower level in
  let candidate_level := str_lower (t_level c) in
  let required_area := str_lower area in
  let candidate_area := str_lower (t_area c) in
  (skill_points skills c
   + (if str_contains required_level candidate_level
         || str_contains candidate_level required_level then 30 else 0)
   + (if str_contains required_area candidate_area then 20 else 0))%Q.

(** The same with the guards of the code: the level counts when one is
    required and it is not "qualquer", the area when one is required. *)
Definition guarded_score `{PyRuntime} (skills : list string) (level area : string)
    (c : talent) : Q :=
  let required_level := str_lower level in
  let candidate_level := str_lower (t_level c) in
  let required_area := str_lower area in
  let candidate_area := str_lower (t_area c) in
  (skill_points skills c
   + (if negb (String.eqb required_level EmptyString)
         && negb (String.eqb required_level "qualquer")
         && (str_contains required_level candidate_level
             || str_contains candidate_level required_level) then 30 else 0)
   + (if negb (String.eqb required_area EmptyString)
         && str_contains required_area candidate_area then 20 else 0))%Q.

(** The haystack of the text search, as the specification words it:
    the name, the skills and the profile of the candidate, each in
    lower case, with single spaces between them. *)
Definition name_skills_profile `{PyRuntime} (c : talent) : string :=
  str_lower (t_name c) +:+ " "
  +:+ str_join " " (str_lower <$> t_skills c) +:+ " "
  +:+ str_lower (t_profile c).

(** The word-overlap score of the text search, as the specification
    words it. *)
Definition overlap_score `{PyRuntime} (query_lower : string) (c : talent) : Q :=
  let query_words : gset string := list_to_set (str_split query_lower) in
  let text_words : gset string :=
    list_to_set (str_split (name_skills_profile c)) in
  if decide (query_words = ∅) then 0%Q
  else (Qnat (size (query_words ∩ text_words)) / Qnat (size query_words) * 100)%Q.

(** The tags that the text column gives back as they were stored: no
    tag holds the separator, and the list is not one empty tag. *)
Definition storable_tags (tags : option (list string)) : Prop :=
  match tags with
  | None => True
  | Some ts => Forall (fun t => str_contains ", " t = false) ts
               /\ ts <> [EmptyString]
  end.

(** The part of the world that no call of the gateway changes. *)
Definition env (w : world) :=
  (w_candidate w, w_skills_of w, w_job w, w_job_skills w, w_reply w, w_fault w,
   w_now w, w_db_user w).

(** The world without its log, its leased connections and the list of
    all candidates. *)
Definition data (w : world) :=
  (env w, w_next_id w, w_model_results w, w_comments w).

(** The entry of a candidate in a ranking, read off the request, the
    job and the environment: there is none for a candidate whose lookup
    raises or finds nothing, whose analysis raises, or whose score is
    below the minimum (or cannot be compared with it). *)
Definition expected_entry `{PyRuntime} (request : CandidateRankingRequest)
    (job : job_data) (w : world) (candidate : user_row) : option ranking_entry :=
  match fst (get_candidate_data (u_id candidate) w) with
  | Ok (Some found) =>
      match analyze_candidate_compatibility
              (w_reply w (u_id candidate) (job_id request)) found job,
            min_compatibility request with
      | Ok a, Some threshold =>
          if Qle_bool threshold (compatibility_score a)
          then Some {| re_candidate_id := u_id candidate;
                       re_candidate_name := cd_name found;
                       re_candidate_email := cd_email found;
                       re_compatibility_score := compatibility_score a;
                       re_cultural_fit_score := cultural_fit_score a;
                       re_professional_fit_score := professional_fit_score a;
                       re_ai_analysis := ai_analysis a;
                       re_red_flags := red_flags a;
                       re_recommendation := recommendation a |}
          else None
      | _, _ => None
      end
  | _ => None
  end.

(** The pool that a ranking goes through. *)
Definition fetched_pool (w : world) : list user_row :=
  match w_fault w GetAllCandidates with
  | NoFault => w_candidates w
  | _ => []
  end.

(** The line that the gateway logs when the save of an entry fails. *)
Definition failed_save (request : CandidateRankingRequest) (e : ranking_entry)
  : log_entry :=
  LogGateway (SaveModelResult (re_candidate_id e) (job_id request)).

(** The pairs (job, skill) of the table JOB_SKILLS. *)
Definition skill_pairs (t : job_skills) : list (Z * Z) :=
  (fun r => (js_job_id r, js_skill_id r)) <$> jst_rows t.

(* ================================================================== *)
(** ** Proofs: the heuristic analysis *)
(* ================================================================== *)

Lemma Qnat_nonneg (n : nat) : (0 <= Qnat n)%Q.
Proof.
  unfold Qnat, Qle. simpl. lia.
Qed.

Lemma Qnat_le (n m : nat) : (n <= m)%nat -> (Qnat n <= Qnat m)%Q.
Proof.
  intros Hnm. unfold Qnat, Qle. simpl. lia.
Qed.

Lemma Qnat_pos (n : nat) : (0 < n)%nat -> (0 < Qnat n)%Q.
Proof.
  intros Hn. unfold Qnat, Qlt. simpl. lia.
Qed.

(** A part over a whole, both counted in naturals, lies in [0,1]. *)
Lemma ratio_bounds (n m : nat) :
  (n <= m)%nat -> (0 < m)%nat ->
  (0 <= Qnat n / Qnat m)%Q /\ (Qnat n / Qnat m <= 1)%Q.
Proof.
  intros Hnm Hm. pose proof (Qnat_pos m Hm) as Hpos. split.
  - apply Qle_shift_div_l; [exact Hpos|]. rewrite Qmult_0_l. apply Qnat_nonneg.
  - apply Qle_shift_div_r; [exact Hpos|]. rewrite Qmult_1_l. by apply Qnat_le.
Qed.

Lemma size_nonempty_pos (X : gset string) : X ≠ ∅ -> (0 < size X)%nat.
Proof.
  intros Hne. destruct (size X) eqn:E; [|lia].
  apply size_empty_inv in E. exfalso. apply Hne. by apply leibniz_equiv.
Qed.

Lemma common_skills_spec (c : candidate_data) (j : job_data) (s : string) :
  s ∈ elements (common_skills c j) <-> s ∈ cd_skills c /\ s ∈ jd_required_skills j.
Proof.
  unfold common_skills. rewrite elem_of_elements, elem_of_intersection.
  by rewrite !elem_of_list_to_set.
Qed.

(** In exact arithmetic the order of the product and the quotient
    does not matter. *)
Lemma professional_score_formula (c : candidate_data) (j : job_data) :
  let required : gset string := list_to_set (jd_required_skills j) in
  let matched : gset string := list_to_set (cd_skills c) ∩ required in
  (professional_score c j ==
     if decide (required = ∅) then 0
     else 100 * Qnat (size matched) / Qnat (size required))%Q.
Proof.
  intros required matched. unfold professional_score. fold required.
  destruct (decide (required = ∅)); [reflexivity|].
  unfold common_skills. fold required. fold matched.
  unfold Qdiv. ring.
Qed.

Lemma professional_score_bounds (c : candidate_data) (j : job_data) :
  (0 <= professional_score c j)%Q /\ (professional_score c j <= 100)%Q.
Proof.
  unfold professional_score.
  destruct (decide (list_to_set (jd_required_skills j) = (∅ : gset string)))
    as [|Hne]; [split; discriminate|].
  assert (Hsub : (size (common_skills c j)
                  <= size (list_to_set (jd_required_skills j) : gset string))%nat).
  { apply subseteq_size. unfold common_skills. apply intersection_subseteq_r. }
  destruct (ratio_bounds _ _ Hsub (size_nonempty_pos _ Hne)) as [H0 H1].
  split.
  - apply Qmult_le_0_compat; [exact H0|discriminate].
  - apply Qle_trans with (1 * 100)%Q; [|discriminate].
    apply Qmult_le_compat_r; [exact H1|discriminate].
Qed.

Lemma heuristic_fields (c : candidate_data) (j : job_data) (text : json) :
  heuristic_result c j
    {| compatibility_score := (professional_score c j * (7 # 10))%Q;
       cultural_fit_score := 50%Q;
       professional_fit_score := professional_score c j;
       ai_analysis := text;
       red_flags := JArr [];
       strengths := JArr (JStr <$> elements (common_skills c j));
       recommendation := JStr "EM_ANALISE";
       suggested_questions := JArr [] |}.
Proof.
  unfold heuristic_result; simpl.
  split; [reflexivity|].
  split; [reflexivity|]. split; [reflexivity|]. split; [reflexivity|].
  split; [|split; reflexivity].
  exists (elements (common_skills c j)). split; [reflexivity|]. split.
  - apply NoDup_elements.
  - apply common_skills_spec.
Qed.

(** C1, as the specification states it, fails on Python's floats: the
    code divides first, and the rounded quotient times 100 is not the
    float nearest to 100 × |matched| / |required|.  For one required
    skill of three the code gives 33.33333333333333 and the formula
    33.333333333333336. *)
Lemma quotient_is_rounded_first :
  ~ (forall (c : candidate_data) (j : job_data),
       professional_score_double c j = claimed_professional_double c j).
Proof.
  intros Hall.
  pose proof (f_equal (fun x => PrimFloat.eqb x
                         (claimed_professional_double one_of_three.1 one_of_three.2))
                (Hall one_of_three.1 one_of_three.2)) as Hsame.
  vm_compute in Hsame. discriminate Hsame.
Qed.

(** C1, amended.  For every candidate and job, the heuristic analysis
    returned when the model service fails ([_get_fallback_analysis]) or
    answers a text that is no JSON ([_extract_info_from_text]) has a
    professional-fit score of (|candidate skills ∩ required skills| /
    |required skills|) × 100, the quotient taken first, or 0 when the
    job requires no skill; a compatibility score of that score times
    0.7; a cultural-fit score of 50; the under-review recommendation;
    the matched skills, each once, as strengths; no red flag and no
    suggested question.  A skill matches when the same string is on
    both lists.  On Python's floats the two scores are the results of
    these operations in this order, each rounded. *)
Theorem fallback_analysis_is_heuristic (c : candidate_data) (j : job_data) :
  let required : gset string := list_to_set (jd_required_skills j) in
  let matched : gset string := list_to_set (cd_skills c) ∩ required in
  heuristic_result c j (_get_fallback_analysis c j)
  /\ (forall text, heuristic_result c j (_extract_info_from_text text c j))
  /\ professional_score_double c j
     = (if decide (required = ∅) then 0
        else float_of_len (size matched) / float_of_len (size required) * 100)%float
  /\ compatibility_score_double c j = (professional_score_double c j * 0.7)%float.
Proof.
  intros required matched.
  split; [apply heuristic_fields|]. split; [intros text; apply heuristic_fields|].
  by split.
Qed.

(** The doubles of the code for one required skill of three:
    33.33333333333333 and 23.33333333333333 as Python prints them. *)
Example fallback_doubles :
  professional_score_double one_of_three.1 one_of_three.2 = 33.333333333333329%float
  /\ compatibility_score_double one_of_three.1 one_of_three.2
     = 23.333333333333329%float
  /\ claimed_professional_double one_of_three.1 one_of_three.2
     = 33.333333333333336%float.
Proof.
  vm_compute. by repeat split.
Qed.

(** The scenario of the specification: Ana matches both required
    skills, Bruno none, and a skill in another case does not match. *)
Example fallback_scenario :
  let job := {| jd_id := 7; jd_title := "Dev"; jd_description := EmptyString;
                jd_level := "Pleno"; jd_required_skills := ["Python"; "SQL"] |} in
  let a := {| cd_id := 1; cd_name := "Ana"; cd_email := EmptyString;
              cd_skills := ["Python"; "SQL"; "React"]; cd_profile := EmptyString |} in
  let b := {| cd_id := 2; cd_name := "Bruno"; cd_email := EmptyString;
              cd_skills := ["Java"]; cd_profile := EmptyString |} in
  let p := {| cd_id := 3; cd_name := "Paula"; cd_email := EmptyString;
              cd_skills := ["python"; "SQL"]; cd_profile := EmptyString |} in
  (professional_fit_score (_get_fallback_analysis a job) == 100)%Q
  /\ (compatibility_score (_get_fallback_analysis a job) == 70)%Q
  /\ (professional_fit_score (_get_fallback_analysis b job) == 0)%Q
  /\ (professional_fit_score (_get_fallback_analysis p job) == 50)%Q
  /\ strengths (_get_fallback_analysis p job) = JArr [JStr "SQL"].
Proof.
  vm_compute. repeat split.
Qed.

(* ================================================================== *)
(** ** Proofs: the analysis of a reply *)
(* ================================================================== *)

Lemma heuristic_invariant (c : candidate_data) (j : job_data) (r : analysis) :
  compatibility_score r = (professional_score c j * (7 # 10))%Q ->
  recommendation r = JStr "EM_ANALISE" ->
  is_list (red_flags r) = true -> is_list (strengths r) = true ->
  analysis_invariant r.
Proof.
  intros Hc Hr Hf Hs. destruct (professional_score_bounds c j) as [H0 H100].
  unfold analysis_invariant. rewrite Hc.
  split; [|split; [|split; [|split]]]; try assumption.
  - apply Qmult_le_0_compat; [exact H0|discriminate].
  - apply Qle_trans with (100 * (7 # 10))%Q; [|discriminate].
    apply Qmult_le_compat_r; [exact H100|discriminate].
  - rewrite Hr. right; right; reflexivity.
Qed.

Lemma fallback_invariant (c : candidate_data) (j : job_data) :
  analysis_invariant (_get_fallback_analysis c j).
Proof.
  by apply (heuristic_invariant c j).
Qed.

Lemma extract_invariant (text : string) (c : candidate_data) (j : job_data) :
  analysis_invariant (_extract_info_from_text text c j).
Proof.
  by apply (heuristic_invariant c j).
Qed.

Lemma dict_get_missing (m : list (string * json)) (k : string) (d : json) :
  dict_has m k = false -> dict_get m k d = d.
Proof.
  induction m as [|[k' v] m IH]; simpl; [reflexivity|].
  destruct (String.eqb k' k); simpl; [discriminate|exact IH].
Qed.

Lemma analysis_of_reply_fields `{PyRuntime} (m : list (string * json)) (r : analysis) :
  analysis_of_reply (JObj m) = Ok r ->
  passed_through m r /\ missing_fields_defaulted (JStr "EM_ANALISE") m r.
Proof.
  unfold analysis_of_reply, obind.
  destruct (py_float (dict_get m "compatibility_score" (JNum 0%Q))) as [x|] eqn:Ex;
    [|discriminate].
  destruct (py_float (dict_get m "cultural_fit_score" (JNum 0%Q))) as [y|] eqn:Ey;
    [|discriminate].
  destruct (py_float (dict_get m "professional_fit_score" (JNum 0%Q))) as [z|] eqn:Ez;
    [|discriminate].
  intros [= <-]. split.
  - unfold passed_through; simpl. by rewrite Ex.
  - unfold missing_fields_defaulted; simpl.
    repeat split; intros Hk; rewrite (dict_get_missing _ _ _ Hk) in *;
      simpl in *; congruence.
Qed.

(** The analysis never raises: every failure inside is answered by one
    of the two heuristic results. *)
Lemma analyze_cases `{PyRuntime} (reply : completion)
    (c : candidate_data) (j : job_data) :
  exists r, analyze_candidate_compatibility reply c j = Ok r /\
    match reply with
    | CompletionError | CompletionContent None => r = _get_fallback_analysis c j
    | CompletionContent (Some text) =>
        match json_loads (unfence text) with
        | None => r = _extract_info_from_text (unfence text) c j
        | Some (JObj m) =>
            analysis_of_reply (JObj m) = Ok r
            \/ ((exists e, analysis_of_reply (JObj m) = Raise e)
                /\ r = _get_fallback_analysis c j)
        | Some _ => r = _get_fallback_analysis c j
        end
    end.
Proof.
  unfold analyze_candidate_compatibility, analyze_body, _parse_analysis_response.
  destruct reply as [|[text|]]; [by eexists| |by eexists].
  destruct (json_loads (unfence text)) as [parsed|]; [|by eexists].
  destruct parsed as [|b|q|s|l|m]; try (by eexists).
  destruct (analysis_of_reply (JObj m)) as [r|e] eqn:E.
  - exists r. split; [reflexivity|]. by left.
  - eexists. split; [reflexivity|]. right. split; [by exists e|reflexivity].
Qed.

(** C2, as the specification states it, fails at a parsed reply: a
    reply whose compatibility score is 150 is returned with that score. *)
Lemma parsed_reply_breaks_invariant :
  ~ (forall (rt : PyRuntime) (reply : completion) (c : candidate_data)
            (j : job_data) (r : analysis),
       analyze_candidate_compatibility reply c j = Ok r -> analysis_invariant r).
Proof.
  intros Hall.
  pose (c := {| cd_id := 1; cd_name := "Ana"; cd_email := EmptyString;
                cd_skills := []; cd_profile := EmptyString |}).
  pose (j := {| jd_id := 7; jd_title := "Dev"; jd_description := EmptyString;
                jd_level := EmptyString; jd_required_skills := [] |}).
  destruct (@analyze_candidate_compatibility sample_runtime
              (CompletionContent (Some reply_score_150)) c j) as [r|e] eqn:E;
    [|vm_compute in E; discriminate].
  pose proof (Hall sample_runtime _ c j r E) as (_ & Hle & _).
  vm_compute in E. injection E as <-. simpl in Hle.
  apply Hle. reflexivity.
Qed.

(** C2, amended.  For every job, candidate and reply the analysis
    returns a result, and the result satisfies the invariant
    (compatibility score in [0,100], one of the three recommendations,
    red flags and strengths are lists) on every path but one: when the
    reply parses to a JSON object, the compatibility score is the
    reply's value coerced to a number (0 when absent) and the
    recommendation, red flags and strengths are the reply's own values
    (EM_ANALISE and empty lists when absent), unchecked. *)
Theorem analysis_invariant_outside_parsed_replies `{PyRuntime}
    (reply : completion) (c : candidate_data) (j : job_data) :
  exists r, analyze_candidate_compatibility reply c j = Ok r /\
    (analysis_invariant r
     \/ exists text m,
          reply = CompletionContent (Some text)
          /\ json_loads (unfence text) = Some (JObj m)
          /\ passed_through m r).
Proof.
  destruct (analyze_cases reply c j) as (r & Hr & Hcase).
  exists r. split; [exact Hr|].
  destruct reply as [|[text|]];
    [left; subst r; apply fallback_invariant| |left; subst r; apply fallback_invariant].
  destruct (json_loads (unfence text)) as [parsed|] eqn:Eparse;
    [|left; subst r; apply extract_invariant].
  destruct parsed as [|b|q|s|l|m];
    try (left; subst r; apply fallback_invariant).
  destruct Hcase as [Hok|[_ ->]]; [|left; apply fallback_invariant].
  right. exists text, m. split; [reflexivity|]. split; [exact Eparse|].
  by apply analysis_of_reply_fields.
Qed.

(** A parsed reply whose own values are in range gives a result that
    satisfies the invariant. *)
Lemma parsed_reply_in_range `{PyRuntime} (m : list (string * json)) (r : analysis) :
  passed_through m r ->
  (exists q, dict_get m "compatibility_score" (JNum 0%Q) = JNum q
             /\ (0 <= q)%Q /\ (q <= 100)%Q) ->
  is_recommendation (dict_get m "recommendation" (JStr "EM_ANALISE")) ->
  is_list (dict_get m "red_flags" (JArr [])) = true ->
  is_list (dict_get m "strengths" (JArr [])) = true ->
  analysis_invariant r.
Proof.
  intros (Hc & Hr & Hf & Hs) (q & Hq & H0 & H100) Hrec Hfl Hsl.
  rewrite Hq in Hc. simpl in Hc. injection Hc as Hc.
  unfold analysis_invariant. rewrite <- Hc, Hr, Hf, Hs. auto.
Qed.

(** C6, as the specification states it, fails at the empty object: the
    missing recommendation is not defaulted to an empty text. *)
Lemma missing_recommendation_is_not_empty :
  ~ (forall (rt : PyRuntime) (text : string) (c : candidate_data) (j : job_data)
            (m : list (string * json)),
       json_loads (unfence text) = Some (JObj m) ->
       exists r,
         analyze_candidate_compatibility (CompletionContent (Some text)) c j = Ok r
         /\ missing_fields_defaulted (JStr EmptyString) m r).
Proof.
  intros Hall.
  pose (c := {| cd_id := 1; cd_name := "Ana"; cd_email := EmptyString;
                cd_skills := []; cd_profile := EmptyString |}).
  pose (j := {| jd_id := 7; jd_title := "Dev"; jd_description := EmptyString;
                jd_level := EmptyString; jd_required_skills := [] |}).
  destruct (Hall sample_runtime reply_empty_object c j [] eq_refl)
    as (r & Hr & Hdef).
  vm_compute in Hr. injection Hr as <-.
  destruct Hdef as (_ & _ & _ & _ & _ & _ & _ & Hrec).
  specialize (Hrec eq_refl). discriminate Hrec.
Qed.

(** C6, amended.  For every reply the analysis returns a result and
    raises nothing: a failed call and a reply without content give the
    fallback analysis; a text that is no JSON gives the heuristic
    analysis of that text; a JSON document that is no object, or whose
    score fields cannot be coerced to numbers, gives the fallback
    analysis; otherwise every field the object lacks is defaulted: the
    scores to 0, the analysis text to the empty text, the lists to the
    empty list, and the recommendation to EM_ANALISE. *)
Theorem analysis_never_raises `{PyRuntime}
    (reply : completion) (c : candidate_data) (j : job_data) :
  exists r, analyze_candidate_compatibility reply c j = Ok r /\
    match reply with
    | CompletionError | CompletionContent None => r = _get_fallback_analysis c j
    | CompletionContent (Some text) =>
        match json_loads (unfence text) with
        | None => r = _extract_info_from_text (unfence text) c j
        | Some (JObj m) =>
            (analysis_of_reply (JObj m) = Ok r
             /\ missing_fields_defaulted (JStr "EM_ANALISE") m r)
            \/ ((exists e, analysis_of_reply (JObj m) = Raise e)
                /\ r = _get_fallback_analysis c j)
        | Some _ => r = _get_fallback_analysis c j
        end
    end.
Proof.
  destruct (analyze_cases reply c j) as (r & Hr & Hcase).
  exists r. split; [exact Hr|].
  destruct reply as [|[text|]]; try exact Hcase.
  destruct (json_loads (unfence text)) as [parsed|]; [|exact Hcase].
  destruct parsed as [|b|q|s|l|m]; try exact Hcase.
  destruct Hcase as [Hok|Hraise]; [left|by right].
  split; [exact Hok|]. by apply analysis_of_reply_fields.
Qed.

(** The empty object is answered with every default. *)
Example empty_object_defaults :
  @analyze_candidate_compatibility sample_runtime
    (CompletionContent (Some reply_empty_object))
    {| cd_id := 1; cd_name := "Ana"; cd_email := EmptyString;
       cd_skills := ["Python"]; cd_profile := EmptyString |}
    {| jd_id := 7; jd_title := "Dev"; jd_description := EmptyString;
       jd_level := EmptyString; jd_required_skills := ["Python"] |}
  = Ok {| compatibility_score := 0%Q; cultural_fit_score := 0%Q;
          professional_fit_score := 0%Q; ai_analysis := JStr EmptyString;
          red_flags := JArr []; strengths := JArr [];
          recommendation := JStr "EM_ANALISE"; suggested_questions := JArr [] |}.
Proof.
  vm_compute. reflexivity.
Qed.

(* ================================================================== *)
(** ** Proofs: sorting and slicing *)
(* ================================================================== *)

Section Sorting.
  Context {A : Type} (geb : A -> A -> bool).
  Hypothesis geb_total : forall x y, geb x y = false -> geb y x = true.
  Hypothesis geb_trans :
    forall x y z, geb x y = true -> geb y z = true -> geb x z = true.

Lemma insert_desc_perm (x : A) (l : list A) : insert_desc geb x l ≡ₚ x :: l.
Proof.
  induction l as [|y l IH]; simpl; [reflexivity|].
  destruct (geb x y); [reflexivity|].
  rewrite IH. apply Permutation_swap.
Qed.

Lemma sort_desc_perm (l : list A) : sort_desc geb l ≡ₚ l.
Proof.
  induction l as [|x l IH]; simpl; [reflexivity|].
  rewrite insert_desc_perm. by rewrite IH.
Qed.

Lemma insert_desc_descending (x : A) (l : list A) :
  descending geb l -> descending geb (insert_desc geb x l).
Proof.
  unfold descending. induction l as [|y l IH]; intros Hl; simpl.
  - repeat constructor.
  - apply StronglySorted_inv in Hl as [Hl Hy].
    destruct (geb x y) eqn:E.
    + constructor; [by constructor|].
      constructor; [exact E|].
      eapply Forall_impl; [exact Hy|]. intros z Hz. by eapply geb_trans.
    + constructor; [by apply IH|].
      rewrite (insert_desc_perm x l). constructor; [by apply geb_total|exact Hy].
Qed.

Lemma sort_desc_descending (l : list A) : descending geb (sort_desc geb l).
Proof.
  induction l as [|x l IH]; simpl; [constructor|].
  by apply insert_desc_descending.
Qed.

Lemma descending_filter (p : A -> bool) (l : list A) :
  descending geb l -> descending geb (List.filter p l).
Proof.
  unfold descending. induction 1 as [|x l Hl IH Hx]; simpl; [constructor|].
  destruct (p x); [|exact IH].
  constructor; [exact IH|].
  apply Forall_forall. intros y Hy. apply list_elem_of_In, filter_In in Hy as [Hy _].
  rewrite Forall_forall in Hx. apply Hx. by apply list_elem_of_In.
Qed.

Lemma descending_take (n : nat) (l : list A) :
  descending geb l -> descending geb (take n l).
Proof.
  unfold descending. intros Hl. revert n.
  induction Hl as [|x l Hl IH Hx]; intros [|n]; simpl; try constructor.
  - apply IH.
  - by apply Forall_take.
Qed.

Lemma descending_lookup (l : list A) (i j : nat) (x y : A) :
  descending geb l -> l !! i = Some x -> l !! j = Some y -> (i < j)%nat ->
  geb x y = true.
Proof.
  unfold descending. intros Hl. revert i j.
  induction Hl as [|z l Hl IH Hz]; intros i j Hi Hj Hij; [by destruct i|].
  destruct j as [|j]; [lia|]. simpl in Hj.
  destruct i as [|i]; simpl in Hi.
  - injection Hi as ->. rewrite Forall_forall in Hz. apply Hz.
    by eapply list_elem_of_lookup_2.
  - apply (IH i j); [exact Hi|exact Hj|lia].
Qed.

(** When the last element is ahead of every other, the stable sort
    puts it first. *)
Lemma sort_desc_newest_first (l : list A) (x : A) :
  Forall (fun y => geb y x = false) l ->
  sort_desc geb (l ++ [x]) = x :: sort_desc geb l.
Proof.
  induction 1 as [|y l Hy Hl IH]; simpl; [reflexivity|].
  rewrite IH. simpl. by rewrite Hy.
Qed.

End Sorting.

Lemma length_py_slice_to {A} (n : Z) (l : list A) :
  (0 <= n)%Z -> (Z.of_nat (length (py_slice_to n l)) <= n)%Z.
Proof.
  intros Hn. unfold py_slice_to.
  destruct (n <? 0)%Z eqn:E; [apply Z.ltb_lt in E; lia|].
  rewrite length_take. lia.
Qed.

Lemma descending_py_slice_to {A} (geb : A -> A -> bool) (n : Z) (l : list A) :
  descending geb l -> descending geb (py_slice_to n l).
Proof.
  intros Hl. unfold py_slice_to. destruct (n <? 0)%Z; by apply descending_take.
Qed.

Lemma Qle_bool_total (a b : Q) : Qle_bool a b = false -> Qle_bool b a = true.
Proof.
  intros Hab. apply Qle_bool_iff. apply Qlt_le_weak, Qnot_le_lt.
  intros Hle. apply Qle_bool_iff in Hle. congruence.
Qed.

Lemma Qle_bool_trans (a b c : Q) :
  Qle_bool a b = true -> Qle_bool b c = true -> Qle_bool a c = true.
Proof.
  rewrite !Qle_bool_iff. apply Qle_trans.
Qed.

Lemma Qltb_lt (a b : Q) : Qltb a b = true <-> (a < b)%Q.
Proof.
  unfold Qltb. rewrite negb_true_iff. split.
  - intros Hba. apply Qnot_le_lt. intros Hle. apply Qle_bool_iff in Hle. congruence.
  - intros Hab. destruct (Qle_bool b a) eqn:E; [|reflexivity].
    apply Qle_bool_iff in E. exfalso. by apply (Qlt_not_le a b).
Qed.

Lemma Qltb_ge (a b : Q) : Qltb a b = false <-> (b <= a)%Q.
Proof.
  unfold Qltb. rewrite negb_false_iff. apply Qle_bool_iff.
Qed.

Lemma by_relevance_total (x y : scored) :
  by_relevance x y = false -> by_relevance y x = true.
Proof. apply Qle_bool_total. Qed.

Lemma by_relevance_trans (x y z : scored) :
  by_relevance x y = true -> by_relevance y z = true -> by_relevance x z = true.
Proof. unfold by_relevance. intros Hxy Hyz. by eapply Qle_bool_trans. Qed.

Lemma by_compatibility_total (x y : ranking_entry) :
  by_compatibility x y = false -> by_compatibility y x = true.
Proof. apply Qle_bool_total. Qed.

Lemma by_compatibility_trans (x y z : ranking_entry) :
  by_compatibility x y = true -> by_compatibility y z = true ->
  by_compatibility x z = true.
Proof. unfold by_compatibility. intros Hxy Hyz. by eapply Qle_bool_trans. Qed.

Lemma size_list_to_set_le (l : list string) :
  (size (list_to_set l : gset string) <= length l)%nat.
Proof.
  induction l as [|x l IH].
  - change (list_to_set [] : gset string) with (∅ : gset string).
    rewrite size_empty. simpl. lia.
  - change (list_to_set (x :: l) : gset string)
      with ({[x]} ∪ list_to_set l : gset string).
    rewrite size_union_alt, size_singleton. simpl.
    assert (Hsub : (list_to_set l ∖ {[x]} : gset string) ⊆ list_to_set l).
    { apply elem_of_subseteq. intros y [Hy _]%elem_of_difference. exact Hy. }
    apply subseteq_size in Hsub. lia.
Qed.

(* ================================================================== *)
(** ** Proofs: substrings *)
(* ================================================================== *)

Lemma append_cons (a : ascii) (s t : string) :
  String a s +:+ t = String a (s +:+ t).
Proof. reflexivity. Qed.

Lemma append_empty_r (s : string) : s +:+ EmptyString = s.
Proof.
  induction s as [|a s IH]; [reflexivity|]. by rewrite append_cons, IH.
Qed.

Lemma append_assoc (s t u : string) : (s +:+ t) +:+ u = s +:+ (t +:+ u).
Proof.
  induction s as [|a s IH]; [reflexivity|]. by rewrite !append_cons, IH.
Qed.

Lemma prefix_empty (s : string) : String.prefix EmptyString s = true.
Proof. by destruct s. Qed.

Lemma contains_empty (s : string) : str_contains EmptyString s = true.
Proof. destruct s; cbn [str_contains]; by rewrite prefix_empty. Qed.

Lemma contains_in_empty (s : string) :
  str_contains s EmptyString = String.eqb s EmptyString.
Proof. by destruct s. Qed.

Lemma prefix_app_l (n x y : string) :
  String.prefix n x = true -> String.prefix n (x +:+ y) = true.
Proof.
  revert x. induction n as [|a n IH]; intros x; [intros _; apply prefix_empty|].
  destruct x as [|b x]; [discriminate|].
  rewrite append_cons. cbn [String.prefix].
  destruct (ascii_dec a b); [apply IH|discriminate].
Qed.

Lemma contains_app_l (n x y : string) :
  str_contains n x = true -> str_contains n (x +:+ y) = true.
Proof.
  induction x as [|b x IH].
  - cbn [str_contains]. rewrite orb_false_r. intros Hn.
    destruct n; [apply contains_empty|discriminate].
  - rewrite append_cons. cbn [str_contains].
    intros [Hp|Hc]%orb_true_iff; apply orb_true_iff.
    + left. by apply (prefix_app_l n (String b x) y).
    + right. by apply IH.
Qed.

Lemma contains_app_r (n x y : string) :
  str_contains n y = true -> str_contains n (x +:+ y) = true.
Proof.
  intros Hy. induction x as [|b x IH]; [exact Hy|].
  rewrite append_cons. cbn [str_contains]. rewrite IH. apply orb_true_r.
Qed.

Lemma prefix_self (s : string) : String.prefix s s = true.
Proof.
  induction s as [|a s IH]; [reflexivity|].
  cbn [String.prefix]. by destruct (ascii_dec a a).
Qed.

Lemma contains_self (s : string) : str_contains s s = true.
Proof.
  destruct s as [|a s]; [reflexivity|].
  cbn [str_contains]. by rewrite (prefix_self (String a s)).
Qed.

(** A text that is in one of the joined pieces is in the joined text. *)
Lemma contains_join (n sep s : string) (l : list string) :
  s ∈ l -> str_contains n s = true -> str_contains n (str_join sep l) = true.
Proof.
  intros Hin Hs. unfold str_join. induction l as [|x l IH];
    [by apply elem_of_nil in Hin|].
  destruct l as [|y l].
  - apply list_elem_of_singleton in Hin. by subst x.
  - change (String.concat sep (x :: y :: l))
      with (x +:+ sep +:+ String.concat sep (y :: l)).
    apply elem_of_cons in Hin as [->|Hin]; [by apply contains_app_l|].
    apply contains_app_r, contains_app_r. by apply IH.
Qed.

(* ================================================================== *)
(** ** Proofs: the talent search *)
(* ================================================================== *)

Lemma overlap_score_bounds `{PyRuntime} (q : string) (c : talent) :
  (0 <= overlap_score q c)%Q /\ (overlap_score q c <= 100)%Q.
Proof.
  unfold overlap_score.
  destruct (decide (list_to_set (str_split q) = (∅ : gset string))) as [|Hne];
    [split; discriminate|].
  match goal with |- context [(Qnat (size ?X) / Qnat (size ?Y))%Q] =>
    assert (Hsub : (size X <= size Y)%nat)
      by (apply subseteq_size, intersection_subseteq_l);
    destruct (ratio_bounds _ _ Hsub (size_nonempty_pos _ Hne)) as [H0 H1]
  end.
  split; lra.
Qed.

Lemma text_score_cases `{PyRuntime} (q : string) (c : talent) :
  text_score q c
  = if str_contains q (name_skills_profile c) then 100%Q else overlap_score q c.
Proof. reflexivity. Qed.

Lemma text_score_bounds `{PyRuntime} (q : string) (c : talent) :
  (0 <= text_score q c)%Q /\ (text_score q c <= 100)%Q.
Proof.
  rewrite text_score_cases. destruct (str_contains q (name_skills_profile c)).
  - split; discriminate.
  - apply overlap_score_bounds.
Qed.

Lemma text_search_elem `{PyRuntime} (candidates : list talent) (query : string)
    (s : scored) :
  s ∈ _simple_text_search candidates query <->
  exists c, c ∈ candidates
    /\ s = {| candidate := c; relevance_score := text_score (str_lower query) c |}
    /\ (0 < text_score (str_lower query) c)%Q.
Proof.
  unfold _simple_text_search.
  rewrite list_elem_of_In, filter_In, <- list_elem_of_In.
  rewrite (sort_desc_perm by_relevance), list_elem_of_fmap, Qltb_lt.
  split.
  - intros [(c & -> & Hc) Hpos]. exists c. by repeat split.
  - intros (c & Hc & -> & Hpos). split; [by exists c|exact Hpos].
Qed.

Lemma text_search_descending `{PyRuntime} (candidates : list talent) (query : string) :
  descending by_relevance (_simple_text_search candidates query).
Proof.
  apply descending_filter, sort_desc_descending.
  - apply by_relevance_total.
  - apply by_relevance_trans.
Qed.

(** C4. In the text search that answers when the criteria cannot be
    extracted, the haystack of a candidate is its name, its skills and
    its profile, in lower case and separated by spaces.  The score of
    a candidate is 100 when the lowercased query is a substring of the
    haystack, as it is when it is a substring of the lowercased name,
    of a lowercased skill or of the lowercased profile, and otherwise
    (|query words ∩ haystack words| / |query words|) × 100 over the
    sets of whitespace-separated words (0 when the query has no word);
    the output holds exactly the candidates whose score is positive,
    each with its score, in descending order of score; so a substring
    match, at 100, stands before every candidate whose overlap is
    partial (score below 100). *)
Theorem text_search_scores_and_order `{PyRuntime}
    (candidates : list talent) (query : string) :
  let q := str_lower query in
  let out := _simple_text_search candidates query in
  (forall c, text_score q c
             = if str_contains q (name_skills_profile c) then 100%Q
               else overlap_score q c)
  /\ (forall c,
        str_contains q (str_lower (t_name c)) = true
        \/ (exists s, s ∈ t_skills c /\ str_contains q (str_lower s) = true)
        \/ str_contains q (str_lower (t_profile c)) = true ->
        text_score q c = 100%Q)
  /\ (forall s, s ∈ out <->
        exists c, c ∈ candidates
          /\ s = {| candidate := c; relevance_score := text_score q c |}
          /\ (0 < text_score q c)%Q)
  /\ descending by_relevance out
  /\ (forall i j x y,
        out !! i = Some x -> out !! j = Some y ->
        str_contains q (name_skills_profile (candidate x)) = true ->
        (relevance_score y < 100)%Q ->
        (i < j)%nat).
Proof.
  intros q out. split; [intros c; apply text_score_cases|].
  split.
  { intros c Hpart.
    assert (Hin : str_contains q (name_skills_profile c) = true).
    { unfold name_skills_profile. destruct Hpart as [Hn|[(s & Hs & Hq)|Hp]].
      - by apply contains_app_l.
      - apply contains_app_r, contains_app_r, contains_app_l.
        apply (contains_join q " " (str_lower s)); [|exact Hq].
        apply list_elem_of_fmap. by exists s.
      - by do 4 apply contains_app_r. }
    by rewrite text_score_cases, Hin. }
  split; [intros s; apply text_search_elem|].
  split; [apply text_search_descending|].
  intros i j x y Hi Hj Hsub Hy.
  assert (Hx : relevance_score x = 100%Q).
  { apply list_elem_of_lookup_2, text_search_elem in Hi as (c & _ & -> & _).
    simpl in *. fold q. by rewrite text_score_cases, Hsub. }
  destruct (decide (i < j)%nat) as [|Hge]; [assumption|exfalso].
  destruct (decide (i = j)) as [->|Hne].
  - rewrite Hi in Hj. injection Hj as <-. rewrite Hx in Hy.
    by apply (Qlt_irrefl 100).
  - assert (Hyx : by_relevance y x = true).
    { apply (descending_lookup by_relevance out j i);
        [apply text_search_descending|exact Hj|exact Hi|lia]. }
    unfold by_relevance in Hyx. apply Qle_bool_iff in Hyx. rewrite Hx in Hyx.
    by apply (Qlt_not_le _ _ Hy).
Qed.

(** An exact match after a partial one in the pool comes out first,
    and a candidate that shares no word is dropped. *)
Example text_search_scenario :
  let mk := fun id name skills =>
    {| t_id := id; t_name := name; t_email := EmptyString; t_skills := skills;
       t_profile := EmptyString; t_level := EmptyString; t_area := EmptyString |} in
  (fun r => (t_id (candidate r), relevance_score r))
    <$> @_simple_text_search sample_runtime
          [mk 1%Z "Ana" ["Java"]; mk 2%Z "Bia" ["Python"];
           mk 3%Z "Caio" ["Django"; "Python"]]
          "Django Python"
  = [(3%Z, 100%Q); (2%Z, Qnat 1 / Qnat 2 * 100)%Q].
Proof.
  vm_compute. reflexivity.
Qed.

(** A candidate that has every word of the query, in another order,
    also scores 100 and keeps its place in the pool. *)
Example text_search_full_overlap :
  let mk := fun id name skills =>
    {| t_id := id; t_name := name; t_email := EmptyString; t_skills := skills;
       t_profile := EmptyString; t_level := EmptyString; t_area := EmptyString |} in
  (fun r => (t_id (candidate r), relevance_score r))
    <$> @_simple_text_search sample_runtime
          [mk 2%Z "Bia" ["Python"; "Django"]; mk 3%Z "Caio" ["Django"; "Python"]]
          "Django Python"
  = [(2%Z, Qnat 2 / Qnat 2 * 100)%Q; (3%Z, 100%Q)].
Proof.
  vm_compute. reflexivity.
Qed.

Lemma all_strs_JStr (l : list string) : all_strs (JStr <$> l) = Ok l.
Proof.
  induction l as [|x l IH]; csimpl; [reflexivity|]. by rewrite IH.
Qed.

Lemma skill_points_bounds `{PyRuntime} (skills : list string) (c : talent) :
  (0 <= skill_points skills c)%Q /\ (skill_points skills c <= 50)%Q.
Proof.
  unfold skill_points. destruct (str_lower <$> skills) as [|x l] eqn:E;
    [split; discriminate|].
  match goal with |- context [(Qnat (size ?X) / Qnat (length ?l))%Q] =>
    assert (Hsub : (size X <= length l)%nat)
  end.
  { etrans; [|apply size_list_to_set_le].
    apply subseteq_size, intersection_subseteq_r. }
  destruct (ratio_bounds _ _ Hsub ltac:(simpl; lia)) as [H0 H1].
  split; lra.
Qed.

Lemma guarded_score_bounds `{PyRuntime} (skills : list string) (level area : string)
    (c : talent) :
  (0 <= guarded_score skills level area c)%Q
  /\ (guarded_score skills level area c <= 100)%Q.
Proof.
  unfold guarded_score. destruct (skill_points_bounds skills c) as [H0 H50].
  repeat match goal with |- context [if ?b then _ else _] => destruct b end;
    split; lra.
Qed.

(** The score computed from the parts of a criteria object: the
    required skills and the two tokens after their coercion. *)
Lemma criteria_score_parts `{PyRuntime} (m : list (string * json)) (c : talent)
    (q : Q) :
  criteria_score (JObj m) c = Ok q ->
  exists required level area,
    lower_each (dict_get m "skills" (JArr [])) = Ok required
    /\ lower_of (dict_get m "level" (JStr EmptyString)) = Ok level
    /\ lower_of (dict_get m "area" (JStr EmptyString)) = Ok area
    /\ (q ==
        (match required with
         | [] => 0
         | _ :: _ =>
             Qnat (size (list_to_set (str_lower <$> t_skills c)
                         ∩ list_to_set required : gset string))
             / Qnat (length required) * 50
         end)
        + (if negb (String.eqb level EmptyString)
              && negb (String.eqb level "qualquer")
              && (str_contains level (str_lower (t_level c))
                  || str_contains (str_lower (t_level c)) level)
           then 30 else 0)
        + (if negb (String.eqb area EmptyString)
              && str_contains area (str_lower (t_area c))
           then 20 else 0))%Q.
Proof.
  unfold criteria_score, obind.
  destruct (lower_each _) as [required|]; [|discriminate].
  destruct (lower_of (dict_get m "level" _)) as [level|]; [|discriminate].
  destruct (lower_of (dict_get m "area" _)) as [area|]; [|discriminate].
  intros [= <-]. exists required, level, area.
  split; [reflexivity|]. split; [reflexivity|]. split; [reflexivity|].
  destruct required;
    destruct (negb (String.eqb level EmptyString)
              && negb (String.eqb level "qualquer"));
    destruct (str_contains level (str_lower (t_level c))
              || str_contains (str_lower (t_level c)) level);
    destruct (negb (String.eqb area EmptyString)
              && str_contains area (str_lower (t_area c)));
    simpl; ring.
Qed.

Lemma criteria_score_bounds `{PyRuntime} (criteria : json) (c : talent) (q : Q) :
  criteria_score criteria c = Ok q -> (0 <= q)%Q /\ (q <= 100)%Q.
Proof.
  destruct criteria as [| | | | |m]; try discriminate.
  intros (required & level & area & _ & _ & _ & Hq)%criteria_score_parts.
  rewrite Hq. clear Hq.
  assert (Hs : (0 <= match required with
                      | [] => 0
                      | _ :: _ =>
                          Qnat (size (list_to_set (str_lower <$> t_skills c)
                                      ∩ list_to_set required : gset string))
                          / Qnat (length required) * 50
                      end)%Q
               /\ (match required with
                   | [] => 0
                   | _ :: _ =>
                       Qnat (size (list_to_set (str_lower <$> t_skills c)
                                   ∩ list_to_set required : gset string))
                       / Qnat (length required) * 50
                   end <= 50)%Q).
  { destruct required as [|x l]; [split; discriminate|].
    match goal with |- context [(Qnat (size ?X) / Qnat (length ?l))%Q] =>
      assert (Hsub : (size X <= length l)%nat)
    end.
    { etrans; [|apply size_list_to_set_le].
      apply subseteq_size, intersection_subseteq_r. }
    destruct (ratio_bounds _ _ Hsub ltac:(simpl; lia)) as [H0 H1].
    split; lra. }
  destruct Hs as [H0 H50].
  repeat match goal with |- context [if ?b then _ else _] => destruct b end;
    split; lra.
Qed.

Lemma score_all_spec `{PyRuntime} (criteria : json) (candidates : list talent)
    (out : list scored) :
  score_all criteria candidates = Ok out ->
  candidate <$> out = candidates
  /\ Forall (fun s => criteria_score criteria (candidate s) = Ok (relevance_score s)) out.
Proof.
  revert out. induction candidates as [|c l IH]; intros out; simpl.
  - intros [= <-]. by split.
  - unfold obind. destruct (criteria_score criteria c) as [q|] eqn:Eq; [|discriminate].
    destruct (score_all criteria l) as [rest|]; [|discriminate].
    intros [= <-]. destruct (IH rest eq_refl) as [Hmap Hall].
    split; [csimpl; by rewrite Hmap|]. constructor; [exact Eq|exact Hall].
Qed.

Lemma score_all_typed `{PyRuntime} (skills : list string) (level area : string)
    (candidates : list talent) :
  exists out, score_all (criteria_object skills level area) candidates = Ok out.
Proof.
  induction candidates as [|c l [rest IH]]; [by eexists|].
  assert (Hc : exists q, criteria_score (criteria_object skills level area) c = Ok q).
  { unfold criteria_score, criteria_object, obind. simpl.
    rewrite all_strs_JStr. by eexists. }
  destruct Hc as [q Hq]. cbn [score_all]. rewrite Hq, IH. by eexists.
Qed.

Lemma criteria_score_typed `{PyRuntime} (skills : list string) (level area : string)
    (c : talent) (q : Q) :
  criteria_score (criteria_object skills level area) c = Ok q ->
  (q == guarded_score skills level area c)%Q.
Proof.
  intros (required & lv & ar & Hr & Hl & Ha & Hq)%criteria_score_parts.
  simpl in Hr, Hl, Ha. rewrite all_strs_JStr in Hr. simpl in Hr.
  injection Hr as <-. injection Hl as <-. injection Ha as <-.
  rewrite Hq. unfold guarded_score, skill_points. reflexivity.
Qed.

(** C5, as the specification states it, fails for the level
    "qualquer": a candidate whose level token is empty, as the search
    endpoint builds it, is a substring of the required level and yet
    receives no point for the level. *)
Lemma any_level_gives_no_points :
  ~ (forall (rt : PyRuntime) (skills : list string) (level area : string)
            (candidates : list talent),
       exists out,
         _rank_candidates_by_criteria candidates (criteria_object skills level area)
         = Ok out
         /\ Forall (fun s => (relevance_score s
                              == claimed_score skills level area (candidate s))%Q) out
         /\ candidate <$> out ≡ₚ candidates
         /\ descending by_relevance out).
Proof.
  intros Hall.
  pose (c := {| t_id := 1; t_name := "Ana"; t_email := EmptyString;
                t_skills := ["Python"]; t_profile := EmptyString;
                t_level := EmptyString; t_area := EmptyString |}).
  destruct (Hall sample_runtime [] "qualquer" "ti" [c]) as (out & Hout & Hscore & _).
  vm_compute in Hout. injection Hout as <-.
  apply Forall_inv in Hscore. vm_compute in Hscore. discriminate Hscore.
Qed.

(** C5, amended.  For criteria whose skills, level and area are well
    typed, the criteria path returns every input candidate, in
    descending order of score, and the score of a candidate is the sum
    of: 50 × (number of distinct lowercased candidate skills among the
    lowercased required skills) / (number of required skills), when a
    skill is required; 30 points when a level is required, it is not
    "qualquer", and the required level is a substring of the
    candidate's level or the other way round; 20 points when an area is
    required and it is a substring of the candidate's area.  No
    candidate is filtered out. *)
Theorem criteria_ranking_scores `{PyRuntime} (skills : list string)
    (level area : string) (candidates : list talent) :
  exists out,
    _rank_candidates_by_criteria candidates (criteria_object skills level area)
    = Ok out
    /\ Forall (fun s => (relevance_score s
                         == guarded_score skills level area (candidate s))%Q) out
    /\ candidate <$> out ≡ₚ candidates
    /\ descending by_relevance out.
Proof.
  destruct (score_all_typed skills level area candidates) as [scored_list Hs].
  exists (sort_desc by_relevance scored_list).
  unfold _rank_candidates_by_criteria. rewrite Hs. simpl.
  destruct (score_all_spec _ _ _ Hs) as [Hmap Hall].
  split; [reflexivity|]. split; [|split].
  - rewrite (sort_desc_perm by_relevance).
    eapply Forall_impl; [exact Hall|]. intros s Hq. by apply criteria_score_typed.
  - rewrite (sort_desc_perm by_relevance). by rewrite Hmap.
  - apply sort_desc_descending; [apply by_relevance_total|apply by_relevance_trans].
Qed.

(** The criteria path keeps a candidate whose score is 0. *)
Example criteria_path_keeps_zero_scores :
  (fun r => (t_id (candidate r), relevance_score r))
    <$> @search_talent_pool sample_runtime
          (CompletionContent (Some reply_any_level)) "python"
          [{| t_id := 1; t_name := "Ana"; t_email := EmptyString;
              t_skills := ["Java"]; t_profile := EmptyString;
              t_level := EmptyString; t_area := EmptyString |}]
  = [(1%Z, 0%Q)].
Proof.
  vm_compute. reflexivity.
Qed.

Lemma rank_by_criteria_spec `{PyRuntime} (criteria : json)
    (candidates : list talent) (out : list scored) :
  _rank_candidates_by_criteria candidates criteria = Ok out ->
  Forall (fun s => criteria_score criteria (candidate s) = Ok (relevance_score s)
                   /\ candidate s ∈ candidates) out.
Proof.
  unfold _rank_candidates_by_criteria, obind.
  destruct (score_all criteria candidates) as [scored_list|] eqn:Es; [|discriminate].
  intros [= <-]. destruct (score_all_spec _ _ _ Es) as [Hmap Hall].
  rewrite (sort_desc_perm by_relevance).
  apply Forall_forall. intros s Hs. split.
  - rewrite Forall_forall in Hall. by apply Hall.
  - rewrite <- Hmap. apply list_elem_of_fmap. by exists s.
Qed.

(** C10. For every reply of the model service, query and pool, every
    record that the talent search returns, on the criteria path and on
    the text path, is a candidate of the pool together with a relevance
    score between 0 and 100. *)
Theorem search_results_in_range `{PyRuntime} (reply : completion)
    (query : string) (candidates : list talent) :
  Forall (fun s => (0 <= relevance_score s)%Q /\ (relevance_score s <= 100)%Q
                   /\ candidate s ∈ candidates)
    (search_talent_pool reply query candidates).
Proof.
  unfold search_talent_pool.
  destruct (search_body reply candidates) as [out|e] eqn:E.
  - assert (Hrank : exists criteria,
              _rank_candidates_by_criteria candidates criteria = Ok out).
    { unfold search_body in E. destruct reply as [|[content|]]; try discriminate.
      destruct (json_loads content) as [criteria|]; [|discriminate]. by exists criteria. }
    destruct Hrank as [criteria Hrank].
    eapply Forall_impl; [exact (rank_by_criteria_spec _ _ _ Hrank)|].
    intros s [Hq Hin]. apply criteria_score_bounds in Hq as [H0 H100]. auto.
  - apply Forall_forall. intros s (c & Hc & -> & _)%text_search_elem. simpl.
    destruct (text_score_bounds (str_lower query) c) as [H0 H100]. auto.
Qed.

(* ================================================================== *)
(** ** Proofs: comments *)
(* ================================================================== *)

(** The separator starts a text exactly when its two characters do. *)
Lemma prefix_separator (a : ascii) (s : string) :
  String.prefix ", " (String a s)
  = Ascii.eqb a ","
    && match s with
       | EmptyString => false
       | String b _ => Ascii.eqb b " "
       end.
Proof.
  cbn [String.prefix]. destruct (ascii_dec "," a) as [<-|Hne].
  - destruct s as [|b s]; [reflexivity|]. cbn [String.prefix].
    destruct (ascii_dec " " b) as [<-|Hne]; [by destruct s|].
    rewrite (proj2 (Ascii.eqb_neq b " ")) by congruence. reflexivity.
  - rewrite (proj2 (Ascii.eqb_neq a ",")) by congruence. reflexivity.
Qed.

Lemma no_separator_cons (a : ascii) (t : string) :
  str_contains ", " (String a t) = false ->
  String.prefix ", " (String a t) = false /\ str_contains ", " t = false.
Proof.
  cbn [str_contains]. by intros [? ?]%orb_false_iff.
Qed.

(** A piece without separator, followed by a separator, is cut off as
    one piece. *)
Lemma split_piece (t cur rest : string) :
  str_contains ", " t = false ->
  str_split_on ", " 0 cur (t +:+ ", " +:+ rest)
  = (cur +:+ t) :: str_split_on ", " 0 EmptyString rest.
Proof.
  revert cur. induction t as [|a t IH]; intros cur Ht.
  - rewrite append_empty_r.
    change (EmptyString +:+ ", " +:+ rest) with (String "," (String " " rest)).
    cbn [str_split_on]. rewrite prefix_separator. reflexivity.
  - apply no_separator_cons in Ht as [Hpre Ht].
    rewrite append_cons. cbn [str_split_on].
    assert (Hno : String.prefix ", " (String a (t +:+ ", " +:+ rest)) = false).
    { rewrite prefix_separator in *. destruct t as [|b t]; [|exact Hpre].
      apply andb_false_iff. by right. }
    rewrite Hno, (IH _ Ht), append_assoc. reflexivity.
Qed.

Lemma split_last_piece (t cur : string) :
  str_contains ", " t = false ->
  str_split_on ", " 0 cur t = [cur +:+ t].
Proof.
  revert cur. induction t as [|a t IH]; intros cur Ht.
  - by rewrite append_empty_r.
  - apply no_separator_cons in Ht as [Hpre Ht].
    cbn [str_split_on]. rewrite Hpre, (IH _ Ht), append_assoc. reflexivity.
Qed.

Lemma split_join (ts : list string) :
  ts <> [] -> Forall (fun t => str_contains ", " t = false) ts ->
  str_split_sep ", " (str_join ", " ts) = ts.
Proof.
  unfold str_split_sep, str_join.
  induction ts as [|t ts IH]; intros Hne Hall; [done|].
  apply Forall_cons in Hall as [Ht Hall].
  destruct ts as [|u ts].
  - simpl. by rewrite split_last_piece.
  - cbn [String.concat]. rewrite split_piece by exact Ht.
    simpl. f_equal. by apply IH.
Qed.

Lemma join_empty (ts : list string) :
  ts <> [] -> String.eqb (str_join ", " ts) EmptyString = true -> ts = [EmptyString].
Proof.
  intros Hne Heq. apply String.eqb_eq in Heq.
  destruct ts as [|t [|u ts]]; [done| |].
  - simpl in Heq. by subst.
  - unfold str_join in Heq. cbn [String.concat] in Heq.
    destruct t; discriminate Heq.
Qed.

(** The text column gives storable tags back as they were. *)
Lemma decode_encode_tags (tags : option (list string)) :
  storable_tags tags -> decode_tags (encode_tags tags) = default [] tags.
Proof.
  destruct tags as [[|t ts]|]; [reflexivity| |reflexivity].
  intros [Hall Hne]. unfold encode_tags, decode_tags.
  destruct (String.eqb (str_join ", " (t :: ts)) EmptyString) eqn:E.
  - exfalso. apply Hne. by apply join_empty.
  - by apply split_join.
Qed.

Lemma by_created_at_total (x y : comment_row) :
  by_created_at x y = false -> by_created_at y x = true.
Proof. unfold by_created_at. lia. Qed.

Lemma by_created_at_trans (x y z : comment_row) :
  by_created_at x y = true -> by_created_at y z = true -> by_created_at x z = true.
Proof. unfold by_created_at. lia. Qed.

Lemma select_comments_descending (candidate_id : Z) (table : list comment_row) :
  descending by_created_at (select_comments candidate_id table).
Proof.
  apply sort_desc_descending; [apply by_created_at_total|apply by_created_at_trans].
Qed.

Lemma select_comments_elem (candidate_id : Z) (table : list comment_row)
    (row : comment_row) :
  row ∈ select_comments candidate_id table
  <-> row ∈ table /\ cm_candidate_id row = candidate_id.
Proof.
  unfold select_comments. rewrite (sort_desc_perm by_created_at).
  rewrite !list_elem_of_In, filter_In, Z.eqb_eq. reflexivity.
Qed.

(** [save_comment] as written never answers an id, and leaves the
    table of comments as it was. *)
Lemma save_comment_stores_nothing (candidate_id : Z) (text : string)
    (tags : option (list string)) (w : world) :
  fst (save_comment candidate_id text tags w) = None
  /\ w_comments (snd (save_comment candidate_id text tags w)) = w_comments w.
Proof.
  unfold save_comment. destruct (w_fault w (SaveComment candidate_id)); by split.
Qed.

(** So the endpoint that adds a comment never answers with one. *)
Lemma add_comment_never_succeeds (candidate_id : Z) (text : string)
    (tags : option (list string)) (w : world) :
  exists status, fst (add_comment candidate_id text tags w) = HttpError status.
Proof.
  unfold add_comment.
  destruct (get_candidate_data candidate_id w) as [[[c|]|e] w1];
    [|by eexists|by eexists].
  pose proof (save_comment_stores_nothing candidate_id text tags w1) as [Hid _].
  destruct (save_comment candidate_id text tags w1) as [id w2].
  simpl in Hid. subst id. by eexists.
Qed.

Lemma comments_newest_first (rows : list comment_row) :
  descending by_created_at rows ->
  StronglySorted (fun x y => (co_created_at y <= co_created_at x)%Z)
    (comment_of_row <$> rows).
Proof.
  unfold descending. induction 1 as [|r rows Hrows IH Hr]; csimpl; constructor.
  - exact IH.
  - apply Forall_fmap. eapply Forall_impl; [exact Hr|].
    intros y Hy. unfold by_created_at in Hy. simpl. lia.
Qed.

Lemma read_after_insert (candidate_id : Z) (text : string)
    (tags_str : option string) (w : world) :
  w_fault w (GetCandidateComments candidate_id) = NoFault ->
  fst (get_candidate_comments candidate_id
         (snd (insert_comment candidate_id text tags_str w)))
  = comment_of_row <$>
      select_comments candidate_id
        (w_comments w ++
         [{| cm_id := w_next_id w; cm_candidate_id := candidate_id;
             cm_comment_text := text; cm_tags := tags_str;
             cm_created_at := w_now w; cm_created_by := w_db_user w |}]).
Proof.
  intros Hfault. unfold get_candidate_comments, insert_comment. simpl.
  by rewrite Hfault.
Qed.

(** The text column does not keep every list of tags: a tag that holds
    the separator, as in ["a, b"], is read back from an inserted row as
    the two tags "a" and "b". *)
Lemma tag_with_separator_is_split :
  ~ (forall (candidate_id : Z) (text : string) (tags : option (list string))
            (w : world),
       w_fault w (GetCandidateComments candidate_id) = NoFault ->
       exists c,
         c ∈ fst (get_candidate_comments candidate_id
                    (snd (insert_comment candidate_id text (encode_tags tags) w)))
         /\ co_id c = w_next_id w
         /\ co_comment c = text
         /\ co_tags c = default [] tags).
Proof.
  intros Hall.
  destruct (Hall 1%Z "ok" (Some ["a, b"]) (sample_world healthy) eq_refl)
    as (c & Hin & _ & _ & Htags).
  assert (Hread :
    fst (get_candidate_comments 1
           (snd (insert_comment 1 "ok" (encode_tags (Some ["a, b"]))
                   (sample_world healthy))))
    = [{| co_id := 1; co_comment := "ok"; co_tags := ["a"; "b"];
          co_created_at := 1000; co_created_by := "RH" |}])
    by (vm_compute; reflexivity).
  rewrite Hread in Hin. apply list_elem_of_singleton in Hin. subst c.
  discriminate Htags.
Qed.

(** The row of a comment, were it kept.  For every candidate, comment
    text and storable tags (no tag holds the separator ", " and the
    list is not the single empty tag; absent tags count as the empty
    list), with the row of the INSERT in the table the comments fetched
    for the candidate are ordered newest first and hold that row with
    its text and its tags unchanged; when the row is newer than every
    row of the table it is the first comment fetched. *)
Theorem stored_comment_reads_back (candidate_id : Z) (text : string)
    (tags : option (list string)) (w : world) :
  storable_tags tags ->
  w_fault w (GetCandidateComments candidate_id) = NoFault ->
  let comments :=
    fst (get_candidate_comments candidate_id
           (snd (insert_comment candidate_id text (encode_tags tags) w))) in
  let stored :=
    {| co_id := w_next_id w; co_comment := text; co_tags := default [] tags;
       co_created_at := w_now w; co_created_by := w_db_user w |} in
  StronglySorted (fun x y => (co_created_at y <= co_created_at x)%Z) comments
  /\ stored ∈ comments
  /\ (Forall (fun r => (cm_created_at r < w_now w)%Z) (w_comments w) ->
      head comments = Some stored).
Proof.
  intros Htags Hfault comments stored. subst comments.
  rewrite (read_after_insert _ _ _ _ Hfault).
  set (row := {| cm_id := w_next_id w; cm_candidate_id := candidate_id;
                 cm_comment_text := text; cm_tags := encode_tags tags;
                 cm_created_at := w_now w; cm_created_by := w_db_user w |}).
  assert (Hstored : comment_of_row row = stored).
  { unfold comment_of_row, stored, row. simpl. by rewrite decode_encode_tags. }
  split; [apply comments_newest_first, select_comments_descending|]. split.
  - rewrite <- Hstored. apply list_elem_of_fmap. exists row. split; [reflexivity|].
    apply select_comments_elem. split; [|reflexivity].
    apply elem_of_app. right. by apply list_elem_of_singleton.
  - intros Hold. unfold select_comments. rewrite List.filter_app. simpl.
    rewrite Z.eqb_refl.
    rewrite (sort_desc_newest_first by_created_at).
    + csimpl. by rewrite Hstored.
    + apply Forall_forall. intros r Hr.
      apply list_elem_of_In, filter_In in Hr as [Hr _]. apply list_elem_of_In in Hr.
      rewrite Forall_forall in Hold. specialize (Hold r Hr).
      unfold by_created_at, row. simpl. lia.
Qed.

Lemma stored_comment_reads_back_witness :
  let w := sample_world healthy in
  let comments :=
    fst (get_candidate_comments 1
           (snd (insert_comment 1 "ok" (encode_tags (Some ["python"; "sql"])) w))) in
  let stored :=
    {| co_id := 1; co_comment := "ok"; co_tags := ["python"; "sql"];
       co_created_at := 1000; co_created_by := "RH" |} in
  StronglySorted (fun x y => (co_created_at y <= co_created_at x)%Z) comments
  /\ stored ∈ comments
  /\ (Forall (fun r => (cm_created_at r < 1000)%Z) [] -> head comments = Some stored).
Proof.
  apply (stored_comment_reads_back 1 "ok" (Some ["python"; "sql"])
           (sample_world healthy)).
  - split; [|discriminate]. repeat constructor.
  - reflexivity.
Defined.

(* ================================================================== *)
(** ** Proofs: connections of the pool *)
(* ================================================================== *)

(** [get_candidate_data] gives its connection back when the candidate
    is found and when a statement fails. *)
Lemma get_candidate_data_releases (candidate_id : Z) (w : world) :
  w_fault w (GetCandidateData candidate_id) = ExecuteFails
  \/ (w_fault w (GetCandidateData candidate_id) = NoFault
      /\ is_Some (w_candidate w candidate_id)) ->
  w_leased (snd (get_candidate_data candidate_id w)) = w_leased w.
Proof.
  unfold get_candidate_data. intros [->|[-> [row Hrow]]]; [reflexivity|].
  simpl. by rewrite Hrow.
Qed.

(** It keeps the connection when the candidate is not found. *)
Lemma get_candidate_data_leaks (candidate_id : Z) (w : world) :
  w_fault w (GetCandidateData candidate_id) = NoFault ->
  w_candidate w candidate_id = None ->
  get_candidate_data candidate_id w = (Ok None, acquire w).
Proof.
  unfold get_candidate_data. intros -> Hrow. simpl. by rewrite Hrow.
Qed.

(** So does [get_job_data] when the job is not found. *)
Lemma get_job_data_leaks (id : Z) (w : world) :
  w_fault w (GetJobData id) = NoFault ->
  w_job w id = None ->
  get_job_data id w = (None, acquire w).
Proof.
  unfold get_job_data. intros -> Hrow. simpl. by rewrite Hrow.
Qed.

(** The endpoint of the model results keeps the connection when its
    query fails. *)
Lemma get_candidate_model_results_leaks (candidate_id : Z) (w : world) :
  w_fault w (GetCandidateModelResults candidate_id) = ExecuteFails ->
  fst (get_candidate_model_results candidate_id w) = HttpError 500
  /\ w_leased (snd (get_candidate_model_results candidate_id w)) = S (w_leased w).
Proof.
  unfold get_candidate_model_results. by intros ->.
Qed.

(** C9 fails on the code.  With no connection out of the pool, looking
    up a candidate that does not exist answers [None] and leaves one
    connection out, and so does the endpoint of the model results when
    its query fails; the same lookup of an existing candidate gives the
    connection back. *)
Theorem missing_candidate_leaks_connection :
  w_leased (sample_world healthy) = 0%nat
  /\ fst (get_candidate_data 99 (sample_world healthy)) = Ok None
  /\ w_leased (snd (get_candidate_data 99 (sample_world healthy))) = 1%nat
  /\ w_leased (snd (get_candidate_data 1 (sample_world healthy))) = 0%nat
  /\ w_leased (snd (get_candidate_model_results 1
                      (sample_world (fun _ => ExecuteFails)))) = 1%nat.
Proof.
  repeat split.
Qed.

(* ================================================================== *)
(** ** Proofs: the ranking endpoint *)
(* ================================================================== *)

Lemma data_inv (w1 w2 : world) :
  data w1 = data w2 ->
  env w1 = env w2 /\ w_next_id w1 = w_next_id w2
  /\ w_model_results w1 = w_model_results w2 /\ w_comments w1 = w_comments w2.
Proof.
  intros Hd. split; [exact (f_equal (fun d => fst (fst (fst d))) Hd)|].
  split; [exact (f_equal (fun d => snd (fst (fst d))) Hd)|].
  split; [exact (f_equal (fun d => snd (fst d)) Hd)|exact (f_equal snd Hd)].
Qed.

Lemma env_fault (w1 w2 : world) : env w1 = env w2 -> w_fault w1 = w_fault w2.
Proof.
  intros He. exact (f_equal (fun d => snd (fst (fst d))) He).
Qed.

Lemma get_candidate_data_data (candidate_id : Z) (w : world) :
  data (snd (get_candidate_data candidate_id w)) = data w.
Proof.
  unfold get_candidate_data.
  destruct (w_fault w (GetCandidateData candidate_id)); try reflexivity.
  simpl. by destruct (w_candidate w candidate_id).
Qed.

Lemma get_job_data_data (id : Z) (w : world) :
  data (snd (get_job_data id w)) = data w
  /\ w_candidates (snd (get_job_data id w)) = w_candidates w.
Proof.
  unfold get_job_data. destruct (w_fault w (GetJobData id)); try by split.
  simpl. by destruct (w_job w id).
Qed.

Lemma get_all_candidates_data (w : world) :
  data (snd (get_all_candidates w)) = data w.
Proof.
  unfold get_all_candidates. by destruct (w_fault w GetAllCandidates).
Qed.

(** A save changes neither the environment nor the comments. *)
Lemma save_model_result_env (candidate_id id : Z) (c u p : Q)
    (text flags rec : json) (w : world) :
  let w' := snd (save_model_result candidate_id id c u p text flags rec w) in
  env w' = env w /\ w_comments w' = w_comments w.
Proof.
  unfold save_model_result.
  destruct (w_fault w (SaveModelResult candidate_id id)); try by split.
  destruct (join_if_any flags); [|by split].
  cbv zeta. cbn [getvalue_0_if_any].
  by destruct (w_next_id (acquire w) =? 0)%Z.
Qed.

Ltac logged :=
  simpl; apply elem_of_app; right; by apply list_elem_of_singleton.

(** With ids above 0, no save goes through: whatever the database
    does, the call answers [None], the table is as before and the
    gateway has logged the failure. *)
Lemma save_model_result_rolls_back (candidate_id id : Z) (c u p : Q)
    (text flags rec : json) (w : world) :
  (0 < w_next_id w)%Z ->
  let r := save_model_result candidate_id id c u p text flags rec w in
  fst r = None
  /\ w_model_results (snd r) = w_model_results w
  /\ (0 < w_next_id (snd r))%Z
  /\ LogGateway (SaveModelResult candidate_id id) ∈ w_log (snd r).
Proof.
  intros Hpos. unfold save_model_result.
  destruct (w_fault w (SaveModelResult candidate_id id)).
  - destruct (join_if_any flags).
    + cbv zeta. cbn [getvalue_0_if_any].
      change (w_next_id (acquire w)) with (w_next_id w).
      destruct (Z.eqb_spec (w_next_id w) 0) as [Hz|_]; [lia|].
      repeat split; [simpl; lia|logged].
    + repeat split; [exact Hpos|logged].
  - repeat split; [exact Hpos|logged].
  - repeat split; [exact Hpos|logged].
Qed.

(** Only an id of 0 lets a row through, and then the call still
    answers [None]. *)
Example save_model_result_commits_id_0 :
  let w := set_tables 0 [] [] (sample_world healthy) in
  let r := save_model_result 1 7 70 50 100 (JStr "ok") (JArr []) (JStr "EM_ANALISE") w in
  fst r = None /\ mr_user_id <$> w_model_results (snd r) = [1%Z].
Proof.
  vm_compute. by split.
Qed.

(** One turn of the loop changes neither the environment nor the
    comments. *)
Lemma rank_step_spec `{PyRuntime} (request : CandidateRankingRequest)
    (job : job_data) (c : user_row) (acc : list ranking_entry) (w : world) :
  env (snd (rank_step request job c acc w)) = env w
  /\ w_comments (snd (rank_step request job c acc w)) = w_comments w.
Proof.
  unfold rank_step, rank_try.
  pose proof (get_candidate_data_data (u_id c) w) as Hd.
  destruct (get_candidate_data (u_id c) w) as [[[cd|]|e] w1]; simpl in Hd.
  all: apply data_inv in Hd as (He & _ & _ & Hc); try by split.
  destruct (analyze_candidate_compatibility _ cd job) as [a|e]; [|by split].
  destruct (min_compatibility request) as [threshold|]; [|by split].
  destruct (Qltb (compatibility_score a) threshold); [by split|].
  pose proof (save_model_result_env (u_id c) (job_id request)
                (compatibility_score a) (cultural_fit_score a)
                (professional_fit_score a) (ai_analysis a) (red_flags a)
                (recommendation a) w1) as [He' Hc'].
  destruct (save_model_result _ _ _ _ _ _ _ _ w1) as [id w2]; simpl in *.
  split; congruence.
Qed.


Lemma env_inv (w1 w2 : world) :
  env w1 = env w2 ->
  w_candidate w1 = w_candidate w2 /\ w_skills_of w1 = w_skills_of w2
  /\ w_reply w1 = w_reply w2 /\ w_fault w1 = w_fault w2.
Proof.
  unfold env. intros He. injection He. intros. by repeat split.
Qed.

(** The lookups answer the same in worlds with the same environment. *)
Lemma get_candidate_data_agree (id : Z) (w1 w2 : world) :
  env w1 = env w2 ->
  fst (get_candidate_data id w1) = fst (get_candidate_data id w2).
Proof.
  intros (Hc & Hs & _ & Hf)%env_inv. unfold get_candidate_data.
  rewrite Hf. destruct (w_fault w2 (GetCandidateData id)); try reflexivity.
  simpl. rewrite Hc, Hs. by destruct (w_candidate w2 id).
Qed.







Lemma expected_entry_threshold `{PyRuntime} (request : CandidateRankingRequest)
    (job : job_data) (w : world) (c : user_row) (e : ranking_entry) (m : Q) :
  expected_entry request job w c = Some e ->
  min_compatibility request = Some m ->
  (m <= re_compatibility_score e)%Q.
Proof.
  unfold expected_entry. intros He Hm. rewrite Hm in He.
  destruct (fst (get_candidate_data (u_id c) w)) as [[cd|]|x]; try discriminate.
  destruct (analyze_candidate_compatibility _ cd job) as [a|x]; [|discriminate].
  destruct (Qle_bool m (compatibility_score a)) eqn:Hle; [|discriminate].
  injection He as <-. simpl. by apply Qle_bool_iff.
Qed.

(** The body of a turn appends the entry of its candidate, when there
    is one, and has none to append when it raises. *)
Lemma rank_try_expected `{PyRuntime} (request : CandidateRankingRequest)
    (job : job_data) (c : user_row) (w0 w : world) :
  env w = env w0 ->
  match fst (rank_try request job c w) with
  | Ok o => o = expected_entry request job w0 c
  | Raise _ => expected_entry request job w0 c = None
  end.
Proof.
  intros He. unfold rank_try, expected_entry.
  rewrite <- (get_candidate_data_agree (u_id c) w w0 He).
  pose proof (get_candidate_data_data (u_id c) w) as Hd.
  destruct (get_candidate_data (u_id c) w) as [[[cd|]|x] w1]; simpl in *;
    [|done|done].
  apply data_inv in Hd as (He1 & _).
  assert (Hr : w_reply w1 = w_reply w0).
  { assert (He2 : env w1 = env w0) by congruence.
    by apply env_inv in He2 as (_ & _ & ? & _). }
  rewrite Hr.
  destruct (analyze_candidate_compatibility _ cd job) as [a|x]; [|done].
  destruct (min_compatibility request) as [m|]; [|done].
  unfold Qltb. destruct (Qle_bool m (compatibility_score a)); simpl; [|done].
  by destruct (save_model_result _ _ _ _ _ _ _ _ w1) as [i w2].
Qed.

(** So the loop collects the entries of the pool, in its order. *)
Lemma rank_loop_expected `{PyRuntime} (request : CandidateRankingRequest)
    (job : job_data) (w0 : world) (l : list user_row) (acc : list ranking_entry)
    (w : world) :
  env w = env w0 ->
  fst (rank_loop request job l acc w)
  = (acc ++ omap (expected_entry request job w0) l)%list.
Proof.
  revert acc w. induction l as [|c l IH]; intros acc w He;
    [by rewrite app_nil_r|].
  cbn [rank_loop].
  pose proof (rank_step_spec request job c acc w) as (He1 & _).
  pose proof (rank_try_expected request job c w0 w He) as Hx.
  assert (Hcons : omap (expected_entry request job w0) (c :: l)
                  = match expected_entry request job w0 c with
                    | Some e => e :: omap (expected_entry request job w0) l
                    | None => omap (expected_entry request job w0) l
                    end) by reflexivity.
  rewrite Hcons. clear Hcons. unfold rank_step in *.
  destruct (rank_try request job c w) as [[[e|]|x] w1]; cbn [fst snd] in *.
  - rewrite <- Hx. rewrite IH by congruence. by rewrite <- app_assoc.
  - rewrite <- Hx. apply IH. congruence.
  - rewrite Hx. apply IH. congruence.
Qed.

Lemma truncate_nil {A} (limit : option Z) : truncate limit ([] : list A) = [].
Proof.
  destruct limit as [n|]; [|reflexivity].
  unfold truncate, py_slice_to. destruct (n <? 0)%Z; apply take_nil.
Qed.

Lemma truncate_descending {A} (geb : A -> A -> bool) (limit : option Z) (l : list A) :
  descending geb l -> descending geb (truncate limit l).
Proof.
  destruct limit as [n|]; [apply descending_py_slice_to|done].
Qed.

Lemma truncate_Forall {A} (P : A -> Prop) (limit : option Z) (l : list A) :
  Forall P l -> Forall P (truncate limit l).
Proof.
  destruct limit as [n|]; [|done].
  unfold truncate, py_slice_to. destruct (n <? 0)%Z; apply Forall_take.
Qed.

(** What the function answers: 404 without the job, and otherwise the
    entries of the fetched pool, sorted and cut at the limit. *)
Lemma rank_candidates_answer `{PyRuntime} (request : CandidateRankingRequest)
    (w : world) :
  fst (rank_candidates request w)
  = match fst (get_job_data (job_id request) w) with
    | None => HttpError 404
    | Some job =>
        HttpOk (truncate (limit request)
                  (sort_desc by_compatibility
                     (omap (expected_entry request job w) (fetched_pool w))))
    end.
Proof.
  unfold rank_candidates.
  pose proof (get_job_data_data (job_id request) w) as [Hd1 Hc1].
  destruct (get_job_data (job_id request) w) as [[job|] w1]; [|reflexivity].
  cbn [fst snd] in *. apply data_inv in Hd1 as (He1 & _).
  assert (Hpool : fst (get_all_candidates w1) = fetched_pool w).
  { unfold get_all_candidates, fetched_pool. rewrite (env_fault _ _ He1).
    destruct (w_fault w GetAllCandidates); [exact Hc1|reflexivity|reflexivity]. }
  pose proof (get_all_candidates_data w1) as Hd2.
  destruct (get_all_candidates w1) as [all w2]. cbn [fst snd] in *. subst all.
  apply data_inv in Hd2 as (He2 & _).
  destruct (fetched_pool w) as [|c l];
    [cbn [fst omap list_omap sort_desc]; by rewrite truncate_nil|].
  assert (Henv : env w2 = env w) by congruence.
  pose proof (rank_loop_expected request job w (c :: l) [] w2 Henv) as Hacc.
  destruct (rank_loop request job (c :: l) [] w2) as [ranked w3].
  cbn [fst] in *. by subst ranked.
Qed.

Lemma api_rank_candidates_world `{PyRuntime} (request : CandidateRankingRequest)
    (w : world) :
  snd (api_rank_candidates request w) = snd (rank_candidates request w).
Proof.
  unfold api_rank_candidates.
  destruct (rank_candidates request w) as [[out|status] w']; [|reflexivity].
  by destruct (forallb fits_response out).
Qed.


(** The list of a valid request is in descending order of score, no
    longer than the limit and without any entry below the minimum
    (the scores are rationals here). *)
Lemma ranking_list_shape `{PyRuntime} (request : CandidateRankingRequest)
    (w : world) :
  valid_request request ->
  match fst (rank_candidates request w) with
  | HttpError status => status = 404%Z
  | HttpOk out =>
      descending by_compatibility out
      /\ (forall n, limit request = Some n -> (Z.of_nat (length out) <= n)%Z)
      /\ (forall m, min_compatibility request = Some m ->
            Forall (fun e => (m <= re_compatibility_score e)%Q) out)
  end.
Proof.
  intros [Hlimit _]. rewrite rank_candidates_answer.
  destruct (fst (get_job_data (job_id request) w)) as [job|]; [|reflexivity].
  split; [|split].
  - apply truncate_descending, sort_desc_descending;
      [apply by_compatibility_total|apply by_compatibility_trans].
  - intros n Hn. rewrite Hn in *. simpl. apply length_py_slice_to. lia.
  - intros m Hm. apply truncate_Forall. rewrite (sort_desc_perm by_compatibility).
    apply Forall_forall. intros e (c & _ & He)%list_elem_of_omap.
    by apply (expected_entry_threshold request job w c).
Qed.

(** The log only grows. *)
Lemma get_candidate_data_log (id : Z) (w : world) :
  exists extra, w_log (snd (get_candidate_data id w)) = (w_log w ++ extra)%list.
Proof.
  unfold get_candidate_data. destruct (w_fault w (GetCandidateData id)); simpl.
  - destruct (w_candidate w id); exists []; by rewrite app_nil_r.
  - by eexists.
  - by eexists.
Qed.

Lemma save_model_result_log (candidate_id id : Z) (c u p : Q)
    (text flags rec : json) (w : world) :
  exists extra,
    w_log (snd (save_model_result candidate_id id c u p text flags rec w))
    = (w_log w ++ extra)%list.
Proof.
  unfold save_model_result.
  destruct (w_fault w (SaveModelResult candidate_id id)); simpl;
    [|by eexists|by eexists].
  destruct (join_if_any flags); simpl; [|by eexists].
  destruct (w_next_id w =? 0)%Z; simpl; [exists []; by rewrite app_nil_r|by eexists].
Qed.

Lemma rank_step_log `{PyRuntime} (request : CandidateRankingRequest)
    (job : job_data) (c : user_row) (acc : list ranking_entry) (w : world) :
  exists extra,
    w_log (snd (rank_step request job c acc w)) = (w_log w ++ extra)%list.
Proof.
  unfold rank_step, rank_try.
  destruct (get_candidate_data_log (u_id c) w) as [x1 Hx1].
  destruct (get_candidate_data (u_id c) w) as [[[cd|]|e] w1]; simpl in *;
    [|by exists x1|exists (x1 ++ [LogRanking (u_id c)])%list;
                    by rewrite Hx1, app_assoc].
  destruct (analyze_candidate_compatibility _ cd job) as [a|e]; simpl;
    [|exists (x1 ++ [LogRanking (u_id c)])%list; by rewrite Hx1, app_assoc].
  destruct (min_compatibility request) as [threshold|]; simpl;
    [|exists (x1 ++ [LogRanking (u_id c)])%list; by rewrite Hx1, app_assoc].
  destruct (Qltb (compatibility_score a) threshold); simpl; [by exists x1|].
  destruct (save_model_result_log (u_id c) (job_id request)
              (compatibility_score a) (cultural_fit_score a)
              (professional_fit_score a) (ai_analysis a) (red_flags a)
              (recommendation a) w1) as [x2 Hx2].
  destruct (save_model_result _ _ _ _ _ _ _ _ w1) as [i w2]; simpl in *.
  exists (x1 ++ x2)%list. by rewrite Hx2, Hx1, app_assoc.
Qed.


(** One turn stores nothing: the entry that it appends has the failure
    of its save in the log. *)
Lemma rank_step_saves_fail `{PyRuntime} (request : CandidateRankingRequest)
    (job : job_data) (c : user_row) (acc : list ranking_entry) (w : world) :
  (0 < w_next_id w)%Z ->
  let r := rank_step request job c acc w in
  w_model_results (snd r) = w_model_results w
  /\ (0 < w_next_id (snd r))%Z
  /\ (fst r = acc
      \/ exists e, fst r = (acc ++ [e])%list
                   /\ failed_save request e ∈ w_log (snd r)).
Proof.
  intros Hpos. unfold rank_step, rank_try.
  pose proof (get_candidate_data_data (u_id c) w) as Hd.
  destruct (get_candidate_data (u_id c) w) as [[[cd|]|e] w1]; simpl in Hd.
  all: apply data_inv in Hd as (_ & Hn & Hr & _).
  all: try (simpl; split; [exact Hr|split; [lia|by left]]).
  destruct (analyze_candidate_compatibility _ cd job) as [a|e];
    [|simpl; split; [exact Hr|split; [lia|by left]]].
  destruct (min_compatibility request) as [threshold|];
    [|simpl; split; [exact Hr|split; [lia|by left]]].
  destruct (Qltb (compatibility_score a) threshold);
    [simpl; split; [exact Hr|split; [lia|by left]]|].
  assert (Hpos1 : (0 < w_next_id w1)%Z) by lia.
  pose proof (save_model_result_rolls_back (u_id c) (job_id request)
                (compatibility_score a) (cultural_fit_score a)
                (professional_fit_score a) (ai_analysis a) (red_flags a)
                (recommendation a) w1 Hpos1) as (_ & Hres & Hpos' & Hlog).
  destruct (save_model_result _ _ _ _ _ _ _ _ w1) as [i w2]; simpl in *.
  split; [congruence|]. split; [exact Hpos'|].
  right. eexists. split; [reflexivity|exact Hlog].
Qed.

Lemma rank_loop_saves_fail `{PyRuntime} (request : CandidateRankingRequest)
    (job : job_data) (l : list user_row) (acc : list ranking_entry) (w : world) :
  (0 < w_next_id w)%Z ->
  Forall (fun e => failed_save request e ∈ w_log w) acc ->
  let r := rank_loop request job l acc w in
  w_model_results (snd r) = w_model_results w
  /\ Forall (fun e => failed_save request e ∈ w_log (snd r)) (fst r).
Proof.
  revert acc w. induction l as [|c l IH]; intros acc w Hpos Hacc; [by split|].
  cbn [rank_loop].
  pose proof (rank_step_saves_fail request job c acc w Hpos) as (Hres & Hpos1 & Hstep).
  destruct (rank_step_log request job c acc w) as [extra Hlog].
  destruct (rank_step request job c acc w) as [acc1 w1]; cbn [fst snd] in *.
  assert (Hold : Forall (fun e => failed_save request e ∈ w_log w1) acc).
  { eapply Forall_impl; [exact Hacc|]. intros e He. rewrite Hlog.
    apply elem_of_app. by left. }
  assert (Hacc1 : Forall (fun e => failed_save request e ∈ w_log w1) acc1).
  { destruct Hstep as [->|(e & -> & He)]; [exact Hold|].
    apply Forall_app. split; [exact Hold|]. by constructor. }
  destruct (IH acc1 w1 Hpos1 Hacc1) as [Hres' Hall].
  split; [congruence|exact Hall].
Qed.

(** C3 fails on the code.  The id of the stored row is read with
    [result_id_var.getvalue()[0]] from a variable that holds a number,
    which raises, so every save ends in its handler.  For every request
    and every database whose ids start above 0, the table of model
    results is after the ranking what it was before, and every entry of
    the answer has the failure of its save in the log: the survivors
    are returned, and none is persisted. *)
Theorem ranked_entries_are_not_stored `{PyRuntime}
    (request : CandidateRankingRequest) (w : world) :
  (0 < w_next_id w)%Z ->
  w_model_results (snd (api_rank_candidates request w)) = w_model_results w
  /\ match fst (api_rank_candidates request w) with
     | HttpOk out =>
         Forall (fun e => failed_save request e
                          ∈ w_log (snd (api_rank_candidates request w))) out
     | HttpError _ => True
     end.
Proof.
  intros Hpos. rewrite api_rank_candidates_world.
  assert (Hfn : w_model_results (snd (rank_candidates request w)) = w_model_results w
                /\ match fst (rank_candidates request w) with
                   | HttpOk out =>
                       Forall (fun e => failed_save request e
                                        ∈ w_log (snd (rank_candidates request w))) out
                   | HttpError _ => True
                   end).
  { unfold rank_candidates.
    pose proof (get_job_data_data (job_id request) w) as [Hd1 _].
    destruct (get_job_data (job_id request) w) as [[job|] w1]; cbn [fst snd] in *;
      apply data_inv in Hd1 as (_ & Hn1 & Hr1 & _); [|by split].
    pose proof (get_all_candidates_data w1) as Hd2.
    destruct (get_all_candidates w1) as [all w2]. cbn [fst snd] in *.
    apply data_inv in Hd2 as (_ & Hn2 & Hr2 & _).
    destruct all as [|c all];
      [cbn [fst snd]; split; [congruence|constructor]|].
    assert (Hpos2 : (0 < w_next_id w2)%Z) by lia.
    pose proof (rank_loop_saves_fail request job (c :: all) [] w2 Hpos2
                  ltac:(constructor)) as [Hres Hall].
    destruct (rank_loop request job (c :: all) [] w2) as [ranked w3].
    cbn [fst snd] in *. split; [congruence|].
    apply truncate_Forall. by rewrite (sort_desc_perm by_compatibility). }
  destruct Hfn as [Hres Hall]. split; [exact Hres|].
  unfold api_rank_candidates.
  destruct (rank_candidates request w) as [[out|status] w']; cbn [fst snd] in *;
    [|exact I].
  by destruct (forallb fits_response out).
Qed.

Lemma ranked_entries_are_not_stored_witness :
  let r := @api_rank_candidates sample_runtime sample_request (sample_world healthy) in
  w_model_results (snd r) = w_model_results (sample_world healthy)
  /\ match fst r with
     | HttpOk out => Forall (fun e => failed_save sample_request e ∈ w_log (snd r)) out
     | HttpError _ => True
     end.
Proof.
  apply (@ranked_entries_are_not_stored sample_runtime sample_request
           (sample_world healthy)).
  reflexivity.
Defined.

(** The scenario of the specification: with the model service down,
    Ana is ranked before Bruno with a professional fit of 100 against
    0, and a threshold above 0 leaves Bruno out; the two saves are in
    the log as failed and the table of model results stays empty. *)
Example ranking_scenario :
  let view := fun (r : http (list ranking_entry) * world) =>
    match fst r with
    | HttpOk out =>
        ((fun e => (re_candidate_id e, Qred (re_professional_fit_score e),
                    Qred (re_compatibility_score e))) <$> out,
         mr_user_id <$> w_model_results (snd r), w_log (snd r))
    | HttpError _ => ([], [], [])
    end in
  view (@api_rank_candidates sample_runtime sample_request (sample_world healthy))
  = ([(1%Z, 100%Q, 70%Q); (2%Z, 0%Q, 0%Q)], [],
     [LogGateway (SaveModelResult 1 7); LogGateway (SaveModelResult 2 7)])
  /\ view (@api_rank_candidates sample_runtime
             {| job_id := 7; limit := Some 10%Z; min_compatibility := Some 1%Q |}
             (sample_world healthy))
     = ([(1%Z, 100%Q, 70%Q)], [], [LogGateway (SaveModelResult 1 7)]).
Proof.
  vm_compute. split; reflexivity.
Qed.

(* ================================================================== *)
(** ** Proofs: a candidate whose analysis fails *)
(* ================================================================== *)



Lemma get_all_candidates_ok (w : world) :
  w_fault w GetAllCandidates = NoFault ->
  fst (get_all_candidates w) = w_candidates w.
Proof.
  unfold get_all_candidates. by intros ->.
Qed.




(** With Bruno out of reach, the route answers 200 with the entry of
    Ana alone. *)
Example unreachable_candidate_scenario :
  match fst (@api_rank_candidates sample_runtime sample_request
               (sample_world bruno_unreachable)) with
  | HttpOk out => (fun x => (re_candidate_id x, re_candidate_name x)) <$> out
  | HttpError _ => []
  end = [(1%Z, u_nome ana)].
Proof.
  vm_compute. reflexivity.
Qed.

(** An ill-typed reply for one candidate is no failure of its turn:
    the entry is ranked as the reply gives it, and the check of the
    answer against the response model turns the whole ranking into a
    500. *)
Example ill_typed_reply_fails_the_ranking :
  let w := null_reply_world in
  fst (@api_rank_candidates sample_runtime sample_request w) = HttpError 500
  /\ match fst (@rank_candidates sample_runtime sample_request w) with
     | HttpOk out => re_recommendation <$> out
     | HttpError _ => []
     end = [JStr "EM_ANALISE"; JNull].
Proof.
  vm_compute. by split.
Qed.

(** The function raises nothing but the 404 of a missing job: anything
    else is a list. *)
Lemma rank_candidates_never_500 `{PyRuntime} (request : CandidateRankingRequest)
    (w : world) :
  fst (rank_candidates request w) = HttpError 404
  \/ exists out, fst (rank_candidates request w) = HttpOk out.
Proof.
  unfold rank_candidates.
  destruct (get_job_data (job_id request) w) as [[job|] w1]; [right|by left].
  destruct (get_all_candidates w1) as [[|c l] w2]; [by eexists|].
  destruct (rank_loop request job (c :: l) [] w2). by eexists.
Qed.

(** A candidate for whom the model service fails is not skipped: the
    fallback analysis ranks it. *)
Example service_failure_is_ranked :
  match fst (@rank_candidates sample_runtime sample_request (sample_world healthy)) with
  | HttpOk out => re_candidate_id <$> out
  | HttpError _ => []
  end = [1%Z; 2%Z].
Proof.
  vm_compute. reflexivity.
Qed.

(* ================================================================== *)
(** ** Proofs: a comment that is added and then fetched *)
(* ================================================================== *)

(** What the fetch of the comments answers depends on the faults of the
    database and on the table of comments alone. *)
Lemma get_candidate_comments_agree (candidate_id : Z) (w1 w2 : world) :
  w_fault w1 = w_fault w2 -> w_comments w1 = w_comments w2 ->
  fst (get_candidate_comments candidate_id w1)
  = fst (get_candidate_comments candidate_id w2).
Proof.
  intros Hf Hc. unfold get_candidate_comments. rewrite Hf.
  destruct (w_fault w2 (GetCandidateComments candidate_id)); try reflexivity.
  simpl. by rewrite Hc.
Qed.

Lemma get_comments_agree (candidate_id : Z) (w1 w2 : world) :
  w_fault w1 = w_fault w2 -> w_comments w1 = w_comments w2 ->
  fst (get_comments candidate_id w1) = fst (get_comments candidate_id w2).
Proof.
  intros Hf Hc. unfold get_comments.
  pose proof (get_candidate_comments_agree candidate_id w1 w2 Hf Hc) as Hsame.
  destruct (get_candidate_comments candidate_id w1) as [l1 v1].
  destruct (get_candidate_comments candidate_id w2) as [l2 v2].
  simpl in Hsame. by subst l2.
Qed.

Lemma save_comment_fault (candidate_id : Z) (text : string)
    (tags : option (list string)) (w : world) :
  w_fault (snd (save_comment candidate_id text tags w)) = w_fault w.
Proof.
  unfold save_comment. by destruct (w_fault w (SaveComment candidate_id)).
Qed.

(** The endpoint that adds a comment leaves the table of comments and
    the faults of the database as they were. *)
Lemma add_comment_keeps_table (candidate_id : Z) (text : string)
    (tags : option (list string)) (w : world) :
  w_fault (snd (add_comment candidate_id text tags w)) = w_fault w
  /\ w_comments (snd (add_comment candidate_id text tags w)) = w_comments w.
Proof.
  unfold add_comment.
  pose proof (get_candidate_data_data candidate_id w) as Hd.
  destruct (get_candidate_data candidate_id w) as [[[c|]|e] w1]; simpl in Hd;
    apply data_inv in Hd as (He & _ & _ & Hc);
    pose proof (env_fault _ _ He) as Hf; [|by split|by split].
  pose proof (save_comment_stores_nothing candidate_id text tags w1) as [Hid Htab].
  pose proof (save_comment_fault candidate_id text tags w1) as Hf2.
  destruct (save_comment candidate_id text tags w1) as [id w2].
  simpl in Hid, Htab, Hf2. subst id. simpl. split; congruence.
Qed.

(** C8 fails on the code.  [save_comment] reads the id of the new row
    from a variable that it has just made, which raises, so the insert
    is rolled back: for every candidate, text and tags, and whatever
    the database holds or does, the endpoint that adds the comment
    answers an error, and the comments fetched afterwards are the
    comments fetched before.  The comment that was added is never
    among them. *)
Theorem added_comment_is_not_fetched (candidate_id : Z) (text : string)
    (tags : option (list string)) (w : world) :
  (exists status, fst (add_comment candidate_id text tags w) = HttpError status)
  /\ fst (get_comments candidate_id (snd (add_comment candidate_id text tags w)))
     = fst (get_comments candidate_id w)
  /\ fst (get_candidate_comments candidate_id
            (snd (save_comment candidate_id text tags w)))
     = fst (get_candidate_comments candidate_id w).
Proof.
  split; [apply add_comment_never_succeeds|].
  destruct (add_comment_keeps_table candidate_id text tags w) as [Hf Hc].
  split; [by apply get_comments_agree|].
  apply get_candidate_comments_agree.
  - apply save_comment_fault.
  - apply save_comment_stores_nothing.
Qed.

(** On the healthy database without comments: a comment for Ana is
    answered with 500, and the fetch that follows finds nothing. *)
Example added_comment_scenario :
  let w := sample_world healthy in
  fst (add_comment 1 "Boa entrevista" (Some ["python"]) w) = HttpError 500
  /\ fst (get_comments 1 (snd (add_comment 1 "Boa entrevista" (Some ["python"]) w)))
     = HttpOk [].
Proof.
  vm_compute. by split.
Qed.

(* ================================================================== *)
(** ** Proofs: further properties of the gateway and the ranking *)
(* ================================================================== *)

(** X2. Five calls of the gateway give their connection back on every
    path: whatever the database does, the number of connections out
    of the pool is the same after [get_all_candidates],
    [save_model_result], [save_comment], [get_candidate_comments] and
    [add_skill_to_job] as before. *)
Theorem gateway_calls_release (w : world) :
  w_leased (snd (get_all_candidates w)) = w_leased w
  /\ (forall candidate_id id c u p text flags rec,
        w_leased (snd (save_model_result candidate_id id c u p text flags rec w))
        = w_leased w)
  /\ (forall candidate_id text tags,
        w_leased (snd (save_comment candidate_id text tags w)) = w_leased w)
  /\ (forall candidate_id,
        w_leased (snd (get_candidate_comments candidate_id w)) = w_leased w)
  /\ (forall fault id skill_id obrigatoria t,
        w_leased (snd (add_skill_to_job fault id skill_id obrigatoria t w))
        = w_leased w).
Proof.
  split; [|split; [|split; [|split]]].
  - unfold get_all_candidates. by destruct (w_fault w GetAllCandidates).
  - intros. unfold save_model_result.
    destruct (w_fault w (SaveModelResult candidate_id id)); try reflexivity.
    destruct (join_if_any flags); [|reflexivity].
    cbv zeta. cbn [getvalue_0_if_any].
    by destruct (w_next_id (acquire w) =? 0)%Z.
  - intros. unfold save_comment.
    by destruct (w_fault w (SaveComment candidate_id)).
  - intros. unfold get_candidate_comments.
    by destruct (w_fault w (GetCandidateComments candidate_id)).
  - intros. unfold add_skill_to_job. destruct fault; try reflexivity.
    by destruct (0 <? count_job_skill id skill_id (jst_rows t))%nat.
Qed.

(** X3. A ranking request for a job that does not exist is answered
    with 404, and the connection that looked the job up stays out of
    the pool. *)
Theorem missing_job_answers_404_and_leaks `{PyRuntime}
    (request : CandidateRankingRequest) (w : world) :
  w_fault w (GetJobData (job_id request)) = NoFault ->
  w_job w (job_id request) = None ->
  rank_candidates request w = (HttpError 404, acquire w).
Proof.
  intros Hfault Hjob. unfold rank_candidates.
  by rewrite (get_job_data_leaks _ _ Hfault Hjob).
Qed.

Lemma missing_job_answers_404_and_leaks_witness :
  @rank_candidates sample_runtime
    {| job_id := 99; limit := Some 10%Z; min_compatibility := Some 0%Q |}
    (sample_world healthy)
  = (HttpError 404, acquire (sample_world healthy)).
Proof.
  apply (@missing_job_answers_404_and_leaks sample_runtime
           {| job_id := 99; limit := Some 10%Z; min_compatibility := Some 0%Q |}
           (sample_world healthy)); reflexivity.
Defined.

Lemma rank_loop_null_minimum `{PyRuntime} (request : CandidateRankingRequest)
    (job : job_data) (l : list user_row) (acc : list ranking_entry) (w : world) :
  min_compatibility request = None ->
  fst (rank_loop request job l acc w) = acc.
Proof.
  intros Hmin. revert acc w. induction l as [|c l IH]; intros acc w; [reflexivity|].
  simpl. unfold rank_step, rank_try.
  destruct (get_candidate_data (u_id c) w) as [[[cd|]|e] w1]; try apply IH.
  destruct (analyze_candidate_compatibility _ cd job) as [a|e]; [|apply IH].
  rewrite Hmin. apply IH.
Qed.

(** X4. A request whose minimum compatibility is null ranks nobody:
    the comparison of every score with [None] raises, every candidate
    is skipped, and the answer is the empty list (or 404). *)
Theorem null_minimum_empties_ranking `{PyRuntime}
    (request : CandidateRankingRequest) (w : world) :
  min_compatibility request = None ->
  fst (rank_candidates request w) = HttpError 404
  \/ fst (rank_candidates request w) = HttpOk [].
Proof.
  intros Hmin. unfold rank_candidates.
  destruct (get_job_data (job_id request) w) as [[job|] w1]; [right|by left].
  destruct (get_all_candidates w1) as [[|c l] w2]; [reflexivity|].
  pose proof (rank_loop_null_minimum request job (c :: l) [] w2 Hmin) as Hacc.
  destruct (rank_loop request job (c :: l) [] w2) as [ranked w3].
  simpl in Hacc. subst ranked. simpl. by rewrite truncate_nil.
Qed.

Lemma null_minimum_empties_ranking_witness :
  fst (@rank_candidates sample_runtime
         {| job_id := 7; limit := Some 10%Z; min_compatibility := None |}
         (sample_world healthy)) = HttpError 404
  \/ fst (@rank_candidates sample_runtime
            {| job_id := 7; limit := Some 10%Z; min_compatibility := None |}
            (sample_world healthy)) = HttpOk [].
Proof.
  apply (@null_minimum_empties_ranking sample_runtime
           {| job_id := 7; limit := Some 10%Z; min_compatibility := None |}
           (sample_world healthy)).
  reflexivity.
Defined.

(** Every entry of the loop's result was appended by a turn. *)
Lemma rank_loop_entries `{PyRuntime} (P : ranking_entry -> Prop)
    (request : CandidateRankingRequest) (job : job_data) (w0 : world)
    (l : list user_row) (acc : list ranking_entry) (w : world) :
  (forall c w1 e w', env w1 = env w0 ->
     rank_try request job c w1 = (Ok (Some e), w') -> P e) ->
  env w = env w0 -> Forall P acc ->
  Forall P (fst (rank_loop request job l acc w)).
Proof.
  intros Hturn. revert acc w. induction l as [|c l IH]; intros acc w Henv Hacc;
    [exact Hacc|].
  simpl. pose proof (rank_step_spec request job c acc w) as (He & _).
  unfold rank_step in *.
  destruct (rank_try request job c w) as [[[e|]|x] w1] eqn:Et; simpl in He.
  - apply IH; [etrans; [exact He|exact Henv]|]. apply Forall_app.
    split; [exact Hacc|]. constructor; [|constructor]. by eapply Hturn.
  - apply IH; [etrans; [exact He|exact Henv]|exact Hacc].
  - apply IH; [etrans; [exact He|exact Henv]|exact Hacc].
Qed.

(** The entry of a turn when the model service is down. *)
Lemma rank_try_service_down `{PyRuntime} (request : CandidateRankingRequest)
    (job : job_data) (c : user_row) (w1 : world) (e : ranking_entry) (w' : world) :
  (forall i j, w_reply w1 i j = CompletionError) ->
  rank_try request job c w1 = (Ok (Some e), w') ->
  (re_compatibility_score e <= 70)%Q
  /\ (re_compatibility_score e == re_professional_fit_score e * (7 # 10))%Q
  /\ (re_cultural_fit_score e == 50)%Q
  /\ re_recommendation e = JStr "EM_ANALISE"
  /\ re_red_flags e = JArr []
  /\ (forall m, min_compatibility request = Some m ->
        (m <= re_compatibility_score e)%Q).
Proof.
  intros Hdown. unfold rank_try.
  pose proof (get_candidate_data_data (u_id c) w1) as Hd.
  destruct (get_candidate_data (u_id c) w1) as [[[cd|]|x] w2]; try discriminate.
  simpl in Hd. apply data_inv in Hd as ((_ & _ & Hreply & _)%env_inv & _).
  rewrite Hreply, Hdown. cbn [analyze_candidate_compatibility analyze_body].
  destruct (min_compatibility request) as [threshold|]; [|discriminate].
  destruct (Qltb _ threshold) eqn:Et; [discriminate|].
  destruct (save_model_result _ _ _ _ _ _ _ _ w2) as [i w3].
  intros [= <- _]. simpl.
  destruct (professional_score_bounds cd job) as [H0 H100].
  repeat split; try reflexivity.
  - lra.
  - intros m [= <-]. by apply Qltb_ge.
Qed.

(** X5. While the model service is down, every entry of a ranking
    comes from the fallback analysis: its compatibility score is 0.7
    times its professional fit, at most 70, its cultural fit is 50,
    its recommendation is EM_ANALISE and it has no red flag; so a
    minimum compatibility above 70 leaves the ranking empty. *)
Theorem service_down_caps_scores `{PyRuntime}
    (request : CandidateRankingRequest) (w : world) :
  (forall i j, w_reply w i j = CompletionError) ->
  match fst (rank_candidates request w) with
  | HttpError status => status = 404%Z
  | HttpOk out =>
      Forall (fun e =>
                (re_compatibility_score e <= 70)%Q
                /\ (re_compatibility_score e
                    == re_professional_fit_score e * (7 # 10))%Q
                /\ (re_cultural_fit_score e == 50)%Q
                /\ re_recommendation e = JStr "EM_ANALISE"
                /\ re_red_flags e = JArr []) out
      /\ (forall m, min_compatibility request = Some m -> (70 < m)%Q -> out = [])
  end.
Proof.
  intros Hdown. unfold rank_candidates.
  pose proof (get_job_data_data (job_id request) w) as [Hd1 _].
  destruct (get_job_data (job_id request) w) as [[job|] w1]; [|reflexivity].
  simpl in Hd1. apply data_inv in Hd1 as (He1 & _).
  pose proof (get_all_candidates_data w1) as Hd2.
  destruct (get_all_candidates w1) as [all w2]. simpl in Hd2.
  apply data_inv in Hd2 as (He2 & _).
  destruct all as [|c all]; [by split|].
  assert (Henv : env w2 = env w) by congruence.
  pose proof (rank_loop_entries
                (fun e => (re_compatibility_score e <= 70)%Q
                   /\ (re_compatibility_score e
                       == re_professional_fit_score e * (7 # 10))%Q
                   /\ (re_cultural_fit_score e == 50)%Q
                   /\ re_recommendation e = JStr "EM_ANALISE"
                   /\ re_red_flags e = JArr []
                   /\ (forall m, min_compatibility request = Some m ->
                         (m <= re_compatibility_score e)%Q))
                request job w (c :: all) [] w2) as Hall.
  destruct (rank_loop request job (c :: all) [] w2) as [ranked w3].
  simpl in Hall.
  assert (Hgood : Forall
            (fun e => (re_compatibility_score e <= 70)%Q
               /\ (re_compatibility_score e
                   == re_professional_fit_score e * (7 # 10))%Q
               /\ (re_cultural_fit_score e == 50)%Q
               /\ re_recommendation e = JStr "EM_ANALISE"
               /\ re_red_flags e = JArr []
               /\ (forall m, min_compatibility request = Some m ->
                     (m <= re_compatibility_score e)%Q))
            (truncate (limit request) (sort_desc by_compatibility ranked))).
  { apply truncate_Forall. rewrite (sort_desc_perm by_compatibility).
    apply Hall; [|exact Henv|constructor].
    intros c' w' e w'' He Ht. apply (rank_try_service_down request job c' w' e w'');
      [|exact Ht].
    intros i j. apply env_inv in He as (_ & _ & Hr & _). by rewrite Hr. }
  simpl. split.
  - eapply Forall_impl; [exact Hgood|]. intros e (? & ? & ? & ? & ? & _). auto.
  - intros m Hm Hlt.
    destruct (truncate (limit request) (sort_desc by_compatibility ranked))
      as [|e out]; [reflexivity|exfalso].
    apply Forall_inv in Hgood as (Hle & _ & _ & _ & _ & Hmin).
    specialize (Hmin m Hm). lra.
Qed.

Lemma service_down_caps_scores_witness :
  match fst (@rank_candidates sample_runtime sample_request (sample_world healthy)) with
  | HttpError status => status = 404%Z
  | HttpOk out =>
      Forall (fun e =>
                (re_compatibility_score e <= 70)%Q
                /\ (re_compatibility_score e
                    == re_professional_fit_score e * (7 # 10))%Q
                /\ (re_cultural_fit_score e == 50)%Q
                /\ re_recommendation e = JStr "EM_ANALISE"
                /\ re_red_flags e = JArr []) out
      /\ (forall m, min_compatibility sample_request = Some m -> (70 < m)%Q ->
            out = [])
  end.
Proof.
  apply (@service_down_caps_scores sample_runtime sample_request
           (sample_world healthy)).
  reflexivity.
Defined.

(* ================================================================== *)
(** ** Proofs: ties, and the search endpoint *)
(* ================================================================== *)

(** The stable sort leaves the elements of one class in their order,
    when two elements of the class always compare as equal. *)
Lemma insert_desc_filter {A} (geb : A -> A -> bool) (p : A -> bool)
    (x : A) (l : list A) :
  (forall y, p x = true -> p y = true -> geb x y = true) ->
  List.filter p (insert_desc geb x l) = List.filter p (x :: l).
Proof.
  intros Hclass. induction l as [|y l IH]; [reflexivity|].
  cbn [insert_desc]. destruct (geb x y) eqn:E; [reflexivity|].
  cbn [List.filter] in *. rewrite IH.
  destruct (p x) eqn:Ex, (p y) eqn:Ey; try reflexivity.
  rewrite (Hclass y eq_refl Ey) in E. discriminate E.
Qed.

Lemma sort_desc_filter {A} (geb : A -> A -> bool) (p : A -> bool) (l : list A) :
  (forall x y, p x = true -> p y = true -> geb x y = true) ->
  List.filter p (sort_desc geb l) = List.filter p l.
Proof.
  intros Hclass. induction l as [|x l IH]; [reflexivity|].
  cbn [sort_desc]. rewrite insert_desc_filter by (intros y; apply Hclass).
  cbn [List.filter]. by rewrite IH.
Qed.

Lemma same_score_compares (q : Q) (x y : scored) :
  Qeq_bool (relevance_score x) q = true ->
  Qeq_bool (relevance_score y) q = true ->
  by_relevance x y = true.
Proof.
  intros Hx%Qeq_bool_iff Hy%Qeq_bool_iff. unfold by_relevance.
  apply Qle_bool_iff. rewrite Hx, Hy. apply Qle_refl.
Qed.

Lemma filter_and {A} (p r : A -> bool) (l : list A) :
  List.filter p (List.filter r l) = List.filter (fun x => p x && r x) l.
Proof.
  induction l as [|x l IH]; [reflexivity|]. cbn [List.filter].
  destruct (r x); cbn [List.filter]; rewrite ?andb_true_r, ?andb_false_r;
    [destruct (p x)|]; by rewrite IH.
Qed.

Lemma filter_scored (score : talent -> Q) (p : scored -> bool) (l : list talent) :
  candidate <$> List.filter p
    ((fun c => {| candidate := c; relevance_score := score c |}) <$> l)
  = List.filter (fun c => p {| candidate := c; relevance_score := score c |}) l.
Proof.
  induction l as [|c l IH]; [reflexivity|]. csimpl. cbn [List.filter].
  destruct (p _); csimpl; by rewrite IH.
Qed.

(** X6. Ties keep the order of the pool.  On the criteria path the
    candidates that share a score come out in the order in which they
    were scored, and on the text path the candidates that share a
    positive score come out in the order of the pool. *)
Theorem ties_keep_pool_order `{PyRuntime} (candidates : list talent)
    (criteria : json) (query : string) (q : Q) :
  match score_all criteria candidates with
  | Ok pool =>
      candidate <$> pool = candidates
      /\ exists out,
           _rank_candidates_by_criteria candidates criteria = Ok out
           /\ List.filter (fun s => Qeq_bool (relevance_score s) q) out
              = List.filter (fun s => Qeq_bool (relevance_score s) q) pool
  | Raise e => _rank_candidates_by_criteria candidates criteria = Raise e
  end
  /\ candidate <$> List.filter (fun s => Qeq_bool (relevance_score s) q)
                     (_simple_text_search candidates query)
     = List.filter
         (fun c => Qeq_bool (text_score (str_lower query) c) q
                   && Qltb 0 (text_score (str_lower query) c))
         candidates.
Proof.
  split.
  - unfold _rank_candidates_by_criteria.
    destruct (score_all criteria candidates) as [pool|e] eqn:Es; [|reflexivity].
    split; [by apply (score_all_spec _ _ _ Es)|].
    eexists. split; [reflexivity|].
    apply sort_desc_filter. intros x y. apply same_score_compares.
  - unfold _simple_text_search.
    rewrite filter_and, sort_desc_filter, filter_scored.
    + reflexivity.
    + intros x y [Hx _]%andb_true_iff [Hy _]%andb_true_iff.
      by apply (same_score_compares q).
Qed.

(** What the preparation of the search keeps of the pool: every
    prepared candidate is a found candidate of the pool. *)
Lemma collect_candidates_spec (w0 : world) (l : list user_row)
    (acc : list talent) (w : world) (out : list talent) (w' : world) :
  let found := fun t =>
    exists c row, c ∈ l /\ w_candidate w0 (u_id c) = Some row
      /\ t = {| t_id := u_id row; t_name := u_nome row; t_email := u_email row;
                t_skills := w_skills_of w0 (u_id c); t_profile := EmptyString;
                t_level := EmptyString; t_area := EmptyString |} in
  env w = env w0 ->
  collect_candidates l acc w = (Ok out, w') ->
  exists new, out = (acc ++ new)%list /\ Forall found new.
Proof.
  intros found. revert acc w. induction l as [|c l IH]; intros acc w Henv; simpl.
  - intros [= <- _]. exists []. split; [by rewrite app_nil_r|constructor].
  - pose proof (get_candidate_data_data (u_id c) w) as Hd.
    destruct (get_candidate_data (u_id c) w) as [[[full|]|e] w1] eqn:Eg;
      [| |discriminate]; simpl in Hd; apply data_inv in Hd as (He & _).
    + intros Hrest. apply IH in Hrest as (new & -> & Hnew); [|congruence].
      assert (Hfull : found (talent_of full)).
      { apply env_inv in Henv as (Hc & Hs & _ & Hf).
        unfold get_candidate_data in Eg.
        destruct (w_fault w (GetCandidateData (u_id c))); try discriminate.
        simpl in Eg. destruct (w_candidate w (u_id c)) as [row|] eqn:Er;
          [|discriminate].
        injection Eg as <- _. exists c, row.
        split; [by left|]. split; [by rewrite <- Hc|].
        unfold talent_of. simpl. by rewrite Hs. }
      exists (talent_of full :: new). split; [by rewrite <- app_assoc|].
      constructor; [exact Hfull|].
      eapply Forall_impl; [exact Hnew|].
      intros t (c' & row & Hin & Hrow & ->). exists c', row. split; [by right|done].
    + intros Hrest. apply IH in Hrest as (new & -> & Hnew); [|congruence].
      exists new. split; [reflexivity|].
      eapply Forall_impl; [exact Hnew|].
      intros t (c' & row & Hin & Hrow & ->). exists c', row. split; [by right|done].
Qed.

(** The records of the service's search: candidates of its input with
    a relevance between 0 and 100. *)
Lemma search_results_bounds `{PyRuntime} (reply : completion)
    (query : string) (candidates : list talent) :
  Forall (fun s => (0 <= relevance_score s)%Q /\ (relevance_score s <= 100)%Q
                   /\ candidate s ∈ candidates)
    (search_talent_pool reply query candidates).
Proof.
  unfold search_talent_pool.
  destruct (search_body reply candidates) as [out|e] eqn:E.
  - unfold search_body in E. destruct reply as [|[content|]]; try discriminate.
    destruct (json_loads content) as [criteria|]; [|discriminate].
    eapply Forall_impl; [exact (rank_by_criteria_spec _ _ _ E)|].
    intros s [Hq Hin]. apply criteria_score_bounds in Hq as [H0 H100]. auto.
  - apply Forall_forall. intros s (c & Hc & -> & _)%text_search_elem. simpl.
    destruct (text_score_bounds (str_lower query) c) as [H0 H100]. auto.
Qed.

(** X7. Whatever the model service answers, an answer of the search
    endpoint is a list no longer than a non-negative limit in which
    every record is a candidate of the pool that was found, with the
    name, e-mail and skills of the database and a relevance between 0
    and 100; the only error status is 500. *)
Theorem search_endpoint_results `{PyRuntime} (reply : completion)
    (request : TalentPoolSearchRequest) (w : world) :
  match fst (api_search_talent_pool reply request w) with
  | HttpError status => status = 500%Z
  | HttpOk out =>
      (forall n, tp_limit request = Some n -> (0 <= n)%Z ->
         (Z.of_nat (length out) <= n)%Z)
      /\ Forall (fun r =>
           (0 <= tpc_relevance r)%Q /\ (tpc_relevance r <= 100)%Q
           /\ exists c row,
                c ∈ w_candidates w /\ w_candidate w (u_id c) = Some row
                /\ tpc_candidate_id r = u_id row /\ tpc_name r = u_nome row
                /\ tpc_email r = u_email row
                /\ tpc_skills r = w_skills_of w (u_id c)) out
  end.
Proof.
  unfold api_search_talent_pool.
  pose proof (get_all_candidates_data w) as Hd.
  assert (Hpool : fst (get_all_candidates w) = [] \/
                  fst (get_all_candidates w) = w_candidates w).
  { unfold get_all_candidates. destruct (w_fault w GetAllCandidates); auto. }
  destruct (get_all_candidates w) as [all w1]. simpl in Hd, Hpool.
  apply data_inv in Hd as (He & _).
  destruct all as [|c all].
  { simpl. split; [intros; simpl; lia|constructor]. }
  destruct Hpool as [Hpool|Hpool]; [discriminate|].
  destruct (collect_candidates (c :: all) [] w1) as [[data_list|e] w2] eqn:Ec;
    [|reflexivity].
  apply (collect_candidates_spec w) in Ec as (new & -> & Hnew); [|exact He].
  simpl. split.
  - intros n Hn Hpos. rewrite Hn, length_fmap. by apply length_py_slice_to.
  - apply Forall_fmap, truncate_Forall.
    eapply Forall_impl; [apply search_results_bounds|].
    intros s (H0 & H100 & Hin). simpl. split; [exact H0|]. split; [exact H100|].
    rewrite Forall_forall in Hnew. destruct (Hnew _ Hin) as (c' & row & Hc & Hrow & Ht).
    exists c', row. rewrite <- Hpool. split; [exact Hc|]. split; [exact Hrow|].
    by rewrite Ht.
Qed.

Lemma collect_candidates_raises (w0 : world) (l : list user_row) (c : user_row)
    (acc : list talent) (w : world) :
  env w = env w0 -> c ∈ l ->
  w_fault w0 (GetCandidateData (u_id c)) = AcquireFails ->
  exists e, fst (collect_candidates l acc w) = Raise e.
Proof.
  intros Henv Hin Hfault. revert acc w Henv.
  induction l as [|x l IH]; intros acc w Henv; [by apply elem_of_nil in Hin|].
  simpl. pose proof (get_candidate_data_data (u_id x) w) as Hd.
  destruct (get_candidate_data (u_id x) w) as [[[full|]|e] w1] eqn:Eg;
    [| |by exists e]; simpl in Hd; apply data_inv in Hd as (He & _).
  all: apply elem_of_cons in Hin as [->|Hin]; [|apply IH; [exact Hin|congruence]].
  all: exfalso; unfold get_candidate_data in Eg;
    rewrite (env_fault _ _ Henv), Hfault in Eg; discriminate Eg.
Qed.

(** X8. The search endpoint does not skip a candidate whose lookup
    raises: when the database hands out no connection for the lookup
    of one candidate of the pool, the whole search is answered with
    500 (the ranking endpoint skips such a candidate). *)
Theorem search_fails_on_unreachable_candidate `{PyRuntime} (reply : completion)
    (request : TalentPoolSearchRequest) (w : world) (c : user_row) :
  w_fault w GetAllCandidates = NoFault ->
  c ∈ w_candidates w ->
  w_fault w (GetCandidateData (u_id c)) = AcquireFails ->
  fst (api_search_talent_pool reply request w) = HttpError 500.
Proof.
  intros Hall Hin Hfault. unfold api_search_talent_pool.
  pose proof (get_all_candidates_data w) as Hd.
  pose proof (get_all_candidates_ok w Hall) as Hpool.
  destruct (get_all_candidates w) as [all w1]. simpl in Hd, Hpool. subst all.
  apply data_inv in Hd as (He & _).
  destruct (w_candidates w) as [|x l] eqn:El; [by apply elem_of_nil in Hin|].
  destruct (collect_candidates_raises w (x :: l) c [] w1 He Hin Hfault) as [e Hr].
  destruct (collect_candidates (x :: l) [] w1) as [[data_list|e'] w2];
    [discriminate Hr|reflexivity].
Qed.

Lemma search_fails_on_unreachable_candidate_witness :
  fst (@api_search_talent_pool sample_runtime CompletionError
         {| tp_query := "python"; tp_limit := Some 20%Z |}
         (sample_world bruno_unreachable)) = HttpError 500.
Proof.
  apply (@search_fails_on_unreachable_candidate sample_runtime CompletionError
           {| tp_query := "python"; tp_limit := Some 20%Z |}
           (sample_world bruno_unreachable) bruno).
  - reflexivity.
  - right. left.
  - reflexivity.
Defined.

(** X9. In the search endpoint every candidate has the empty level
    and no area, so the criteria path cannot tell candidates apart by
    level or area: a required level other than "qualquer" gives every
    candidate the same 30 points, a required area gives nobody its 20
    points, and the score is the skill points plus that constant. *)
Theorem endpoint_scores_by_skills_only `{PyRuntime} (skills : list string)
    (level area : string) (candidate_full : candidate_data) :
  str_lower EmptyString = EmptyString ->
  exists q,
    criteria_score (criteria_object skills level area) (talent_of candidate_full)
    = Ok q
    /\ (q == skill_points skills (talent_of candidate_full)
             + (if negb (String.eqb (str_lower level) EmptyString)
                   && negb (String.eqb (str_lower level) "qualquer")
                then 30 else 0))%Q.
Proof.
  intros Hlower.
  destruct (score_all_typed skills level area [talent_of candidate_full])
    as [out Hout].
  cbn [score_all] in Hout. unfold obind in Hout.
  destruct (criteria_score _ (talent_of candidate_full)) as [q|] eqn:Eq;
    [|discriminate].
  exists q. split; [reflexivity|].
  rewrite (criteria_score_typed _ _ _ _ _ Eq). unfold guarded_score.
  cbn [talent_of t_level t_area]. rewrite Hlower.
  rewrite contains_empty, orb_true_r, andb_true_r, contains_in_empty.
  destruct (String.eqb (str_lower area) EmptyString); cbn [negb andb]; ring.
Qed.

Lemma endpoint_scores_by_skills_only_witness :
  exists q,
    @criteria_score sample_runtime (criteria_object ["Python"] "Senior" "dados")
      (talent_of {| cd_id := 1; cd_name := "Ana"; cd_email := EmptyString;
                    cd_skills := ["python"; "sql"]; cd_profile := EmptyString |})
    = Ok q
    /\ (q == @skill_points sample_runtime ["Python"]
               (talent_of {| cd_id := 1; cd_name := "Ana"; cd_email := EmptyString;
                             cd_skills := ["python"; "sql"];
                             cd_profile := EmptyString |})
             + (if negb (String.eqb (@str_lower sample_runtime "Senior") EmptyString)
                   && negb (String.eqb (@str_lower sample_runtime "Senior") "qualquer")
                then 30 else 0))%Q.
Proof.
  apply (@endpoint_scores_by_skills_only sample_runtime ["Python"] "Senior" "dados"
           {| cd_id := 1; cd_name := "Ana"; cd_email := EmptyString;
              cd_skills := ["python"; "sql"]; cd_profile := EmptyString |}).
  reflexivity.
Defined.

(* ================================================================== *)
(** ** Proofs: the analysis and comment endpoints *)
(* ================================================================== *)

Lemma get_candidate_data_found (candidate_id : Z) (w : world) (row : user_row) :
  w_fault w (GetCandidateData candidate_id) = NoFault ->
  w_candidate w candidate_id = Some row ->
  get_candidate_data candidate_id w
  = (Ok (Some {| cd_id := u_id row; cd_name := u_nome row; cd_email := u_email row;
                 cd_skills := w_skills_of w candidate_id;
                 cd_profile := EmptyString |}),
     release (acquire w)).
Proof.
  unfold get_candidate_data. intros -> Hrow.
  cbn [acquire set_leased w_candidate]. by rewrite Hrow.
Qed.

Lemma get_job_data_found (id : Z) (w : world) (row : job_row) :
  w_fault w (GetJobData id) = NoFault ->
  w_job w id = Some row ->
  get_job_data id w
  = (Some {| jd_id := j_id row; jd_title := j_titulo row;
             jd_description := default EmptyString (j_descricao row);
             jd_level := default EmptyString (j_nivel row);
             jd_required_skills := w_job_skills w id |},
     release (acquire w)).
Proof.
  unfold get_job_data. intros -> Hrow.
  cbn [acquire set_leased w_job]. by rewrite Hrow.
Qed.

Lemma save_model_result_leased (w : world) (candidate_id id : Z) (c u p : Q)
    (text flags rec : json) :
  w_leased (snd (save_model_result candidate_id id c u p text flags rec w))
  = w_leased w.
Proof.
  unfold save_model_result.
  destruct (w_fault w (SaveModelResult candidate_id id)); try reflexivity.
  destruct (join_if_any flags); [|reflexivity].
  cbv zeta. cbn [getvalue_0_if_any].
  by destruct (w_next_id (acquire w) =? 0)%Z.
Qed.

(** X10. When the candidate and the job are found and the model
    service is down, the analysis endpoint answers 200 with the
    fallback analysis of the stored skills: professional fit
    (|matched| / |required|) × 100 (0 without required skill),
    compatibility that times 0.7, cultural fit 50, recommendation
    EM_ANALISE.  Both connections are back in the pool; the save of
    the analysis fails like every save (ids above 0), so the table of
    model results is as before and the failure is in the log. *)
Theorem analyze_candidate_service_down `{PyRuntime} (request : AIAnalysisRequest)
    (w : world) (row : user_row) (jrow : job_row) :
  w_fault w (GetCandidateData (ar_candidate_id request)) = NoFault ->
  w_candidate w (ar_candidate_id request) = Some row ->
  w_fault w (GetJobData (ar_job_id request)) = NoFault ->
  w_job w (ar_job_id request) = Some jrow ->
  w_reply w (ar_candidate_id request) (ar_job_id request) = CompletionError ->
  (0 < w_next_id w)%Z ->
  let required : gset string := list_to_set (w_job_skills w (ar_job_id request)) in
  let matched : gset string :=
    list_to_set (w_skills_of w (ar_candidate_id request)) ∩ required in
  exists r w',
    analyze_candidate request w = (HttpOk r, w')
    /\ resp_professional_fit_score r
       = (if decide (required = ∅) then 0
          else Qnat (size matched) / Qnat (size required) * 100)%Q
    /\ resp_compatibility_score r = (resp_professional_fit_score r * (7 # 10))%Q
    /\ resp_cultural_fit_score r = 50%Q
    /\ resp_recommendation r = JStr "EM_ANALISE"
    /\ w_leased w' = w_leased w
    /\ w_model_results w' = w_model_results w
    /\ LogGateway (SaveModelResult (ar_candidate_id request) (ar_job_id request))
       ∈ w_log w'.
Proof.
  intros Hf1 Hrow Hf2 Hjob Hreply Hpos required matched.
  unfold analyze_candidate.
  rewrite (get_candidate_data_found _ w row Hf1 Hrow).
  set (w1 := release (acquire w)).
  rewrite (get_job_data_found _ w1 jrow Hf2 Hjob).
  set (w2 := release (acquire w1)).
  assert (Hdown : w_reply w2 (ar_candidate_id request) (ar_job_id request)
                  = CompletionError) by exact Hreply.
  rewrite Hdown. cbn [analyze_candidate_compatibility analyze_body].
  set (cd := {| cd_id := u_id row; cd_name := u_nome row; cd_email := u_email row;
                cd_skills := w_skills_of w (ar_candidate_id request);
                cd_profile := EmptyString |}).
  set (job := {| jd_id := j_id jrow; jd_title := j_titulo jrow;
                 jd_description := default EmptyString (j_descricao jrow);
                 jd_level := default EmptyString (j_nivel jrow);
                 jd_required_skills := w_job_skills w1 (ar_job_id request) |}).
  assert (Hpos2 : (0 < w_next_id w2)%Z) by exact Hpos.
  pose proof (save_model_result_rolls_back
                (ar_candidate_id request) (ar_job_id request)
                (compatibility_score (_get_fallback_analysis cd job))
                (cultural_fit_score (_get_fallback_analysis cd job))
                (professional_fit_score (_get_fallback_analysis cd job))
                (ai_analysis (_get_fallback_analysis cd job))
                (red_flags (_get_fallback_analysis cd job))
                (recommendation (_get_fallback_analysis cd job)) w2 Hpos2)
    as (_ & Hrows & _ & Hlog).
  pose proof (save_model_result_leased w2
                (ar_candidate_id request) (ar_job_id request)
                (compatibility_score (_get_fallback_analysis cd job))
                (cultural_fit_score (_get_fallback_analysis cd job))
                (professional_fit_score (_get_fallback_analysis cd job))
                (ai_analysis (_get_fallback_analysis cd job))
                (red_flags (_get_fallback_analysis cd job))
                (recommendation (_get_fallback_analysis cd job))) as Hleased.
  destruct (save_model_result _ _ _ _ _ _ _ _ w2) as [i w3].
  cbn [fst snd] in Hrows, Hlog, Hleased.
  eexists. exists w3. split; [reflexivity|]. cbn [resp_professional_fit_score
    resp_compatibility_score resp_cultural_fit_score resp_recommendation].
  split; [reflexivity|]. split; [reflexivity|]. split; [reflexivity|].
  split; [reflexivity|].
  split; [rewrite Hleased; by destruct w|].
  split; [exact Hrows|exact Hlog].
Qed.

Lemma analyze_candidate_service_down_witness :
  let request := {| ar_candidate_id := 1; ar_job_id := 7 |} in
  let w := sample_world healthy in
  let required : gset string := list_to_set (w_job_skills w 7) in
  let matched : gset string := list_to_set (w_skills_of w 1) ∩ required in
  exists r w',
    @analyze_candidate sample_runtime request w = (HttpOk r, w')
    /\ resp_professional_fit_score r
       = (if decide (required = ∅) then 0
          else Qnat (size matched) / Qnat (size required) * 100)%Q
    /\ resp_compatibility_score r = (resp_professional_fit_score r * (7 # 10))%Q
    /\ resp_cultural_fit_score r = 50%Q
    /\ resp_recommendation r = JStr "EM_ANALISE"
    /\ w_leased w' = w_leased w
    /\ w_model_results w' = w_model_results w
    /\ LogGateway (SaveModelResult 1 7) ∈ w_log w'.
Proof.
  apply (@analyze_candidate_service_down sample_runtime
           {| ar_candidate_id := 1; ar_job_id := 7 |} (sample_world healthy) ana
           {| j_id := 7; j_titulo := "Dev"; j_descricao := None;
              j_nivel := Some "Pleno" |}); reflexivity.
Defined.

(** X11. The analysis endpoint answers 404 for a candidate that is not
    found, and for a found candidate whose job is not found; either
    way one connection stays out of the pool. *)
Theorem analyze_candidate_not_found `{PyRuntime} (request : AIAnalysisRequest)
    (w : world) :
  w_fault w (GetCandidateData (ar_candidate_id request)) = NoFault ->
  w_candidate w (ar_candidate_id request) = None
  \/ (w_fault w (GetJobData (ar_job_id request)) = NoFault
      /\ w_job w (ar_job_id request) = None) ->
  analyze_candidate request w = (HttpError 404, acquire w).
Proof.
  intros Hf1 Hmissing. unfold analyze_candidate.
  destruct (w_candidate w (ar_candidate_id request)) as [row|] eqn:Hrow.
  - destruct Hmissing as [|[Hf2 Hjob]]; [discriminate|].
    unfold get_candidate_data. rewrite Hf1.
    cbn [acquire release set_leased w_candidate w_leased].
    rewrite Hrow. cbn [Nat.pred].
    rewrite get_job_data_leaks; [|exact Hf2|exact Hjob].
    reflexivity.
  - by rewrite (get_candidate_data_leaks _ _ Hf1 Hrow).
Qed.

Lemma analyze_candidate_not_found_witness :
  @analyze_candidate sample_runtime {| ar_candidate_id := 1; ar_job_id := 99 |}
    (sample_world healthy)
  = (HttpError 404, acquire (sample_world healthy)).
Proof.
  apply (@analyze_candidate_not_found sample_runtime
           {| ar_candidate_id := 1; ar_job_id := 99 |} (sample_world healthy)).
  - reflexivity.
  - right. split; reflexivity.
Defined.

(** X12. The endpoint that lists comments answers 200 on every path
    (for rows whose creation time and author are filled, as the
    defaults of the table fill them): a failure of the database is
    logged by the gateway and shown as an empty list; on a healthy
    database the comments are those of the candidate, newest first. *)
Theorem get_comments_hides_failures (candidate_id : Z) (w : world) :
  exists out,
    fst (get_comments candidate_id w) = HttpOk out
    /\ StronglySorted (fun x y => (cr_created_at y <= cr_created_at x)%Z) out
    /\ match w_fault w (GetCandidateComments candidate_id) with
       | NoFault =>
           cr_comment_id <$> out
           = cm_id <$> select_comments candidate_id (w_comments w)
           /\ w_log (snd (get_comments candidate_id w)) = w_log w
       | _ =>
           out = []
           /\ w_log (snd (get_comments candidate_id w))
              = (w_log w ++ [LogGateway (GetCandidateComments candidate_id)])%list
       end.
Proof.
  unfold get_comments, get_candidate_comments.
  destruct (w_fault w (GetCandidateComments candidate_id));
    cbn [fst snd]; eexists; (split; [reflexivity|]);
    try (split; [constructor|by split]).
  split.
  - pose proof (select_comments_descending candidate_id (w_comments w)) as Hs.
    cbn [acquire set_leased w_comments].
    induction Hs as [|r rows Hrows IH Hr]; csimpl; constructor; [exact IH|].
    rewrite <- list_fmap_compose. apply Forall_fmap.
    eapply Forall_impl; [exact Hr|]. intros y Hy. unfold by_created_at in Hy.
    simpl. lia.
  - split; [|reflexivity]. cbn [acquire set_leased w_comments].
    rewrite <- !list_fmap_compose. reflexivity.
Qed.

(* ================================================================== *)
(** ** Proofs: the skills of a job *)
(* ================================================================== *)

Lemma count_job_skill_zero (id skill_id : Z) (rows : list job_skill_row) :
  count_job_skill id skill_id rows = 0%nat ->
  (id, skill_id) ∉ (fun r => (js_job_id r, js_skill_id r)) <$> rows.
Proof.
  unfold count_job_skill. induction rows as [|r rows IH]; csimpl;
    [intros _; apply not_elem_of_nil|].
  cbn [List.filter].
  destruct ((js_job_id r =? id)%Z && (js_skill_id r =? skill_id)%Z) eqn:E;
    [discriminate|].
  intros Hrest. apply not_elem_of_cons. split; [|by apply IH].
  intros [= Hj Hs]. rewrite <- Hj, <- Hs, !Z.eqb_refl in E. discriminate E.
Qed.

Lemma count_job_skill_last (id skill_id : Z) (rows : list job_skill_row)
    (row : job_skill_row) :
  js_job_id row = id -> js_skill_id row = skill_id ->
  (0 <? count_job_skill id skill_id (rows ++ [row]))%nat = true.
Proof.
  intros Hj Hs. unfold count_job_skill. rewrite List.filter_app, length_app.
  cbn [List.filter]. rewrite Hj, Hs, !Z.eqb_refl. simpl.
  apply Nat.ltb_lt. lia.
Qed.

(** X13. [add_skill_to_job] keeps the pairs (job, skill) of JOB_SKILLS
    unique: whatever the database does, a table without repeated pair
    has none after the call. *)
Theorem add_skill_keeps_pairs_unique (fault : db_fault) (id skill_id : Z)
    (obrigatoria : bool) (t : job_skills) (w : world) :
  NoDup (skill_pairs t) ->
  NoDup (skill_pairs (snd (fst (add_skill_to_job fault id skill_id obrigatoria t w)))).
Proof.
  intros Hnodup. unfold add_skill_to_job. destruct fault; try exact Hnodup.
  destruct (0 <? count_job_skill id skill_id (jst_rows t))%nat eqn:E;
    [exact Hnodup|].
  apply Nat.ltb_ge in E.
  assert (Hzero : count_job_skill id skill_id (jst_rows t) = 0%nat) by lia.
  apply count_job_skill_zero in Hzero.
  unfold skill_pairs in *. cbn [fst snd jst_rows]. rewrite fmap_app.
  apply NoDup_app. split; [exact Hnodup|]. split.
  - intros pair Hin Hlast. apply list_elem_of_singleton in Hlast. by subst pair.
  - apply NoDup_singleton.
Qed.

Lemma add_skill_keeps_pairs_unique_witness :
  NoDup (skill_pairs
           (snd (fst (add_skill_to_job NoFault 7 3 true
                        {| jst_rows := []; jst_next_id := 1 |}
                        (sample_world healthy))))).
Proof.
  apply (add_skill_keeps_pairs_unique NoFault 7 3 true
           {| jst_rows := []; jst_next_id := 1 |} (sample_world healthy)).
  apply NoDup_nil_2.
Defined.

(** X14. A skill that was added to a job is not added again: after a
    call that answered an id, every further call for the same job and
    skill answers [None] and leaves the table as it is, whatever the
    flag and whatever the database does. *)
Theorem add_skill_twice_is_rejected (fault fault' : db_fault) (id skill_id : Z)
    (obrigatoria obrigatoria' : bool) (t : job_skills) (w w' : world)
    (job_skill_id : Z) :
  fst (fst (add_skill_to_job fault id skill_id obrigatoria t w)) = Some job_skill_id ->
  let t1 := snd (fst (add_skill_to_job fault id skill_id obrigatoria t w)) in
  fst (fst (add_skill_to_job fault' id skill_id obrigatoria' t1 w')) = None
  /\ snd (fst (add_skill_to_job fault' id skill_id obrigatoria' t1 w')) = t1.
Proof.
  unfold add_skill_to_job at 1 2. destruct fault; try discriminate.
  destruct (0 <? count_job_skill id skill_id (jst_rows t))%nat; [discriminate|].
  cbn [fst snd]. intros _. unfold add_skill_to_job.
  destruct fault'; try by split.
  cbn [jst_rows]. rewrite count_job_skill_last by reflexivity. by split.
Qed.

Lemma add_skill_twice_is_rejected_witness :
  let t := {| jst_rows := []; jst_next_id := 1 |} in
  let w := sample_world healthy in
  let t1 := snd (fst (add_skill_to_job NoFault 7 3 true t w)) in
  fst (fst (add_skill_to_job NoFault 7 3 false t1 w)) = None
  /\ snd (fst (add_skill_to_job NoFault 7 3 false t1 w)) = t1.
Proof.
  apply (add_skill_twice_is_rejected NoFault NoFault 7 3 true false
           {| jst_rows := []; jst_next_id := 1 |}
           (sample_world healthy) (sample_world healthy) 1).
  reflexivity.
Defined.

(* ================================================================== *)
(** ** Proofs: the invitation to a meeting *)
(* ================================================================== *)

Ltac find_piece :=
  repeat first
    [ apply contains_app_l; vm_compute; reflexivity
    | apply contains_app_r ].

(** X15. An online meeting without a link is announced in two ways:
    the plain text of the invitation says "Tipo: Reunião Presencial"
    and the HTML part says "Reunião Online". *)
Theorem online_without_link_is_announced_twice (email_from : option string)
    (candidate_email candidate_name meeting_date meeting_time : string)
    (meeting_link notes : option string) :
  given meeting_link = false ->
  let m := build_invitation email_from candidate_email candidate_name
             meeting_date meeting_time "online" meeting_link notes in
  str_contains "Tipo: Reunião Presencial" (inv_text m) = true
  /\ str_contains "<strong>Tipo:</strong> Reunião Online" (inv_html m) = true.
Proof.
  intros Hlink m. subst m. unfold build_invitation. cbn [inv_text inv_html].
  rewrite Hlink. change (String.eqb "online" "online") with true.
  cbn [andb]. split.
  - unfold text_presencial. find_piece.
  - unfold html_body. change (String.eqb "online" "online") with true.
    cbn iota.
    repeat match goal with
           | |- str_contains _ ("      <li><strong>Tipo:</strong> " +:+ _) = true =>
               fail 1
           | |- _ => apply contains_app_r
           end.
    rewrite <- append_assoc. apply contains_app_l. vm_compute. reflexivity.
Qed.

Lemma online_without_link_is_announced_twice_witness :
  let m := build_invitation (Some "rh@example.com") "ana@example.com" "Ana"
             "2025-01-10" "14:00" "online" None None in
  str_contains "Tipo: Reunião Presencial" (inv_text m) = true
  /\ str_contains "<strong>Tipo:</strong> Reunião Online" (inv_html m) = true.
Proof.
  apply (online_without_link_is_announced_twice (Some "rh@example.com")
           "ana@example.com" "Ana" "2025-01-10" "14:00" None None).
  reflexivity.
Defined.

(** X16. A link is written into the HTML part of every invitation,
    also of a meeting that is not online, while the plain text of a
    meeting that is not online does not depend on the link. *)
Theorem link_reaches_html_only (email_from : option string)
    (candidate_email candidate_name meeting_date meeting_time meeting_type : string)
    (meeting_link notes : option string) :
  given meeting_link = true ->
  String.eqb meeting_type "online" = false ->
  let m := build_invitation email_from candidate_email candidate_name
             meeting_date meeting_time meeting_type meeting_link notes in
  str_contains (default EmptyString meeting_link) (inv_html m) = true
  /\ inv_text m
     = inv_text (build_invitation email_from candidate_email candidate_name
                   meeting_date meeting_time meeting_type None notes).
Proof.
  intros Hlink Htype m. subst m. unfold build_invitation.
  cbn [inv_text inv_html]. rewrite Htype. cbn [andb]. split; [|reflexivity].
  unfold html_body, html_link. rewrite Hlink, Htype. rewrite !append_assoc.
  repeat match goal with
         | |- str_contains ?n (?n +:+ _) = true => fail 1
         | |- _ => apply contains_app_r
         end.
  apply contains_app_l. clear.
  induction (default EmptyString meeting_link) as [|a l IH];
    [reflexivity|].
  cbn [str_contains String.prefix]. destruct (ascii_dec a a); [|done].
  apply orb_true_iff. left.
  clear. induction l as [|b l IH]; [reflexivity|].
  cbn [String.prefix]. by destruct (ascii_dec b b).
Qed.

Lemma link_reaches_html_only_witness :
  let m := build_invitation None "ana@example.com" "Ana" "2025-01-10" "14:00"
             "presencial" (Some "https://meet.example/abc") None in
  str_contains "https://meet.example/abc" (inv_html m) = true
  /\ inv_text m
     = inv_text (build_invitation None "ana@example.com" "Ana" "2025-01-10"
                   "14:00" "presencial" None None).
Proof.
  apply (link_reaches_html_only None "ana@example.com" "Ana" "2025-01-10" "14:00"
           "presencial" (Some "https://meet.example/abc") None); reflexivity.
Defined.

(** X1. No comment is ever saved.  [save_comment] reads the id of the
    inserted row from a cursor variable that it has just made, which
    holds nothing, so the call ends in its handler: it answers [None]
    and the table of comments is as before; the endpoint that adds a
    comment therefore always answers with an error status. *)
Theorem comment_is_never_saved (candidate_id : Z) (text : string)
    (tags : option (list string)) (w : world) :
  fst (save_comment candidate_id text tags w) = None
  /\ w_comments (snd (save_comment candidate_id text tags w)) = w_comments w
  /\ exists status, fst (add_comment candidate_id text tags w) = HttpError status.
Proof.
  destruct (save_comment_stores_nothing candidate_id text tags w) as [Hid Htable].
  split; [exact Hid|]. split; [exact Htable|].
  apply add_comment_never_succeeds.
Qed.
